(** * ValutaTrade Hub: the rate aggregation and resolution core

    A shallow embedding of the Python sources

    - [parser_service/config.py]      ([ParserConfig], [config]),
    - [parser_service/storage.py]     ([RatesStorage]),
    - [parser_service/api_clients.py] ([BaseApiClient._make_request]),
    - [parser_service/updater.py]     ([RatesUpdater.run_update]),
    - [infra/database.py]             ([DatabaseManager.get_rates] and the
                                        JSON files it reads and writes),
    - [core/currencies.py], [core/utils.py], [core/usecases.py]
                                       ([RateService.get_rate]),
    - [decorators.py]                 ([log_action], as it wraps
                                        [get_rate]),

    followed by the properties of the specification that were checked
    against them.

    Modelling conventions.

    - Python objects are the JSON fragment [value] below: [None], [bool],
      [int] (as [Z]), [float] (IEEE binary64, the kernel's [float]), [str]
      and [dict] with string keys, in insertion order.  JSON arrays occur
      only as the top level of a data file (the list that
      [DatabaseManager.read_json] returns).
    - Strings are ASCII text: [str.upper], [str.strip] and [str.isalnum]
      are modelled on ASCII characters.
    - Exceptions are values of [exn]; a computation returns [Ok] or
      [Raise].  Stateful code threads a [World]: the two JSON files, the
      updater's counters and the list of Quote Sources that were asked.
    - The clock and the providers are inputs ([Env], the [http] oracle of
      [_make_request]).  File writes succeed; logging is left out except
      where a log message's f-string evaluates an expression that can
      raise.  The settings are the defaults of [SettingsLoader]. *)

From Stdlib Require Import ZArith List String Ascii Bool Lia.
From Stdlib Require Import DecimalString.
From Stdlib Require Import Floats.PrimFloat Floats.SpecFloat Floats.FloatOps.
Import ListNotations.

Set Warnings "-inexact-float,-register-all".
Local Open Scope string_scope.
Local Open Scope Z_scope.

(** ** Python values *)

Inductive value : Type :=
| VNone
| VBool (b : bool)
| VInt (n : Z)
| VFloat (f : float)
| VStr (s : string)
| VDict (d : list (string * value)).

(** A [dict] with string keys, in insertion order. *)
Definition dict : Type := list (string * value).

(** [type(v).__name__] *)
Definition type_name (v : value) : string :=
  match v with
  | VNone => "NoneType"
  | VBool _ => "bool"
  | VInt _ => "int"
  | VFloat _ => "float"
  | VStr _ => "str"
  | VDict _ => "dict"
  end.

(** ** Exceptions *)

Inductive builtin : Type :=
| ZeroDivisionError
| TypeError
| KeyError
| ValueError
| AttributeError
| OverflowError.

(** [core/exceptions.py], and the built-in classes with their message. *)
Inductive exn : Type :=
| ApiRequestError (reason : string)
| InvalidCurrencyCodeError (currency_code : string)
| CurrencyNotFoundError (currency_code : string)
| RateUnavailableError (from_currency to_currency : string)
| Builtin (cls : builtin) (msg : string).

(** [str(e)]: the [message] each class passes to [Exception.__init__]. *)
Definition exn_str (e : exn) : string :=
  match e with
  | ApiRequestError reason =>
      "Ошибка при обращении к внешнему API: " ++ reason
  | InvalidCurrencyCodeError code =>
      "Некорректный код валюты: '" ++ code ++ "'"
  | CurrencyNotFoundError code =>
      "Неизвестная валюта '" ++ code ++ "'"
  | RateUnavailableError f t =>
      "Курс " ++ f ++ "→" ++ t ++ " недоступен"
  | Builtin _ msg => msg
  end.

Inductive result (A : Type) : Type :=
| Ok (a : A)
| Raise (e : exn).
Arguments Ok {A} a.
Arguments Raise {A} e.

Definition rbind {A B : Type} (r : result A) (k : A -> result B) : result B :=
  match r with
  | Ok a => k a
  | Raise e => Raise e
  end.

Declare Scope py_scope.
Delimit Scope py_scope with py.
Notation "x <- r ;; k" := (rbind r (fun x => k))
  (at level 61, r at next level, right associativity) : py_scope.

(** ** Strings *)

Definition is_lower (c : ascii) : bool :=
  ((97 <=? nat_of_ascii c) && (nat_of_ascii c <=? 122))%nat.

Definition is_upper (c : ascii) : bool :=
  ((65 <=? nat_of_ascii c) && (nat_of_ascii c <=? 90))%nat.

Definition is_digit (c : ascii) : bool :=
  ((48 <=? nat_of_ascii c) && (nat_of_ascii c <=? 57))%nat.

(** The ASCII characters for which [str.isspace] holds. *)
Definition is_space (c : ascii) : bool :=
  let n := nat_of_ascii c in
  (((9 <=? n) && (n <=? 13)) || ((28 <=? n) && (n <=? 32)))%nat.

Definition upper_char (c : ascii) : ascii :=
  if is_lower c then ascii_of_nat (nat_of_ascii c - 32) else c.

(** [s.upper()] *)
Fixpoint upper (s : string) : string :=
  match s with
  | EmptyString => EmptyString
  | String c s' => String (upper_char c) (upper s')
  end.

Fixpoint lstrip (s : string) : string :=
  match s with
  | EmptyString => EmptyString
  | String c s' => if is_space c then lstrip s' else s
  end.

Fixpoint rstrip (s : string) : string :=
  match s with
  | EmptyString => EmptyString
  | String c s' =>
      match rstrip s' with
      | EmptyString => if is_space c then EmptyString else String c EmptyString
      | r => String c r
      end
  end.

(** [s.strip()] *)
Definition strip (s : string) : string := rstrip (lstrip s).

Fixpoint all_chars (p : ascii -> bool) (s : string) : bool :=
  match s with
  | EmptyString => true
  | String c s' => p c && all_chars p s'
  end.

(** [s.isalnum()]: a non-empty string of letters and digits. *)
Definition isalnum (s : string) : bool :=
  match s with
  | EmptyString => false
  | _ => all_chars (fun c => is_lower c || is_upper c || is_digit c) s
  end.

(** [s.split("_", 1)]: [Some (a, b)] for the list [[a, b]], [None] for the
    one-element list [[s]] of a string without underscore. *)
Fixpoint split_underscore (s : string) : option (string * string) :=
  match s with
  | EmptyString => None
  | String c s' =>
      if Ascii.eqb c "_"%char then Some (EmptyString, s')
      else match split_underscore s' with
           | Some (a, b) => Some (String c a, b)
           | None => None
           end
  end.

(** [sub in s] for strings. *)
Definition is_substring (sub s : string) : bool :=
  match String.index 0 sub s with
  | Some _ => true
  | None => false
  end.

(** [s * n]: repetition; empty when [n <= 0]. *)
Definition str_repeat (s : string) (n : Z) : string :=
  String.concat "" (List.repeat s (Z.to_nat n)).

(** [str(n)] for a natural number. *)
Definition str_of_nat (n : nat) : string :=
  NilEmpty.string_of_uint (Nat.to_uint n).

(** ** Dictionaries *)

Fixpoint dict_get (d : dict) (k : string) : option value :=
  match d with
  | [] => None
  | (k', v) :: d' => if String.eqb k k' then Some v else dict_get d' k
  end.

(** [k in d] *)
Definition dict_contains (d : dict) (k : string) : bool :=
  match dict_get d k with
  | Some _ => true
  | None => false
  end.

(** [d[k] = v]: an existing key keeps its place, a new key goes last. *)
Fixpoint dict_set (d : dict) (k : string) (v : value) : dict :=
  match d with
  | [] => [(k, v)]
  | (k', v') :: d' =>
      if String.eqb k k' then (k', v) :: d' else (k', v') :: dict_set d' k v
  end.

(** [d.update(other)] *)
Definition dict_update (d other : dict) : dict :=
  fold_left (fun acc kv => dict_set acc (fst kv) (snd kv)) other d.

(** [d.get(k, default)] *)
Definition dict_get_default (d : dict) (k : string) (default : value) : value :=
  match dict_get d k with
  | Some v => v
  | None => default
  end.

(** ** Numbers

    [int] and [float] with Python's mixed arithmetic: an operation on two
    [int]s stays exact, any other converts its [int] operand to [float]
    first; a comparison between an [int] and a [float] is exact. *)

Inductive num : Type :=
| NInt (n : Z)
| NFloat (f : float).

(** The numeric reading of a value; [None] when
    [isinstance(v, (int, float))] is false.  [bool] is a subclass of [int]:
    [True] is [1] and [False] is [0]. *)
Definition as_num (v : value) : option num :=
  match v with
  | VBool b => Some (NInt (Z.b2z b))
  | VInt n => Some (NInt n)
  | VFloat f => Some (NFloat f)
  | _ => None
  end.

Definition value_of_num (a : num) : value :=
  match a with
  | NInt n => VInt n
  | NFloat f => VFloat f
  end.

(** [float(n)]: round to nearest, ties to even. *)
Definition float_of_int (n : Z) : result float :=
  match binary_normalize prec emax n 0 false with
  | S754_infinity _ =>
      Raise (Builtin OverflowError "int too large to convert to float")
  | sf => Ok (SF2Prim sf)
  end.

Definition to_float (a : num) : result float :=
  match a with
  | NInt n => float_of_int n
  | NFloat f => Ok f
  end.

(** The exact order between a [float] and an [int]; [None] for NaN. *)
Definition float_cmp_int (f : float) (n : Z) : option comparison :=
  match Prim2SF f with
  | S754_nan => None
  | S754_infinity s => Some (if s then Lt else Gt)
  | S754_zero _ => Some (0 ?= n)
  | S754_finite s m e =>
      let m := if s then Zneg m else Zpos m in
      Some (if 0 <=? e then m * 2 ^ e ?= n else m ?= n * 2 ^ (- e))
  end.

(** [a < b] *)
Definition num_lt (a b : num) : bool :=
  match a, b with
  | NInt x, NInt y => x <? y
  | NFloat x, NFloat y => PrimFloat.ltb x y
  | NFloat x, NInt y =>
      match float_cmp_int x y with Some Lt => true | _ => false end
  | NInt x, NFloat y =>
      match float_cmp_int y x with Some Gt => true | _ => false end
  end.

Definition num_is_zero (a : num) : bool :=
  match a with
  | NInt n => n =? 0
  | NFloat f => PrimFloat.eqb f 0%float
  end.

Definition num_sub (a b : num) : result num :=
  match a, b with
  | NInt x, NInt y => Ok (NInt (x - y))
  | _, _ =>
      (x <- to_float a ;; y <- to_float b ;; Ok (NFloat (x - y)%float))%py
  end.

Definition num_mul (a b : num) : result num :=
  match a, b with
  | NInt x, NInt y => Ok (NInt (x * y))
  | _, _ =>
      (x <- to_float a ;; y <- to_float b ;; Ok (NFloat (x * y)%float))%py
  end.

Definition spec_of_int (n : Z) : spec_float :=
  match n with
  | Z0 => S754_zero false
  | Zpos p => S754_finite false p 0
  | Zneg p => S754_finite true p 0
  end.

(** [x / y] on two [int]s: the correctly rounded quotient. *)
Definition int_truediv (x y : Z) : result float :=
  if y =? 0 then Raise (Builtin ZeroDivisionError "division by zero")
  else
    match SFdiv prec emax (spec_of_int x) (spec_of_int y) with
    | S754_infinity _ =>
        Raise (Builtin OverflowError
                 "integer division result too large for a float")
    | sf => Ok (SF2Prim sf)
    end.

(** [a / b] *)
Definition num_truediv (a b : num) : result num :=
  match a, b with
  | NInt x, NInt y => (q <- int_truediv x y ;; Ok (NFloat q))%py
  | _, _ =>
      (x <- to_float a ;;
       y <- to_float b ;;
       if PrimFloat.eqb y 0%float
       then Raise (Builtin ZeroDivisionError "float division by zero")
       else Ok (NFloat (x / y)%float))%py
  end.

Definition num_abs (a : num) : num :=
  match a with
  | NInt n => NInt (Z.abs n)
  | NFloat f => NFloat (PrimFloat.abs f)
  end.

(** ** Operators on values *)

Definition unsupported (op : string) (a b : value) : exn :=
  Builtin TypeError
    ("unsupported operand type(s) for " ++ op ++ ": '" ++ type_name a
       ++ "' and '" ++ type_name b ++ "'").

Definition binop (op : string) (f : num -> num -> result num)
    (a b : value) : result value :=
  match as_num a, as_num b with
  | Some x, Some y => (r <- f x y ;; Ok (value_of_num r))%py
  | _, _ => Raise (unsupported op a b)
  end.

(** [a - b] *)
Definition py_sub : value -> value -> result value := binop "-" num_sub.

(** [a / b] *)
Definition py_truediv : value -> value -> result value := binop "/" num_truediv.

(** The repetition count of [s * n]: an [int] or a [bool]. *)
Definition as_int (v : value) : option Z :=
  match v with
  | VBool b => Some (Z.b2z b)
  | VInt n => Some n
  | _ => None
  end.

Definition str_times (s : string) (other : value) : result value :=
  match as_int other with
  | Some n => Ok (VStr (str_repeat s n))
  | None =>
      Raise (Builtin TypeError
               ("can't multiply sequence by non-int of type '"
                  ++ type_name other ++ "'"))
  end.

(** [a * b]: numbers multiply, a string is repeated. *)
Definition py_mul (a b : value) : result value :=
  match a, b with
  | VStr s, _ => str_times s b
  | _, VStr s => str_times s a
  | _, _ => binop "*" num_mul a b
  end.

(** [abs(a)] *)
Definition py_abs (a : value) : result value :=
  match as_num a with
  | Some x => Ok (value_of_num (num_abs x))
  | None =>
      Raise (Builtin TypeError
               ("bad operand type for abs(): '" ++ type_name a ++ "'"))
  end.

(** [bool(v)] *)
Definition truthy (v : value) : bool :=
  match v with
  | VNone => false
  | VBool b => b
  | VInt n => negb (n =? 0)
  | VFloat f => negb (PrimFloat.eqb f 0%float)
  | VStr s => negb (String.eqb s "")
  | VDict d => match d with [] => false | _ => true end
  end.

(** [a > b] *)
Definition py_gt (a b : value) : result bool :=
  match a, b with
  | VStr s, VStr t => Ok (String.ltb t s)
  | _, _ =>
      match as_num a, as_num b with
      | Some x, Some y => Ok (num_lt y x)
      | _, _ =>
          Raise (Builtin TypeError
                   ("'>' not supported between instances of '"
                      ++ type_name a ++ "' and '" ++ type_name b ++ "'"))
      end
  end.

(** [max(a, b)]: the first of two maximal items. *)
Definition py_max (a b : value) : result value :=
  (gt <- py_gt b a ;; Ok (if gt : bool then b else a))%py.

(** [len(v)] *)
Definition py_len (v : value) : result Z :=
  match v with
  | VStr s => Ok (Z.of_nat (String.length s))
  | VDict d => Ok (Z.of_nat (List.length d))
  | _ =>
      Raise (Builtin TypeError
               ("object of type '" ++ type_name v ++ "' has no len()"))
  end.

(** [k in v] for a string [k] *)
Definition py_contains (k : string) (v : value) : result bool :=
  match v with
  | VDict d => Ok (dict_contains d k)
  | VStr s => Ok (is_substring k s)
  | _ =>
      Raise (Builtin TypeError
               ("argument of type '" ++ type_name v ++ "' is not iterable"))
  end.

(** [v[k]] for a string [k] *)
Definition py_getitem (v : value) (k : string) : result value :=
  match v with
  | VDict d =>
      match dict_get d k with
      | Some x => Ok x
      | None => Raise (Builtin KeyError ("'" ++ k ++ "'"))
      end
  | VStr _ =>
      Raise (Builtin TypeError "string indices must be integers, not 'str'")
  | _ =>
      Raise (Builtin TypeError
               ("'" ++ type_name v ++ "' object is not subscriptable"))
  end.

(** [v.get(k, default)] *)
Definition py_get (v : value) (k : string) (default : value) : result value :=
  match v with
  | VDict d => Ok (dict_get_default d k default)
  | _ =>
      Raise (Builtin AttributeError
               ("'" ++ type_name v ++ "' object has no attribute 'get'"))
  end.

(** [isinstance(v, dict)] *)
Definition is_dict (v : value) : bool :=
  match v with
  | VDict _ => true
  | _ => false
  end.

(** [v[k] = x] for a string [k] *)
Definition py_setitem (v : value) (k : string) (x : value) : result value :=
  match v with
  | VDict d => Ok (VDict (dict_set d k x))
  | _ =>
      Raise (Builtin TypeError
               ("'" ++ type_name v
                  ++ "' object does not support item assignment"))
  end.

(** ** parser_service/config.py *)

Record ParserConfig : Type := {
  BASE_FIAT_CURRENCY : string;
  FIAT_CURRENCIES : list string;
  CRYPTO_CURRENCIES : list string;
  REQUEST_TIMEOUT : Z;
  RETRY_ATTEMPTS : nat;
  RETRY_DELAY : Z;
  UPDATE_INTERVAL : Z;
  MIN_RATE_VALUE : num;
  MAX_RATE_VALUE : num
}.

(** The global [config = ParserConfig()].  [MAX_RATE_VALUE] is annotated
    [float] but its default is the [int] literal [1000000000]. *)
Definition config : ParserConfig := {|
  BASE_FIAT_CURRENCY := "USD";
  FIAT_CURRENCIES :=
    ["EUR"; "GBP"; "JPY"; "CNY"; "RUB";
     "CHF"; "CAD"; "AUD"; "NZD"; "SGD";
     "HKD"; "SEK"; "NOK"; "DKK"; "PLN";
     "CZK"; "HUF"; "TRY"; "MXN"; "BRL"];
  CRYPTO_CURRENCIES :=
    ["BTC"; "ETH"; "SOL"; "BNB"; "XRP";
     "ADA"; "DOGE"; "DOT"; "MATIC"; "LTC";
     "SHIB"; "TRX"; "AVAX"; "LINK"; "UNI"];
  REQUEST_TIMEOUT := 30;
  RETRY_ATTEMPTS := 3;
  RETRY_DELAY := 5;
  UPDATE_INTERVAL := 3600;
  MIN_RATE_VALUE := NFloat 0.00000001;
  MAX_RATE_VALUE := NInt 1000000000
|}.

(** ** The mutable world *)

(** [RatesUpdater.stats] *)
Record Stats : Type := {
  total_updates : Z;
  successful_updates : Z;
  failed_updates : Z;
  last_update_time : option string;
  last_error : option string
}.

(** [rates_json] and [exchange_rates_json] hold what
    [DatabaseManager.read_json] returns for [rates.json] and
    [exchange_rates.json]: the empty list for a missing or undecodable
    file, the list itself for a JSON array, and the one-element list of
    any other JSON value.  [requests] lists the Quote Sources whose
    [fetch_rates] was called, oldest first. *)
Record World : Type := {
  rates_json : list value;
  exchange_rates_json : list value;
  stats : Stats;
  requests : list string
}.

Definition with_rates_json (x : list value) (w : World) : World :=
  {| rates_json := x;
     exchange_rates_json := exchange_rates_json w;
     stats := stats w;
     requests := requests w |}.

Definition with_exchange_rates_json (x : list value) (w : World) : World :=
  {| rates_json := rates_json w;
     exchange_rates_json := x;
     stats := stats w;
     requests := requests w |}.

Definition with_stats (x : Stats) (w : World) : World :=
  {| rates_json := rates_json w;
     exchange_rates_json := exchange_rates_json w;
     stats := x;
     requests := requests w |}.

Definition with_request (client : string) (w : World) : World :=
  {| rates_json := rates_json w;
     exchange_rates_json := exchange_rates_json w;
     stats := stats w;
     requests := requests w ++ [client] |}.

(** A computation that may raise and that changes the world; the changes
    made before an exception stay. *)
Definition M (A : Type) : Type := World -> result A * World.

Definition ret {A : Type} (a : A) : M A := fun w => (Ok a, w).

Definition raise {A : Type} (e : exn) : M A := fun w => (Raise e, w).

Definition bind {A B : Type} (m : M A) (k : A -> M B) : M B :=
  fun w =>
    match m w with
    | (Ok a, w') => k a w'
    | (Raise e, w') => (Raise e, w')
    end.

Definition lift {A : Type} (r : result A) : M A := fun w => (r, w).

Definition modify (f : World -> World) : M unit := fun w => (Ok tt, f w).

(** [try: body  except Exception as e: handler(e)] *)
Definition try_except {A : Type} (body : M A) (handler : exn -> M A) : M A :=
  fun w =>
    match body w with
    | (Ok a, w') => (Ok a, w')
    | (Raise e, w') => handler e w'
    end.

Declare Scope world_scope.
Delimit Scope world_scope with world.
Notation "x <- m ;; k" := (bind m (fun x => k))
  (at level 61, m at next level, right associativity) : world_scope.
Notation "m ;; k" := (bind m (fun _ => k))
  (at level 61, right associativity) : world_scope.

(** ** infra/database.py and parser_service/storage.py *)

Definition empty_rates : value :=
  VDict [("pairs", VDict []); ("last_refresh", VNone)].

(** [DatabaseManager.get_rates] *)
Definition get_rates (w : World) : value :=
  match rates_json w with
  | [] => empty_rates
  | rates_data :: _ =>
      match rates_data with
      | VDict d =>
          let d :=
            if dict_contains d "pairs" then d
            else dict_set d "pairs" (VDict []) in
          let d :=
            if dict_contains d "last_refresh" then d
            else dict_set d "last_refresh" VNone in
          VDict d
      | _ => empty_rates
      end
  end.

(** The size that the log messages of [load_rates] and [save_rates] print:
    [len(rates_data.get('pairs', {}))]. *)
Definition logged_pairs_count (rates_data : value) : result Z :=
  (pairs <- py_get rates_data "pairs" (VDict []) ;; py_len pairs)%py.

(** [RatesStorage.load_rates] *)
Definition load_rates : M value :=
  fun w =>
    let rates_data := get_rates w in
    match logged_pairs_count rates_data with
    | Ok _ => (Ok rates_data, w)
    | Raise e => (Raise e, w)
    end.

(** [RatesStorage.save_rates]: the file is written before the log message
    is formatted; an exception is logged and raised again. *)
Definition save_rates (rates_data : value) : M unit :=
  fun w =>
    let w' := with_rates_json [rates_data] w in
    match logged_pairs_count rates_data with
    | Ok _ => (Ok tt, w')
    | Raise e => (Raise e, w')
    end.

(** [RatesStorage.load_history] *)
Definition load_history (w : World) : list value := exchange_rates_json w.

(** [RatesStorage.save_history] *)
Definition save_history (history_data : list value) (w : World) : World :=
  with_exchange_rates_json history_data w.

(** [RatesStorage.add_history_record] *)
Definition add_history_record (record : dict) (w : World) : World :=
  let history := load_history w in
  save_history (history ++ [VDict record]) w.

(** [history[-max_records:]]; [-0] is [0], so the slice is the whole list
    when [max_records] is zero. *)
Definition slice_last (max_records : nat) (history : list value) : list value :=
  match max_records with
  | O => history
  | _ => skipn (List.length history - max_records) history
  end.

(** [RatesStorage.cleanup_old_history] *)
Definition cleanup_old_history (max_records : nat) (w : World) : World :=
  let history := load_history w in
  if (max_records <? List.length history)%nat
  then save_history (slice_last max_records history) w
  else w.

(** [math.isnan(x)] and [math.isinf(x)]: the argument is converted to
    [float] first. *)
Definition math_isnan (x : num) : result bool :=
  (f <- to_float x ;; Ok (PrimFloat.is_nan f))%py.

Definition math_isinf (x : num) : result bool :=
  (f <- to_float x ;; Ok (PrimFloat.is_infinity f))%py.

(** [RatesStorage.validate_rate] *)
Definition validate_rate (cfg : ParserConfig) (rate : value) : result bool :=
  match as_num rate with
  | None => Ok false
  | Some x =>
      if num_lt x (MIN_RATE_VALUE cfg) then Ok false
      else if num_lt (MAX_RATE_VALUE cfg) x then Ok false
      else
        (nan <- math_isnan x ;;
         if nan : bool then Ok false
         else
           inf <- math_isinf x ;;
           if inf : bool then Ok false else Ok true)%py
  end.

(** [RatesStorage.create_history_record]; [timestamp_str] is
    [datetime.now(timezone.utc).isoformat().replace("+00:00", "Z")]. *)
Definition create_history_record (timestamp_str : string)
    (from_currency to_currency : string) (rate : value) (source : string)
    (meta : dict) : dict :=
  let from_upper := upper from_currency in
  let to_upper := upper to_currency in
  let record_id := from_upper ++ "_" ++ to_upper ++ "_" ++ timestamp_str in
  [("id", VStr record_id);
   ("from_currency", VStr from_upper);
   ("to_currency", VStr to_upper);
   ("rate", rate);
   ("timestamp", VStr timestamp_str);
   ("source", VStr source);
   ("meta", VDict meta)].

(** ** parser_service/updater.py *)

(** What a Quote Source's [fetch_rates] does when called. *)
Inductive fetch_outcome : Type :=
| Returns (rates : dict)
| Raises (e : exn).

(** The inputs of one run: the two providers and the clock.
    [current_time] is [datetime.now(timezone.utc).isoformat()] of the
    run, [record_time k] the [timestamp_str] of the [k]-th history record
    the run creates, [execution_time] the rounded
    [time.time() - start_time]. *)
Record Env : Type := {
  coingecko_client : fetch_outcome;
  exchangerate_client : fetch_outcome;
  current_time : string;
  record_time : nat -> string;
  execution_time : float
}.

(** One of the two fetch blocks of [run_update]: [client] is asked when
    [source] is ["all"] or its own name [scoped]; a non-empty answer is
    merged into [new_rates]; an [ApiRequestError] is logged, and raised
    again only when [source] is [scoped]. *)
Definition fetch_from (client scoped : string) (outcome : fetch_outcome)
    (source : string) (new_rates : dict) : M dict :=
  if existsb (String.eqb source) ["all"; scoped] then
    (modify (with_request client) ;;
     match outcome with
     | Returns rates =>
         if truthy (VDict rates) then ret (dict_update new_rates rates)
         else ret new_rates
     | Raises (ApiRequestError reason) =>
         if String.eqb source scoped then raise (ApiRequestError reason)
         else ret new_rates
     | Raises e => raise e
     end)%world
  else ret new_rates.

(** The locals of the loop over [new_rates.items()]; [created] counts the
    history records created so far. *)
Record Locals : Type := {
  pairs : value;
  updated_count : Z;
  new_count : Z;
  created : nat
}.

(** [abs((rate - current_rate) / current_rate * 100) if current_rate
    else None] *)
Definition change_pct (rate current_rate : value) : result value :=
  if truthy current_rate then
    (d <- py_sub rate current_rate ;;
     q <- py_truediv d current_rate ;;
     p <- py_mul q (VInt 100) ;;
     py_abs p)%py
  else Ok VNone.

(** The body of the loop for one item of [new_rates]; [current_time] is
    the local of that name, [record_time] the clock of the history
    records. *)
Definition update_pair (cfg : ParserConfig) (current_time : string)
    (record_time : nat -> string) (pair_key : string) (rate : value)
    (l : Locals) : M Locals :=
  (valid <- lift (validate_rate cfg rate) ;;
   if negb valid then ret l
   else
     match split_underscore pair_key with
     | None =>
         raise (Builtin ValueError
                  "not enough values to unpack (expected 2, got 1)")
     | Some (from_curr, to_curr) =>
         let source_name :=
           if existsb (String.eqb from_curr) (CRYPTO_CURRENCIES cfg)
           then "CoinGecko" else "ExchangeRate-API" in
         current_pair <- lift (py_get (pairs l) pair_key (VDict [])) ;;
         current_rate <- lift (py_get current_pair "rate" VNone) ;;
         pairs' <- lift (py_setitem (pairs l) pair_key
                           (VDict [("rate", rate);
                                   ("updated_at", VStr current_time);
                                   ("source", VStr source_name)])) ;;
         created' <-
           try_except
             (pct <- lift (change_pct rate current_rate) ;;
              let record :=
                create_history_record (record_time (created l))
                  from_curr to_curr rate source_name
                  [("previous_rate", current_rate); ("change_pct", pct)] in
              modify (add_history_record record) ;;
              ret (S (created l)))
             (fun _ => ret (created l)) ;;
         known <- lift (py_contains pair_key current_pair) ;;
         if known : bool then
           ret {| pairs := pairs';
                  updated_count := updated_count l + 1;
                  new_count := new_count l;
                  created := created' |}
         else
           ret {| pairs := pairs';
                  updated_count := updated_count l;
                  new_count := new_count l + 1;
                  created := created' |}
     end)%world.

(** [for pair_key, rate in new_rates.items(): ...] *)
Fixpoint update_pairs (cfg : ParserConfig) (current_time : string)
    (record_time : nat -> string) (items : dict) (l : Locals) : M Locals :=
  match items with
  | [] => ret l
  | (pair_key, rate) :: items' =>
      (l' <- update_pair cfg current_time record_time pair_key rate l ;;
       update_pairs cfg current_time record_time items' l')%world
  end.

Definition record_success (now : string) (s : Stats) : Stats :=
  {| total_updates := total_updates s + 1;
     successful_updates := successful_updates s + 1;
     failed_updates := failed_updates s;
     last_update_time := Some now;
     last_error := last_error s |}.

Definition record_failure (e : exn) (s : Stats) : Stats :=
  {| total_updates := total_updates s + 1;
     successful_updates := successful_updates s;
     failed_updates := failed_updates s + 1;
     last_update_time := last_update_time s;
     last_error := Some (exn_str e) |}.

(** The result returned when no source gave a pair. *)
Definition no_rates_result : value :=
  VDict [("success", VBool false);
         ("message",
          VStr "Не удалось получить курсы ни от одного источника");
         ("updated_pairs", VInt 0)].

(** The [try] block of [run_update]. *)
Definition run_update_try (cfg : ParserConfig) (env : Env) (source : string)
    : M value :=
  (current_rates <- load_rates ;;
   pairs0 <- lift (py_get current_rates "pairs" (VDict [])) ;;
   new_rates <- fetch_from "CoinGecko" "coingecko"
                  (coingecko_client env) source [] ;;
   new_rates <- fetch_from "ExchangeRate-API" "exchangerate"
                  (exchangerate_client env) source new_rates ;;
   if negb (truthy (VDict new_rates)) then ret no_rates_result
   else
     l <- update_pairs cfg (current_time env) (record_time env) new_rates
            {| pairs := pairs0; updated_count := 0; new_count := 0;
               created := O |} ;;
     current_rates <- lift (py_setitem current_rates "pairs" (pairs l)) ;;
     current_rates <- lift (py_setitem current_rates "last_refresh"
                              (VStr (current_time env))) ;;
     save_rates current_rates ;;
     modify (cleanup_old_history 1000) ;;
     modify (fun w =>
               with_stats (record_success (current_time env) (stats w)) w) ;;
     total_pairs <- lift (py_len (pairs l)) ;;
     ret (VDict [("success", VBool true);
                 ("message", VStr "Обновление успешно завершено");
                 ("execution_time", VFloat (execution_time env));
                 ("total_pairs", VInt total_pairs);
                 ("updated_pairs", VInt (updated_count l));
                 ("new_pairs", VInt (new_count l));
                 ("source", VStr source)]))%world.

(** The [except Exception as e] block of [run_update]. *)
Definition run_update_except (env : Env) (source : string) (e : exn)
    : M value :=
  (modify (fun w => with_stats (record_failure e (stats w)) w) ;;
   ret (VDict [("success", VBool false);
               ("message", VStr ("Ошибка при обновлении: " ++ exn_str e));
               ("execution_time", VFloat (execution_time env));
               ("source", VStr source)]))%world.

(** [RatesUpdater.run_update] *)
Definition run_update (cfg : ParserConfig) (env : Env) (source : string)
    : M value :=
  try_except (run_update_try cfg env source) (run_update_except env source).

(** ** parser_service/api_clients.py *)

(** What [response.json()] does: the decoded body, or one of the two
    exception classes a decoding failure can have. *)
Inductive json_outcome (body : Type) : Type :=
| Decoded (data : body)
| JsonRequestException (msg : string)
| JsonValueError (msg : string).
Arguments Decoded {body} data.
Arguments JsonRequestException {body} msg.
Arguments JsonValueError {body} msg.

(** What one call of [session.get] does: a response, or an exception of
    [requests.exceptions], by the first [except] clause that matches it. *)
Inductive attempt_outcome (body : Type) : Type :=
| Response (status_code : nat) (text : string) (json : json_outcome body)
| Timeout
| ConnectionError
| RequestException (msg : string).
Arguments Response {body} status_code text json.
Arguments Timeout {body}.
Arguments ConnectionError {body}.
Arguments RequestException {body} msg.

Section MakeRequest.

Variable body : Type.
Variable cfg : ParserConfig.

(** [self.name] *)
Variable name : string.

(** The outcome of the [session.get] call of each attempt. *)
Variable http : nat -> attempt_outcome body.

(** [if attempt < config.RETRY_ATTEMPTS - 1] *)
Definition may_retry (attempt : nat) : bool :=
  Z.of_nat attempt <? Z.of_nat (RETRY_ATTEMPTS cfg) - 1.

(** The loop of [_make_request] over the attempts still to run; the
    [time.sleep] calls are returned with the result, in order. *)
Fixpoint request_loop (attempts : list nat) : list Z * result body :=
  match attempts with
  | [] =>
      ([], Raise (ApiRequestError
                    (name ++ ": Не удалось выполнить запрос после "
                       ++ str_of_nat (RETRY_ATTEMPTS cfg) ++ " попыток")))
  | attempt :: rest =>
      let sleep_and_continue (seconds : Z) :=
        let (sleeps, r) := request_loop rest in (seconds :: sleeps, r) in
      let retry_or (reason : string) :=
        if may_retry attempt then sleep_and_continue (RETRY_DELAY cfg)
        else ([], Raise (ApiRequestError reason)) in
      match http attempt with
      | Response status_code text json =>
          if (status_code =? 200)%nat then
            match json with
            | Decoded data => ([], Ok data)
            | JsonRequestException msg =>
                retry_or (name ++ ": Ошибка при выполнении запроса: " ++ msg)
            | JsonValueError _ =>
                ([], Raise (ApiRequestError
                              (name ++ ": Неверный формат ответа от API")))
            end
          else if (status_code =? 429)%nat then
            if may_retry attempt then
              let wait_time := RETRY_DELAY cfg * (Z.of_nat attempt + 1) in
              sleep_and_continue wait_time
            else
              ([], Raise (ApiRequestError
                            (name ++ ": Превышен лимит запросов")))
          else
            let error_msg :=
              name ++ ": Ошибка " ++ str_of_nat status_code in
            let error_msg :=
              if negb (String.eqb text "")
              then error_msg ++ " - " ++ substring 0 200 text
              else error_msg in
            ([], Raise (ApiRequestError error_msg))
      | Timeout =>
          retry_or (name ++ ": Таймаут при подключении к API")
      | ConnectionError =>
          retry_or (name ++ ": Не удалось подключиться к API")
      | RequestException msg =>
          retry_or (name ++ ": Ошибка при выполнении запроса: " ++ msg)
      end
  end.

(** [BaseApiClient._make_request]: [for attempt in
    range(config.RETRY_ATTEMPTS)]. *)
Definition _make_request : list Z * result body :=
  request_loop (seq 0 (RETRY_ATTEMPTS cfg)).

End MakeRequest.

(** ** core/currencies.py and core/utils.py *)

(** The codes that [CurrencyRegistry._initialize_currencies] registers. *)
Definition registered_codes : list string :=
  ["USD"; "EUR"; "RUB"; "GBP"; "JPY"; "CNY";
   "BTC"; "ETH"; "LTC"; "XRP"; "DOGE"].

Section Resolver.

(** The keys of [CurrencyRegistry._currencies]. *)
Variable registry : list string.

(** [currency_exists]: [CurrencyRegistry.is_registered]. *)
Definition currency_exists (code : string) : bool :=
  existsb (String.eqb (upper code)) registry.

(** [validate_currency_code] on a [str]. *)
Definition validate_currency_code (code : string) : bool :=
  let code := upper (strip code) in
  if negb ((2 <=? String.length code) && (String.length code <=? 5))%nat
  then false
  else if negb (isalnum code) then false
  else currency_exists code.

(** ** decorators.py *)

(** [settings.get("log_format", "detailed")] *)
Definition log_format : string := "detailed".

(** [f"{x:.2f}"] and [f"{x:.4f}"] for an [int] or a [float]: the number
    is converted to [float] first; the digits are not kept, only the
    exception that the conversion may raise. *)
Definition format_fixed (x : num) : result unit :=
  (_ <- to_float x ;; Ok tt)%py.

(** One [if key in info] block of [_write_log] that formats a number
    when [isinstance(info[key], (int, float))] and uses [str] otherwise. *)
Definition format_number (info : dict) (key : string) : result unit :=
  match dict_get info key with
  | Some v =>
      match as_num v with
      | Some x => format_fixed x
      | None => Ok tt
      end
  | None => Ok tt
  end.

(** [_write_log]: what formatting the message raises.  The other parts
    of the message format strings and cannot raise. *)
Definition _write_log (info : dict) : result unit :=
  if String.eqb log_format "json" then Ok tt
  else
    (_ <- format_number info "amount" ;;
     format_number info "rate")%py.

(** The fields of [log_info] that [wrapper] copies from the result:
    [if result and isinstance(result, dict): for key in [...]: if key in
    result: log_info[key] = result[key]].  The fields it sets itself
    ([action], [timestamp], [result], the arguments, the error) are
    strings under other keys. *)
Definition copied_fields (result : value) : dict :=
  match result with
  | VDict d =>
      if truthy result then
        fold_left
          (fun log_info key =>
             match dict_get d key with
             | Some v => dict_set log_info key v
             | None => log_info
             end)
          ["currency"; "currency_code"; "amount"; "rate"; "cost_usd";
           "revenue_usd"]
          []
      else []
  | _ => []
  end.

(** [wrapper] of [log_action], applied to what the decorated function
    does: its result is logged and returned; an exception, of the
    function or of [_write_log], is logged by a second [_write_log] and
    raised again, unless that second call raises itself. *)
Definition log_action (outcome : result value) : result value :=
  match outcome with
  | Ok result =>
      let log_info := copied_fields result in
      match _write_log log_info with
      | Ok _ => Ok result
      | Raise e =>
          match _write_log log_info with
          | Ok _ => Raise e
          | Raise e' => Raise e'
          end
      end
  | Raise e =>
      match _write_log [] with
      | Ok _ => Raise e
      | Raise e' => Raise e'
      end
  end.

(** ** core/usecases.py *)

(** A lookup either finishes without reading the snapshot, or calls
    [load_exchange_rates] and continues with what it returns. *)
Inductive lookup : Type :=
| Done (r : result value)
| LoadExchangeRates (k : value -> result value).

(** [get_rate] from the point where [rates_data] is loaded;
    [from_currency] and [to_currency] are upper case already. *)
Definition resolve (from_currency to_currency : string)
    (rates_data : value) : result value :=
  if negb (is_dict rates_data)
  then Raise (RateUnavailableError from_currency to_currency)
  else
    (pairs <- py_get rates_data "pairs" (VDict []) ;;
     let direct_key := from_currency ++ "_" ++ to_currency in
     has_direct <- py_contains direct_key pairs ;;
     if has_direct : bool then
       rate_info <- py_getitem pairs direct_key ;;
       if negb (is_dict rate_info)
       then Raise (RateUnavailableError from_currency to_currency)
       else Ok rate_info
     else
       let reverse_key := to_currency ++ "_" ++ from_currency in
       has_reverse <- py_contains reverse_key pairs ;;
       inverse <-
         (if has_reverse : bool then
            rate_info <- py_getitem pairs reverse_key ;;
            if is_dict rate_info then
              rate <- py_getitem rate_info "rate" ;;
              inv <- py_truediv (VInt 1) rate ;;
              updated_at <- py_getitem rate_info "updated_at" ;;
              Ok (Some (VDict [("rate", inv); ("updated_at", updated_at)]))
            else Ok None
          else Ok None) ;;
       match inverse with
       | Some answer => Ok answer
       | None =>
           bridge <-
             (if negb (String.eqb from_currency "USD")
                 && negb (String.eqb to_currency "USD")
              then
                let from_usd_key := from_currency ++ "_USD" in
                let usd_to_key := "USD_" ++ to_currency in
                has_from <- py_contains from_usd_key pairs ;;
                has_to <- (if has_from : bool
                           then py_contains usd_to_key pairs
                           else Ok false) ;;
                if has_from && has_to then
                  from_usd_info <- py_getitem pairs from_usd_key ;;
                  usd_to_info <- py_getitem pairs usd_to_key ;;
                  if is_dict from_usd_info && is_dict usd_to_info then
                    r1 <- py_getitem from_usd_info "rate" ;;
                    r2 <- py_getitem usd_to_info "rate" ;;
                    rate <- py_mul r1 r2 ;;
                    u1 <- py_getitem from_usd_info "updated_at" ;;
                    u2 <- py_getitem usd_to_info "updated_at" ;;
                    updated_at <- py_max u1 u2 ;;
                    Ok (Some (VDict [("rate", rate);
                                     ("updated_at", updated_at)]))
                  else Ok None
                else Ok None
              else Ok None) ;;
           match bridge with
           | Some answer => Ok answer
           | None => Raise (RateUnavailableError from_currency to_currency)
           end
       end)%py.

(** The function that [@log_action] decorates in [RateService],
    [get_rate.__wrapped__]; [now] is [get_current_datetime()]. *)
Definition get_rate_wrapped (now : string)
    (from_currency to_currency : string) : lookup :=
  let from_currency := upper from_currency in
  let to_currency := upper to_currency in
  if negb (validate_currency_code from_currency)
  then Done (Raise (InvalidCurrencyCodeError from_currency))
  else if negb (validate_currency_code to_currency)
  then Done (Raise (InvalidCurrencyCodeError to_currency))
  else if negb (currency_exists from_currency)
  then Done (Raise (CurrencyNotFoundError from_currency))
  else if negb (currency_exists to_currency)
  then Done (Raise (CurrencyNotFoundError to_currency))
  else if String.eqb from_currency to_currency
  then Done (Ok (VDict [("rate", VFloat 1.0); ("updated_at", VStr now)]))
  else LoadExchangeRates (resolve from_currency to_currency).

(** [RateService.get_rate]: the function above under
    [@log_action(action="GET_RATE", verbose=False)]. *)
Definition get_rate (now : string) (from_currency to_currency : string)
    : lookup :=
  match get_rate_wrapped now from_currency to_currency with
  | Done r => Done (log_action r)
  | LoadExchangeRates k =>
      LoadExchangeRates (fun rates_data => log_action (k rates_data))
  end.

(** Running a lookup against the stored files:
    [load_exchange_rates] is [DatabaseManager.get_rates]. *)
Definition run_lookup (w : World) (l : lookup) : result value :=
  match l with
  | Done r => r
  | LoadExchangeRates k => k (get_rates w)
  end.

End Resolver.

(** ** Definitions used by the properties *)

(** The transient failures: a timeout, a connection failure, HTTP 429. *)
Definition transient {body : Type} (o : attempt_outcome body) : bool :=
  match o with
  | Timeout | ConnectionError => true
  | Response status_code _ _ => (status_code =? 429)%nat
  | RequestException _ => false
  end.

(** The delay the specification gives before the retry that follows
    attempt [attempt]: [base_delay * (attempt + 1)]. *)
Definition linear_backoff (cfg : ParserConfig) : list Z :=
  map (fun attempt => RETRY_DELAY cfg * (Z.of_nat attempt + 1))
      (seq 0 (RETRY_ATTEMPTS cfg - 1)).

(** The delay [_make_request] sleeps after a transient failure of attempt
    [attempt]: linear in the attempt for HTTP 429, the base delay for a
    timeout or a connection failure. *)
Definition delay_after {body : Type} (cfg : ParserConfig)
    (o : attempt_outcome body) (attempt : nat) : Z :=
  match o with
  | Response _ _ _ => RETRY_DELAY cfg * (Z.of_nat attempt + 1)
  | _ => RETRY_DELAY cfg
  end.

(** The [pairs] mapping of the stored snapshot, when it is a mapping. *)
Definition snapshot_pairs (w : World) : option dict :=
  match get_rates w with
  | VDict d =>
      match dict_get d "pairs" with
      | Some (VDict stored) => Some stored
      | _ => None
      end
  | _ => None
  end.

(** [max] of two strings. *)
Definition str_max (a b : string) : string :=
  if String.ltb a b then b else a.

(** A stored quote as [run_update] writes it. *)
Definition quote (rate : value) (updated_at source : string) : value :=
  VDict [("rate", rate); ("updated_at", VStr updated_at);
         ("source", VStr source)].

Definition no_stats : Stats :=
  {| total_updates := 0;
     successful_updates := 0;
     failed_updates := 0;
     last_update_time := None;
     last_error := None |}.

(** A world whose [rates.json] holds the given pairs, with an empty
    history. *)
Definition world_of_pairs (stored : dict) : World :=
  {| rates_json :=
       [VDict [("pairs", VDict stored);
               ("last_refresh", VStr "2026-01-01T00:00:00+00:00")]];
     exchange_rates_json := [];
     stats := no_stats;
     requests := [] |}.

Definition inverse_pairs : dict :=
  [("EUR_USD", quote (VFloat 1.25) "2026-01-01T00:00:00+00:00"
                 "ExchangeRate-API")].

Definition bridge_pairs : dict :=
  [("EUR_USD", quote (VFloat 2.0) "2026-01-01T00:00:00+00:00"
                 "ExchangeRate-API");
   ("USD_GBP", quote (VFloat 3.0) "2026-01-03T00:00:00+00:00" "test")].

Definition result_field (r : value) (k : string) : option value :=
  match r with
  | VDict d => dict_get d k
  | _ => None
  end.

(** A source gives no pairs when it returns an empty mapping or fails with
    [ApiRequestError]. *)
Definition no_pairs (o : fetch_outcome) : bool :=
  match o with
  | Returns [] => true
  | Raises (ApiRequestError _) => true
  | _ => false
  end.

(** The scenario of the specification: the snapshot holds [BTC_USD] at
    50000 and CoinGecko answers [BTC_USD = 51000]. *)
Definition scenario_pairs : dict :=
  [("BTC_USD", quote (VInt 50000) "2026-01-01T00:00:00+00:00" "CoinGecko")].

Definition scenario_world : World := world_of_pairs scenario_pairs.

Definition scenario_env : Env :=
  {| coingecko_client := Returns [("BTC_USD", VInt 51000)];
     exchangerate_client := Returns [];
     current_time := "2026-01-02T00:00:00+00:00";
     record_time := fun _ => "2026-01-02T00:00:00Z";
     execution_time := 0.25 |}.

(** The scenario with a history that is already at the cap. *)
Definition old_record : value := VDict [("id", VStr "BTC_USD_2025")].

Definition full_history_world : World :=
  with_exchange_rates_json (List.repeat old_record 1000) scenario_world.

(** A [rates.json] whose [pairs] is [null]. *)
Definition null_pairs_world : World :=
  {| rates_json := [VDict [("pairs", VNone); ("last_refresh", VNone)]];
     exchange_rates_json := [];
     stats := no_stats;
     requests := [] |}.

(** CoinGecko fails with HTTP 500; ExchangeRate-API returns no pairs. *)
Definition outage_env : Env :=
  {| coingecko_client := Raises (ApiRequestError "CoinGecko: Ошибка 500");
     exchangerate_client := Returns [];
     current_time := "2026-01-02T00:00:00+00:00";
     record_time := fun _ => "2026-01-02T00:00:00Z";
     execution_time := 0.25 |}.

Definition with_coingecko_client (o : fetch_outcome) (env : Env) : Env :=
  {| coingecko_client := o;
     exchangerate_client := exchangerate_client env;
     current_time := current_time env;
     record_time := record_time env;
     execution_time := execution_time env |}.

Definition with_exchangerate_client (o : fetch_outcome) (env : Env) : Env :=
  {| coingecko_client := coingecko_client env;
     exchangerate_client := o;
     current_time := current_time env;
     record_time := record_time env;
     execution_time := execution_time env |}.

(** The world after a run that failed with [e] having asked [client]. *)
Definition failed_run (client : string) (e : exn) (w : World) : World :=
  with_stats (record_failure e (stats (with_request client w)))
             (with_request client w).

(** The [n] most recent records of a history, in insertion order. *)
Definition most_recent (n : nat) (history : list value) : list value :=
  skipn (List.length history - n) history.

(** [w'] has the history of [w], possibly with records appended. *)
Definition history_grows (w w' : World) : Prop :=
  exists appended, load_history w' = (load_history w ++ appended)%list.

(** A computation that only appends to the history, however it ends. *)
Definition appending {A : Type} (m : M A) : Prop :=
  forall w r w', m w = (r, w') -> history_grows w w'.

(** [w'] has the history of [w] with records appended, cut down to its
    1000 most recent records. *)
Definition history_trimmed (w w' : World) : Prop :=
  exists appended,
    load_history w' = most_recent 1000 (load_history w ++ appended)%list.

(** What a run may do to the history: append and trim, or only append. *)
Definition history_outcome (w w' : World) : Prop :=
  history_trimmed w w' \/ history_grows w w'.

(** The first run of the scenario, and a second run with the same answer
    from the provider. *)
Definition scenario_first_run : result value * World :=
  run_update config scenario_env "coingecko" scenario_world.

Definition scenario_second_run : result value * World :=
  run_update config scenario_env "coingecko" (snd scenario_first_run).

(** ** Definitions used by the further properties *)

(** The keys of a dictionary, in order. *)
Definition dict_keys (d : dict) : list string := map fst d.

(** The values that have a length: [len(v)] does not raise. *)
Definition sized (v : value) : bool :=
  match v with
  | VStr _ | VDict _ => true
  | _ => false
  end.

(** [source in ["all", scoped]] *)
Definition asked (source scoped : string) : bool :=
  existsb (String.eqb source) ["all"; scoped].

(** What a source adds to [new_rates] in a run that goes on: its answer
    when it is asked and answers, nothing otherwise. *)
Definition contribution (source scoped : string) (o : fetch_outcome) : dict :=
  if asked source scoped then
    match o with
    | Returns rates => rates
    | Raises _ => []
    end
  else [].

(** [new_rates] after the two fetch blocks. *)
Definition merged_rates (env : Env) (source : string) : dict :=
  dict_update
    (dict_update [] (contribution source "coingecko" (coingecko_client env)))
    (contribution source "exchangerate" (exchangerate_client env)).

(** [validate_rate] returned [True]. *)
Definition is_valid (cfg : ParserConfig) (rate : value) : bool :=
  match validate_rate cfg rate with
  | Ok true => true
  | _ => false
  end.

(** The [source_name] that [run_update] gives a pair key. *)
Definition source_of (cfg : ParserConfig) (pair_key : string) : string :=
  match split_underscore pair_key with
  | Some (from_curr, _) =>
      if existsb (String.eqb from_curr) (CRYPTO_CURRENCIES cfg)
      then "CoinGecko" else "ExchangeRate-API"
  | None => "ExchangeRate-API"
  end.

(** The number of valid rates among the items of a dictionary. *)
Definition count_valid (cfg : ParserConfig) (items : dict) : Z :=
  Z.of_nat (List.length (filter (fun kv => is_valid cfg (snd kv)) items)).

(** [w'] differs from [w] at most in the history. *)
Definition untouched (w w' : World) : Prop :=
  rates_json w' = rates_json w
  /\ stats w' = stats w
  /\ requests w' = requests w.

(** A computation that changes at most the history, however it ends. *)
Definition quiet {A : Type} (m : M A) : Prop :=
  forall w r w', m w = (r, w') -> untouched w w'.

(** The counters are consistent: every update was a success or a
    failure. *)
Definition stats_consistent (s : Stats) : Prop :=
  total_updates s = successful_updates s + failed_updates s.

(** The [pairs] that the loop of [run_update] leaves, from the [pairs] it
    starts with: each valid item is stored as a fresh quote, in the order
    of the items. *)
Fixpoint stored_after (cfg : ParserConfig) (now : string) (items : dict)
    (d : dict) : dict :=
  match items with
  | [] => d
  | (pair_key, rate) :: items' =>
      stored_after cfg now items'
        (if is_valid cfg rate
         then dict_set d pair_key (quote rate now (source_of cfg pair_key))
         else d)
  end.

(** [w'] has the files and the counters of [w]. *)
Definition same_data (w w' : World) : Prop :=
  rates_json w' = rates_json w
  /\ exchange_rates_json w' = exchange_rates_json w
  /\ stats w' = stats w.

(** The result of a run that stored [total_pairs] pairs. *)
Definition success_result (env : Env) (source : string)
    (total_pairs updated new : Z) : value :=
  VDict [("success", VBool true);
         ("message", VStr "Обновление успешно завершено");
         ("execution_time", VFloat (execution_time env));
         ("total_pairs", VInt total_pairs);
         ("updated_pairs", VInt updated);
         ("new_pairs", VInt new);
         ("source", VStr source)].

(** The snapshot that a run saves. *)
Definition saved_snapshot (d : dict) (final_pairs : value) (now : string)
    : value :=
  VDict (dict_set (dict_set d "pairs" final_pairs) "last_refresh" (VStr now)).

(** The locals with which the loop of [run_update] starts. *)
Definition initial_locals (pairs0 : value) : Locals :=
  {| pairs := pairs0; updated_count := 0; new_count := 0; created := O |}.

(** A world on which [load_rates] raises nothing, with counters that
    record one success. *)
Definition counted_world : World :=
  with_stats (record_success "2026-01-01T00:00:00+00:00" no_stats)
             scenario_world.

(** Both sources answer, with one pair in common. *)
Definition overlap_env : Env :=
  {| coingecko_client :=
       Returns [("BTC_USD", VInt 51000); ("USD_USD", VFloat 0.5)];
     exchangerate_client :=
       Returns [("EUR_USD", VFloat 0.92); ("USD_USD", VFloat 1.0);
                ("JPY_USD", VStr "n/a")];
     current_time := "2026-01-02T00:00:00+00:00";
     record_time := fun _ => "2026-01-02T00:00:00Z";
     execution_time := 0.25 |}.

(** A computation whose every run relates the world before to the world
    after by [R]. *)
Definition framed (R : World -> World -> Prop) {A : Type} (m : M A) : Prop :=
  forall w r w', m w = (r, w') -> R w w'.

(** [w'] has the list of sources asked of [w]. *)
Definition same_requests (w w' : World) : Prop := requests w' = requests w.

(** The sources that the filter [source] names, in the order in which
    [run_update] asks them. *)
Definition requested (source : string) : list string :=
  ((if asked source "coingecko" then ["CoinGecko"] else [])
   ++ (if asked source "exchangerate" then ["ExchangeRate-API"] else []))%list.

(** A delay that [_make_request] may sleep: a multiple of [RETRY_DELAY]
    by a factor from 1 to [RETRY_ATTEMPTS - 1]. *)
Definition allowed_delay (cfg : ParserConfig) (seconds : Z) : Prop :=
  exists factor,
    1 <= factor < Z.of_nat (RETRY_ATTEMPTS cfg)
    /\ seconds = RETRY_DELAY cfg * factor.

(** The failures after which [_make_request] tries again when an attempt
    is left: a timeout, a connection failure, any other exception of
    [requests], among them a body that [response.json()] cannot decode,
    and HTTP 429. *)
Definition retried {body : Type} (o : attempt_outcome body) : bool :=
  match o with
  | Timeout | ConnectionError | RequestException _ => true
  | Response status_code _ json =>
      if (status_code =? 200)%nat then
        match json with
        | JsonRequestException _ => true
        | _ => false
        end
      else (status_code =? 429)%nat
  end.

(** The delay before the retry that follows a retried attempt. *)
Definition retry_delay {body : Type} (cfg : ParserConfig)
    (o : attempt_outcome body) (attempt : nat) : Z :=
  match o with
  | Response status_code _ _ =>
      if (status_code =? 429)%nat
      then RETRY_DELAY cfg * (Z.of_nat attempt + 1)
      else RETRY_DELAY cfg
  | _ => RETRY_DELAY cfg
  end.

(** A provider that fails twice, by a timeout and by HTTP 429, and then
    answers. *)
Definition flaky_http (attempt : nat) : attempt_outcome value :=
  match attempt with
  | O => Timeout
  | S O => Response 429 "" (Decoded VNone)
  | _ => Response 200 "{}" (Decoded (VDict [("bitcoin",
                                            VDict [("usd", VInt 51000)])]))
  end.

(** A provider that times out once and then answers HTTP 500. *)
Definition broken_http (attempt : nat) : attempt_outcome value :=
  match attempt with
  | O => Timeout
  | _ => Response 500 "Internal Server Error" (Decoded VNone)
  end.

(** A history record of a valid rate among [items]: it names the two
    codes of the pair key in upper case, the rate, and the source name
    that [run_update] gives the pair. *)
Definition records_rate (cfg : ParserConfig) (items : dict)
    (record : value) : Prop :=
  exists pair_key rate from_curr to_curr,
    In (pair_key, rate) items
    /\ is_valid cfg rate = true
    /\ split_underscore pair_key = Some (from_curr, to_curr)
    /\ result_field record "from_currency" = Some (VStr (upper from_curr))
    /\ result_field record "to_currency" = Some (VStr (upper to_curr))
    /\ result_field record "rate" = Some rate
    /\ result_field record "source" = Some (VStr (source_of cfg pair_key)).

(** An [int] that [float] cannot hold. *)
Definition too_large (v : value) : bool :=
  match v with
  | VInt n =>
      match float_of_int n with
      | Ok _ => false
      | Raise _ => true
      end
  | _ => false
  end.

(** A mapping whose [amount] or [rate] is an [int] that [float] cannot
    hold. *)
Definition unloggable (d : dict) : bool :=
  existsb (fun key =>
             match dict_get d key with
             | Some v => too_large v
             | None => false
             end)
    ["amount"; "rate"].

(** A stored quote whose rate has 401 digits. *)
Definition huge_rate_pairs : dict :=
  [("BTC_USD", quote (VInt (10 ^ 400)) "2026-01-01T00:00:00+00:00"
                 "CoinGecko")].

(** The [current_rate] that the loop of [run_update] reads for a pair
    key: the [rate] of the stored quote, [None] when the quote has none
    or the pair is not stored. *)
Definition previous_rate (stored : dict) (pair_key : string) : value :=
  match dict_get stored pair_key with
  | Some (VDict current_pair) => dict_get_default current_pair "rate" VNone
  | _ => VNone
  end.

(** The history record of one fetched pair, from the pairs stored before
    the run: a valid rate is recorded with the stored rate and the
    change against it, unless the change cannot be computed. *)
Definition history_record (cfg : ParserConfig) (stored : dict)
    (timestamp_str : string) (pair_key : string) (rate : value)
    : option dict :=
  if is_valid cfg rate then
    match split_underscore pair_key with
    | Some (from_curr, to_curr) =>
        match change_pct rate (previous_rate stored pair_key) with
        | Ok pct =>
            Some (create_history_record timestamp_str from_curr to_curr
                    rate (source_of cfg pair_key)
                    [("previous_rate", previous_rate stored pair_key);
                     ("change_pct", pct)])
        | Raise _ => None
        end
    | None => None
    end
  else None.

(** The history records of the fetched pairs, in their order; [created]
    counts the records created before. *)
Fixpoint history_records (cfg : ParserConfig) (record_time : nat -> string)
    (stored : dict) (items : dict) (created : nat) : list value :=
  match items with
  | [] => []
  | (pair_key, rate) :: items' =>
      match history_record cfg stored (record_time created) pair_key rate
      with
      | Some record =>
          VDict record
            :: history_records cfg record_time stored items' (S created)
      | None => history_records cfg record_time stored items' created
      end
  end.

(** The snapshot of the specification: every stored pair is a mapping. *)
Definition quotes_only (stored : dict) : bool :=
  forallb (fun kv => is_dict (snd kv)) stored.

(** A fetched pair as the Quote Sources give it: the validator returns
    on the rate, and the key of a valid rate has an underscore. *)
Definition well_formed_rate (cfg : ParserConfig) (kv : string * value)
    : bool :=
  match validate_rate cfg (snd kv) with
  | Ok true =>
      match split_underscore (fst kv) with
      | Some _ => true
      | None => false
      end
  | Ok false => true
  | Raise _ => false
  end.

Definition well_formed_rates (cfg : ParserConfig) (items : dict) : bool :=
  forallb (well_formed_rate cfg) items.

(** [result["success"]] is [True]. *)
Definition reports_success (r : value) : bool :=
  match result_field r "success" with
  | Some (VBool true) => true
  | _ => false
  end.

(** A snapshot in which the entry of [ETH_USD] is a number, not a quote;
    the history is at the cap. *)
Definition malformed_pairs : dict :=
  [("BTC_USD", quote (VInt 50000) "2026-01-01T00:00:00+00:00" "CoinGecko");
   ("ETH_USD", VInt 3000)].

Definition malformed_world : World :=
  with_exchange_rates_json (List.repeat old_record 1000)
    (world_of_pairs malformed_pairs).

Definition two_pairs_env : Env :=
  {| coingecko_client :=
       Returns [("BTC_USD", VInt 51000); ("ETH_USD", VInt 3100)];
     exchangerate_client := Returns [];
     current_time := "2026-01-02T00:00:00+00:00";
     record_time := fun _ => "2026-01-02T00:00:00Z";
     execution_time := 0.25 |}.

(** CoinGecko fails with HTTP 500; ExchangeRate-API answers. *)
Definition fiat_only_env : Env :=
  {| coingecko_client := Raises (ApiRequestError "CoinGecko: Ошибка 500");
     exchangerate_client := Returns [("EUR_USD", VFloat 0.92)];
     current_time := "2026-01-02T00:00:00+00:00";
     record_time := fun _ => "2026-01-02T00:00:00Z";
     execution_time := 0.25 |}.

(** * Properties *)

(** ** Strings and dictionaries *)

Lemma is_space_upper_char (c : ascii) : is_space (upper_char c) = is_space c.
Proof.
  destruct c as [[] [] [] [] [] [] [] []]; reflexivity.
Qed.

Lemma upper_char_idempotent (c : ascii) :
  upper_char (upper_char c) = upper_char c.
Proof.
  destruct c as [[] [] [] [] [] [] [] []]; reflexivity.
Qed.

Lemma upper_idempotent (s : string) : upper (upper s) = upper s.
Proof.
  induction s as [|c s IH]; simpl.
  - reflexivity.
  - now rewrite upper_char_idempotent, IH.
Qed.

Lemma lstrip_upper (s : string) : lstrip (upper s) = upper (lstrip s).
Proof.
  induction s as [|c s IH]; simpl.
  - reflexivity.
  - rewrite is_space_upper_char. now destruct (is_space c).
Qed.

Lemma rstrip_upper (s : string) : rstrip (upper s) = upper (rstrip s).
Proof.
  induction s as [|c s IH]; simpl.
  - reflexivity.
  - rewrite IH, is_space_upper_char.
    destruct (rstrip s); simpl; [now destruct (is_space c) | reflexivity].
Qed.

Lemma strip_upper (s : string) : strip (upper s) = upper (strip s).
Proof.
  unfold strip. now rewrite lstrip_upper, rstrip_upper.
Qed.

(** Validation and registration do not depend on the case of the code. *)
Lemma currency_exists_upper (registry : list string) (code : string) :
  currency_exists registry (upper code) = currency_exists registry code.
Proof.
  unfold currency_exists. now rewrite upper_idempotent.
Qed.

Lemma validate_currency_code_upper (registry : list string) (code : string) :
  validate_currency_code registry (upper code)
  = validate_currency_code registry code.
Proof.
  unfold validate_currency_code.
  now rewrite strip_upper, upper_idempotent.
Qed.

(** ** Validator *)

(** C6. [validate_rate], with the default thresholds, accepts the rates
    [1e-8] and [1e9] (and the [int] [1000000000]); it rejects every value
    that is not a number ([None], any string, any dictionary), and the
    numbers [9.9e-9], [1.1e9], NaN and both infinities. *)
Theorem validate_rate_boundaries :
  validate_rate config (VFloat 1e-8) = Ok true /\
  validate_rate config (VFloat 1e9) = Ok true /\
  validate_rate config (VInt 1000000000) = Ok true /\
  validate_rate config VNone = Ok false /\
  (forall s, validate_rate config (VStr s) = Ok false) /\
  (forall d, validate_rate config (VDict d) = Ok false) /\
  validate_rate config (VFloat 9.9e-9) = Ok false /\
  validate_rate config (VFloat 1.1e9) = Ok false /\
  validate_rate config (VFloat nan) = Ok false /\
  validate_rate config (VFloat infinity) = Ok false /\
  validate_rate config (VFloat neg_infinity) = Ok false.
Proof.
  repeat split; try (intros; reflexivity); vm_compute; reflexivity.
Qed.

(** [True] is the [int] 1 and passes the type test; [False] is below the
    minimum. *)
Example validate_rate_bool :
  validate_rate config (VBool true) = Ok true
  /\ validate_rate config (VBool false) = Ok false.
Proof. split; vm_compute; reflexivity. Qed.

(** ** Resolver: identity *)

Section ResolverFacts.

Variable registry : list string.

(** C9. For a code [X] that passes validation and is registered,
    [get_rate X X] finishes with rate [1.0] without loading the
    snapshot; for a code that fails validation it raises
    [InvalidCurrencyCodeError], and for one that passes validation but is
    not registered it raises [CurrencyNotFoundError], in both cases
    before the snapshot is loaded. *)
Theorem get_rate_identity (now X : string) :
  (validate_currency_code registry X = true ->
   currency_exists registry X = true ->
   get_rate registry now X X
   = Done (Ok (VDict [("rate", VFloat 1.0); ("updated_at", VStr now)])))
  /\
  (validate_currency_code registry X = false ->
   get_rate registry now X X
   = Done (Raise (InvalidCurrencyCodeError (upper X))))
  /\
  (validate_currency_code registry X = true ->
   currency_exists registry X = false ->
   get_rate registry now X X
   = Done (Raise (CurrencyNotFoundError (upper X)))).
Proof.
  unfold get_rate, get_rate_wrapped.
  rewrite validate_currency_code_upper, currency_exists_upper.
  repeat split.
  - intros Hv He. rewrite Hv, He. cbn [negb].
    now rewrite String.eqb_refl.
  - intros Hv. now rewrite Hv.
  - intros Hv He. now rewrite Hv, He.
Qed.

End ResolverFacts.

(** A code that is not registered fails validation; a registered code
    with surrounding white space passes validation and is then not
    found. *)
Example get_rate_unknown_code :
  get_rate registered_codes "2026-01-01T00:00:00" "abc" "abc"
  = Done (Raise (InvalidCurrencyCodeError "ABC")).
Proof. reflexivity. Qed.

Example get_rate_padded_code :
  get_rate registered_codes "2026-01-01T00:00:00" " usd" " usd"
  = Done (Raise (CurrencyNotFoundError " USD")).
Proof. reflexivity. Qed.

Lemma get_rate_identity_witness :
  get_rate registered_codes "2026-01-01T00:00:00" "usd" "usd"
  = Done (Ok (VDict [("rate", VFloat 1.0);
                     ("updated_at", VStr "2026-01-01T00:00:00")])).
Proof.
  apply (proj1 (get_rate_identity registered_codes
                  "2026-01-01T00:00:00" "usd")); reflexivity.
Defined.

(** ** Quote Source requests: retries and backoff *)

Section MakeRequestFacts.

Variable body : Type.
Variable cfg : ParserConfig.
Variable name : string.
Variable http : nat -> attempt_outcome body.

Hypothesis all_transient :
  forall attempt, (attempt < RETRY_ATTEMPTS cfg)%nat ->
                  transient (http attempt) = true.

Lemma may_retry_spec (attempt : nat) :
  may_retry cfg attempt = (S attempt <? RETRY_ATTEMPTS cfg)%nat.
Proof.
  unfold may_retry.
  destruct (Nat.ltb_spec (S attempt) (RETRY_ATTEMPTS cfg));
    [apply Z.ltb_lt | apply Z.ltb_ge]; lia.
Qed.

(** One transient failure: sleep and go on, or give up. *)
Lemma request_loop_transient_step (attempt : nat) (rest : list nat) :
  transient (http attempt) = true ->
  exists reason,
    request_loop body cfg name http (attempt :: rest)
    = if may_retry cfg attempt
      then (delay_after cfg (http attempt) attempt
              :: fst (request_loop body cfg name http rest),
            snd (request_loop body cfg name http rest))
      else ([], Raise (ApiRequestError reason)).
Proof.
  intros Htransient.
  cbn [request_loop].
  destruct (request_loop body cfg name http rest) as [sleeps r].
  destruct (http attempt) as [status_code text json| | |msg];
    cbn [transient] in Htransient; try discriminate.
  - apply Nat.eqb_eq in Htransient. subst status_code.
    cbn [Nat.eqb delay_after fst snd].
    destruct (may_retry cfg attempt); eauto.
  - cbn [delay_after fst snd]. destruct (may_retry cfg attempt); eauto.
  - cbn [delay_after fst snd]. destruct (may_retry cfg attempt); eauto.
Qed.

(** The loop from attempt [first] on, with [count] attempts left. *)
Lemma request_loop_transient (count first : nat) :
  (first + count = RETRY_ATTEMPTS cfg)%nat ->
  fst (request_loop body cfg name http (seq first count))
  = map (fun attempt => delay_after cfg (http attempt) attempt)
        (seq first (count - 1))
  /\ exists reason,
       snd (request_loop body cfg name http (seq first count))
       = Raise (ApiRequestError reason).
Proof.
  revert first.
  induction count as [|count IH]; intros first Hsum.
  - simpl. split; [reflexivity | eauto].
  - destruct (request_loop_transient_step first (seq (S first) count))
      as [reason Hstep]; [apply all_transient; lia |].
    cbn [seq]. rewrite Hstep, may_retry_spec.
    destruct count as [|count].
    + replace (S first <? RETRY_ATTEMPTS cfg)%nat with false
        by (symmetry; apply Nat.ltb_ge; lia).
      split; [reflexivity | eexists; reflexivity].
    + replace (S first <? RETRY_ATTEMPTS cfg)%nat with true
        by (symmetry; apply Nat.ltb_lt; lia).
      destruct (IH (S first)) as [IHs IHr]; [lia |].
      cbn [fst snd]. rewrite IHs.
      replace (S count - 1)%nat with count by lia.
      replace (S (S count) - 1)%nat with (S count) by lia.
      split; [reflexivity | exact IHr].
Qed.

(** C5, amended.  When every attempt fails with a transient failure,
    [_make_request] makes [RETRY_ATTEMPTS] attempts, sleeps before each
    retry, and raises [ApiRequestError] after the last one.  The delay
    before the retry that follows attempt [attempt] is
    [RETRY_DELAY * (attempt + 1)] when the failure was HTTP 429, and
    [RETRY_DELAY] when it was a timeout or a connection failure. *)
Theorem make_request_transient_failures :
  fst (_make_request body cfg name http)
  = map (fun attempt => delay_after cfg (http attempt) attempt)
        (seq 0 (RETRY_ATTEMPTS cfg - 1))
  /\ exists reason,
       snd (_make_request body cfg name http)
       = Raise (ApiRequestError reason).
Proof.
  unfold _make_request. apply request_loop_transient. reflexivity.
Qed.

End MakeRequestFacts.

(** C5 as stated fails: with the default configuration, a provider that
    always times out is retried after 5 and 5 seconds, not after 5 and
    10. *)
Lemma timeout_backoff_is_constant :
  fst (_make_request value config "CoinGecko" (fun _ => Timeout)) = [5; 5]
  /\ linear_backoff config = [5; 10]
  /\ fst (_make_request value config "CoinGecko" (fun _ => Timeout))
     <> linear_backoff config.
Proof.
  repeat split; try reflexivity. discriminate.
Qed.

Lemma make_request_transient_failures_witness :
  fst (_make_request value config "CoinGecko"
         (fun attempt =>
            match attempt with
            | O => Timeout
            | _ => Response 429 "" (Decoded VNone)
            end))
  = [5; 10]
  /\ exists reason,
       snd (_make_request value config "CoinGecko"
              (fun attempt =>
                 match attempt with
                 | O => Timeout
                 | _ => Response 429 "" (Decoded VNone)
                 end))
       = Raise (ApiRequestError reason).
Proof.
  apply (make_request_transient_failures value config "CoinGecko"
           (fun attempt =>
              match attempt with
              | O => Timeout
              | _ => Response 429 "" (Decoded VNone)
              end)).
  intros [|attempt] _; reflexivity.
Defined.

(** ** Resolver: inverse and USD bridge *)

Lemma float_of_int_1 : float_of_int 1 = Ok 1%float.
Proof. vm_compute. reflexivity. Qed.

Lemma py_truediv_1_float (r : float) :
  PrimFloat.eqb r 0 = false ->
  py_truediv (VInt 1) (VFloat r) = Ok (VFloat (1 / r)).
Proof.
  intros Hr. unfold py_truediv, binop.
  cbn [as_num num_truediv to_float rbind].
  rewrite float_of_int_1. cbn [rbind]. now rewrite Hr.
Qed.

Lemma py_contains_dict (k : string) (d : dict) :
  py_contains k (VDict d) = Ok (dict_contains d k).
Proof. reflexivity. Qed.

Lemma dict_contains_get (d : dict) (k : string) (v : value) :
  dict_get d k = Some v -> dict_contains d k = true.
Proof. unfold dict_contains. now intros ->. Qed.

Lemma dict_contains_none (d : dict) (k : string) :
  dict_get d k = None -> dict_contains d k = false.
Proof. unfold dict_contains. now intros ->. Qed.

Lemma py_getitem_dict (d : dict) (k : string) (v : value) :
  dict_get d k = Some v -> py_getitem (VDict d) k = Ok v.
Proof. unfold py_getitem. now intros ->. Qed.

Lemma get_rates_pairs (w : World) (stored : dict) :
  snapshot_pairs w = Some stored ->
  is_dict (get_rates w) = true
  /\ py_get (get_rates w) "pairs" (VDict []) = Ok (VDict stored).
Proof.
  unfold snapshot_pairs.
  destruct (get_rates w) as [| | | | |d]; try discriminate.
  destruct (dict_get d "pairs") as [[| | | | |stored']|] eqn:Hp;
    try discriminate.
  intros [= <-]. split; [reflexivity |].
  unfold py_get, dict_get_default. now rewrite Hp.
Qed.

Section ResolverPaths.

Variable registry : list string.
Variables (now A B : string).
Variable w : World.
Variable stored : dict.

Hypothesis A_valid : validate_currency_code registry A = true.
Hypothesis B_valid : validate_currency_code registry B = true.
Hypothesis A_registered : currency_exists registry A = true.
Hypothesis B_registered : currency_exists registry B = true.
Hypothesis distinct : upper A <> upper B.
Hypothesis snapshot : snapshot_pairs w = Some stored.
Hypothesis no_direct : dict_get stored (upper A ++ "_" ++ upper B) = None.

Lemma get_rate_loads :
  run_lookup w (get_rate registry now A B)
  = log_action (resolve (upper A) (upper B) (get_rates w)).
Proof.
  unfold get_rate, get_rate_wrapped.
  rewrite !validate_currency_code_upper, !currency_exists_upper.
  rewrite A_valid, B_valid, A_registered, B_registered.
  cbn [negb].
  destruct (String.eqb_spec (upper A) (upper B)) as [Heq|_];
    [contradiction | reflexivity].
Qed.

(** The inverse path, for whatever [1 / rate] evaluates to. *)
Lemma get_rate_inverse_path (stored_quote : dict) (rate : value)
    (inverse : result value) :
  dict_get stored (upper B ++ "_" ++ upper A) = Some (VDict stored_quote) ->
  dict_get stored_quote "rate" = Some rate ->
  py_truediv (VInt 1) rate = inverse ->
  run_lookup w (get_rate registry now A B)
  = log_action
      (inv <- inverse ;;
       updated_at <- py_getitem (VDict stored_quote) "updated_at" ;;
       Ok (VDict [("rate", inv); ("updated_at", updated_at)]))%py.
Proof.
  intros Hrev Hrate <-.
  rewrite get_rate_loads. unfold resolve.
  destruct (get_rates_pairs w stored snapshot) as [-> ->].
  cbn [negb rbind].
  rewrite !py_contains_dict.
  rewrite (dict_contains_none _ _ no_direct).
  rewrite (dict_contains_get _ _ _ Hrev).
  cbn [rbind].
  rewrite (py_getitem_dict _ _ _ Hrev). cbn [rbind is_dict].
  rewrite (py_getitem_dict _ _ _ Hrate). cbn [rbind].
  destruct (py_truediv (VInt 1) rate) as [inv|e]; cbn [rbind];
    [| reflexivity].
  destruct (py_getitem (VDict stored_quote) "updated_at"); reflexivity.
Qed.

(** C4. For distinct registered codes [A] and [B], when the snapshot has
    a quote for [B_A] with a non-zero rate [r] and no entry for [A_B],
    [get_rate A B] returns the rate [1 / r] and the [updated_at] of the
    stored [B_A] quote. *)
Theorem get_rate_inverse (stored_quote : dict) (r : float)
    (updated_at : value) :
  dict_get stored (upper B ++ "_" ++ upper A) = Some (VDict stored_quote) ->
  dict_get stored_quote "rate" = Some (VFloat r) ->
  dict_get stored_quote "updated_at" = Some updated_at ->
  PrimFloat.eqb r 0 = false ->
  run_lookup w (get_rate registry now A B)
  = Ok (VDict [("rate", VFloat (1 / r)); ("updated_at", updated_at)]).
Proof.
  intros Hrev Hrate Hupd Hr.
  rewrite (get_rate_inverse_path stored_quote (VFloat r)
             (Ok (VFloat (1 / r))) Hrev Hrate (py_truediv_1_float r Hr)).
  cbn [rbind]. now rewrite (py_getitem_dict _ _ _ Hupd).
Qed.

(** A stored [int] rate is inverted by true division. *)
Lemma get_rate_inverse_int (stored_quote : dict) (n : Z) (q : float)
    (updated_at : value) :
  dict_get stored (upper B ++ "_" ++ upper A) = Some (VDict stored_quote) ->
  dict_get stored_quote "rate" = Some (VInt n) ->
  dict_get stored_quote "updated_at" = Some updated_at ->
  int_truediv 1 n = Ok q ->
  run_lookup w (get_rate registry now A B)
  = Ok (VDict [("rate", VFloat q); ("updated_at", updated_at)]).
Proof.
  intros Hrev Hrate Hupd Hq.
  rewrite (get_rate_inverse_path stored_quote (VInt n)
             (Ok (VFloat q)) Hrev Hrate).
  - cbn [rbind]. now rewrite (py_getitem_dict _ _ _ Hupd).
  - unfold py_truediv, binop. cbn [as_num num_truediv]. now rewrite Hq.
Qed.

(** A stored rate of zero makes the inverse path raise. *)
Lemma get_rate_inverse_zero (stored_quote : dict) (r : float) :
  dict_get stored (upper B ++ "_" ++ upper A) = Some (VDict stored_quote) ->
  dict_get stored_quote "rate" = Some (VFloat r) ->
  PrimFloat.eqb r 0 = true ->
  run_lookup w (get_rate registry now A B)
  = Raise (Builtin ZeroDivisionError "float division by zero").
Proof.
  intros Hrev Hrate Hr.
  rewrite (get_rate_inverse_path stored_quote (VFloat r)
             (Raise (Builtin ZeroDivisionError "float division by zero"))
             Hrev Hrate).
  - reflexivity.
  - unfold py_truediv, binop.
    cbn [as_num num_truediv to_float rbind].
    rewrite float_of_int_1. cbn [rbind]. now rewrite Hr.
Qed.

(** C3. For distinct registered codes [A] and [B], neither of them USD,
    when the snapshot has no entry for [A_B] and none for [B_A] but has
    quotes for [A_USD] and [USD_B], [get_rate A B] returns the product
    of the two rates and the greater of the two [updated_at] strings. *)
Theorem get_rate_usd_bridge (from_usd usd_to : dict) (r1 r2 : float)
    (u1 u2 : string) :
  upper A <> "USD" ->
  upper B <> "USD" ->
  dict_get stored (upper B ++ "_" ++ upper A) = None ->
  dict_get stored (upper A ++ "_USD") = Some (VDict from_usd) ->
  dict_get stored ("USD_" ++ upper B) = Some (VDict usd_to) ->
  dict_get from_usd "rate" = Some (VFloat r1) ->
  dict_get from_usd "updated_at" = Some (VStr u1) ->
  dict_get usd_to "rate" = Some (VFloat r2) ->
  dict_get usd_to "updated_at" = Some (VStr u2) ->
  run_lookup w (get_rate registry now A B)
  = Ok (VDict [("rate", VFloat (r1 * r2));
               ("updated_at", VStr (str_max u1 u2))]).
Proof.
  intros HA HB Hrev Hfrom Hto Hr1 Hu1 Hr2 Hu2.
  rewrite get_rate_loads. unfold resolve.
  destruct (get_rates_pairs w stored snapshot) as [-> ->].
  cbn [negb rbind].
  rewrite !py_contains_dict.
  rewrite (dict_contains_none _ _ no_direct).
  rewrite (dict_contains_none _ _ Hrev).
  cbn [rbind].
  destruct (String.eqb_spec (upper A) "USD") as [|_]; [contradiction |].
  destruct (String.eqb_spec (upper B) "USD") as [|_]; [contradiction |].
  cbn [negb andb rbind].
  rewrite (dict_contains_get _ _ _ Hfrom).
  rewrite (dict_contains_get _ _ _ Hto).
  cbn [andb rbind].
  rewrite (py_getitem_dict _ _ _ Hfrom), (py_getitem_dict _ _ _ Hto).
  cbn [rbind is_dict andb].
  rewrite (py_getitem_dict _ _ _ Hr1), (py_getitem_dict _ _ _ Hr2).
  cbn [rbind].
  rewrite (py_getitem_dict _ _ _ Hu1), (py_getitem_dict _ _ _ Hu2).
  unfold str_max, py_max, py_gt. cbn [rbind].
  now destruct (String.ltb u1 u2).
Qed.

End ResolverPaths.

Lemma get_rate_inverse_witness :
  run_lookup (world_of_pairs inverse_pairs)
    (get_rate registered_codes "2026-01-02T00:00:00" "usd" "eur")
  = Ok (VDict [("rate", VFloat 0.8);
               ("updated_at", VStr "2026-01-01T00:00:00+00:00")]).
Proof.
  apply (get_rate_inverse registered_codes "2026-01-02T00:00:00" "usd" "eur"
           (world_of_pairs inverse_pairs) inverse_pairs)
    with (stored_quote := [("rate", VFloat 1.25);
                    ("updated_at", VStr "2026-01-01T00:00:00+00:00");
                    ("source", VStr "ExchangeRate-API")])
         (r := 1.25%float)
         (updated_at := VStr "2026-01-01T00:00:00+00:00");
    try reflexivity.
  discriminate.
Defined.

Lemma get_rate_usd_bridge_witness :
  run_lookup (world_of_pairs bridge_pairs)
    (get_rate registered_codes "2026-01-04T00:00:00" "EUR" "GBP")
  = Ok (VDict [("rate", VFloat 6.0);
               ("updated_at", VStr "2026-01-03T00:00:00+00:00")]).
Proof.
  apply (get_rate_usd_bridge registered_codes "2026-01-04T00:00:00"
           "EUR" "GBP" (world_of_pairs bridge_pairs) bridge_pairs)
    with (from_usd := [("rate", VFloat 2.0);
                       ("updated_at", VStr "2026-01-01T00:00:00+00:00");
                       ("source", VStr "ExchangeRate-API")])
         (usd_to := [("rate", VFloat 3.0);
                     ("updated_at", VStr "2026-01-03T00:00:00+00:00");
                     ("source", VStr "test")])
         (r1 := 2.0%float) (r2 := 3.0%float)
         (u1 := "2026-01-01T00:00:00+00:00")
         (u2 := "2026-01-03T00:00:00+00:00");
    try reflexivity; discriminate.
Defined.

(** ** Aggregator: running the monad *)

Lemma bind_ok_inv {A B : Type} (m : M A) (k : A -> M B) (w w' : World)
    (b : B) :
  bind m k w = (Ok b, w') ->
  exists a w1, m w = (Ok a, w1) /\ k a w1 = (Ok b, w').
Proof.
  unfold bind. destruct (m w) as [[a|e] w1]; [eauto | discriminate].
Qed.

Lemma bind_inv {A B : Type} (m : M A) (k : A -> M B) (w w' : World)
    (r : result B) :
  bind m k w = (r, w') ->
  (exists a w1, m w = (Ok a, w1) /\ k a w1 = (r, w'))
  \/ (exists e, m w = (Raise e, w') /\ r = Raise e).
Proof.
  unfold bind. destruct (m w) as [[a|e] w1].
  - eauto.
  - intros [= <- <-]. eauto.
Qed.

Lemma lift_inv {A : Type} (r0 : result A) (w w' : World) (r : result A) :
  lift r0 w = (r, w') -> r = r0 /\ w' = w.
Proof. unfold lift. now intros [= <- <-]. Qed.

(** With a snapshot whose [pairs] is a mapping, [load_rates] returns what
    [get_rates] returns. *)
Lemma load_rates_ok (w : World) (stored : dict) :
  snapshot_pairs w = Some stored ->
  load_rates w = (Ok (get_rates w), w).
Proof.
  intros Hs. unfold load_rates, logged_pairs_count.
  destruct (get_rates_pairs w stored Hs) as [_ ->]. reflexivity.
Qed.

Lemma load_rates_world (w w' : World) (r : result value) :
  load_rates w = (r, w') -> w' = w.
Proof.
  unfold load_rates.
  destruct (logged_pairs_count (get_rates w)); now intros [= _ <-].
Qed.

(** ** Aggregator: no source asked, no rates received *)

Lemma fetch_from_skipped (client scoped : string) (o : fetch_outcome)
    (source : string) (new_rates : dict) (w : World) :
  source <> "all" -> source <> scoped ->
  fetch_from client scoped o source new_rates w = (Ok new_rates, w).
Proof.
  intros Hall Hscoped. unfold fetch_from. cbn [existsb].
  destruct (String.eqb_spec source "all"); [contradiction |].
  destruct (String.eqb_spec source scoped); [contradiction |].
  reflexivity.
Qed.

Lemma fetch_from_all_no_pairs (client scoped : string) (o : fetch_outcome)
    (new_rates : dict) (w : World) :
  scoped <> "all" ->
  no_pairs o = true ->
  fetch_from client scoped o "all" new_rates w
  = (Ok new_rates, with_request client w).
Proof.
  intros Hscoped Ho. unfold fetch_from. cbn [existsb].
  rewrite String.eqb_refl. cbn [orb].
  unfold bind, modify.
  destruct o as [[|kv rates]|[reason| | | |]]; try discriminate.
  - reflexivity.
  - destruct (String.eqb_spec "all" scoped) as [Heq|_];
      [now symmetry in Heq | reflexivity].
Qed.

Section NoRates.

Variable cfg : ParserConfig.
Variable env : Env.
Variable w : World.
Variable stored : dict.

Hypothesis snapshot : snapshot_pairs w = Some stored.

(** C10. For a [source] other than ["all"], ["coingecko"] and
    ["exchangerate"], [run_update] asks no Quote Source and returns a
    result with [success == False] and [updated_pairs == 0]; the
    snapshot, the history and the counters are unchanged. *)
Theorem run_update_unknown_source (source : string) :
  source <> "all" -> source <> "coingecko" -> source <> "exchangerate" ->
  exists r,
    run_update cfg env source w = (Ok r, w)
    /\ result_field r "success" = Some (VBool false)
    /\ result_field r "updated_pairs" = Some (VInt 0).
Proof.
  intros Hall Hcg Her. exists no_rates_result.
  split; [| split; reflexivity].
  unfold run_update, try_except, run_update_try, bind.
  rewrite (load_rates_ok w stored snapshot).
  destruct (get_rates_pairs w stored snapshot) as [_ Hpairs].
  unfold lift. rewrite Hpairs.
  rewrite (fetch_from_skipped _ _ _ _ _ _ Hall Hcg).
  rewrite (fetch_from_skipped _ _ _ _ _ _ Hall Her).
  reflexivity.
Qed.

(** C7. In a run over all sources in which each source returns no pairs
    or fails with [ApiRequestError], [run_update] returns a result with
    [success == False] and [updated_pairs == 0]; the snapshot, the
    history and the counters are unchanged. *)
Theorem run_update_no_rates :
  no_pairs (coingecko_client env) = true ->
  no_pairs (exchangerate_client env) = true ->
  exists r w',
    run_update cfg env "all" w = (Ok r, w')
    /\ result_field r "success" = Some (VBool false)
    /\ result_field r "updated_pairs" = Some (VInt 0)
    /\ rates_json w' = rates_json w
    /\ exchange_rates_json w' = exchange_rates_json w
    /\ stats w' = stats w.
Proof.
  intros Hcg Her.
  exists no_rates_result,
    (with_request "ExchangeRate-API" (with_request "CoinGecko" w)).
  split; [| repeat split; reflexivity].
  unfold run_update, try_except, run_update_try, bind.
  rewrite (load_rates_ok w stored snapshot).
  destruct (get_rates_pairs w stored snapshot) as [_ Hpairs].
  unfold lift. rewrite Hpairs.
  rewrite (fetch_from_all_no_pairs "CoinGecko" "coingecko");
    [| discriminate | exact Hcg].
  rewrite (fetch_from_all_no_pairs "ExchangeRate-API" "exchangerate");
    [| discriminate | exact Her].
  reflexivity.
Qed.

End NoRates.

(** When the stored [pairs] has no length, [load_rates] raises while it
    formats its log message, and the run is counted as failed whatever
    the source is. *)
Example run_update_null_pairs :
  run_update config scenario_env "binance" null_pairs_world
  = (Ok (VDict [("success", VBool false);
                ("message",
                 VStr ("Ошибка при обновлении: "
                         ++ "object of type 'NoneType' has no len()"));
                ("execution_time", VFloat 0.25);
                ("source", VStr "binance")]),
     with_stats
       (record_failure
          (Builtin TypeError "object of type 'NoneType' has no len()")
          no_stats)
       null_pairs_world).
Proof. vm_compute. reflexivity. Qed.

Lemma run_update_unknown_source_witness :
  exists r,
    run_update config scenario_env "binance" scenario_world
    = (Ok r, scenario_world)
    /\ result_field r "success" = Some (VBool false)
    /\ result_field r "updated_pairs" = Some (VInt 0).
Proof.
  apply (run_update_unknown_source config scenario_env scenario_world
           scenario_pairs eq_refl "binance"); discriminate.
Defined.

Lemma run_update_no_rates_witness :
  exists r w',
    run_update config outage_env "all" scenario_world = (Ok r, w')
    /\ result_field r "success" = Some (VBool false)
    /\ result_field r "updated_pairs" = Some (VInt 0)
    /\ rates_json w' = rates_json scenario_world
    /\ exchange_rates_json w' = exchange_rates_json scenario_world
    /\ stats w' = stats scenario_world.
Proof.
  apply (run_update_no_rates config outage_env scenario_world
           scenario_pairs eq_refl); reflexivity.
Defined.

(** ** Aggregator: a failing source *)

Lemma fetch_from_scoped_failure (client scoped reason : string)
    (new_rates : dict) (w : World) :
  fetch_from client scoped (Raises (ApiRequestError reason)) scoped
    new_rates w
  = (Raise (ApiRequestError reason), with_request client w).
Proof.
  unfold fetch_from. cbn [existsb].
  rewrite String.eqb_refl, orb_true_r.
  unfold bind, modify, raise. reflexivity.
Qed.

Lemma fetch_from_all_absorbs (client scoped reason : string)
    (new_rates : dict) (w : World) :
  scoped <> "all" ->
  fetch_from client scoped (Raises (ApiRequestError reason)) "all"
    new_rates w
  = fetch_from client scoped (Returns []) "all" new_rates w.
Proof.
  intros Hscoped.
  rewrite !fetch_from_all_no_pairs by (assumption || reflexivity).
  reflexivity.
Qed.

(** C2 as stated fails: in a run scoped to CoinGecko whose request fails
    with [ApiRequestError], [run_update] returns a result to its caller
    instead of raising. *)
Lemma scoped_failure_is_returned :
  exists message,
    fst (run_update config outage_env "coingecko" scenario_world)
    = Ok (VDict [("success", VBool false);
                 ("message", VStr message);
                 ("execution_time", VFloat 0.25);
                 ("source", VStr "coingecko")]).
Proof.
  eexists. vm_compute. reflexivity.
Qed.

(** ** Aggregator: history retention *)

Lemma history_grows_refl (w : World) : history_grows w w.
Proof. exists []. now rewrite app_nil_r. Qed.

Lemma history_grows_trans (w1 w2 w3 : World) :
  history_grows w1 w2 -> history_grows w2 w3 -> history_grows w1 w3.
Proof.
  intros [a1 H1] [a2 H2]. exists (a1 ++ a2)%list.
  now rewrite H2, H1, app_assoc.
Qed.

Lemma appending_ret {A : Type} (a : A) : appending (ret a).
Proof. intros w r w' [= _ <-]. apply history_grows_refl. Qed.

Lemma appending_raise {A : Type} (e : exn) : appending (@raise A e).
Proof. intros w r w' [= _ <-]. apply history_grows_refl. Qed.

Lemma appending_lift {A : Type} (r0 : result A) : appending (lift r0).
Proof. intros w r w' [= _ <-]. apply history_grows_refl. Qed.

Lemma appending_bind {A B : Type} (m : M A) (k : A -> M B) :
  appending m -> (forall a, appending (k a)) -> appending (bind m k).
Proof.
  intros Hm Hk w r w' H.
  destruct (bind_inv m k w w' r H) as [(a & w1 & H1 & H2)|(e & H1 & _)].
  - eapply history_grows_trans; [eapply Hm | eapply Hk]; eassumption.
  - eapply Hm; eassumption.
Qed.

Lemma appending_try_except {A : Type} (body : M A) (handler : exn -> M A) :
  appending body -> (forall e, appending (handler e)) ->
  appending (try_except body handler).
Proof.
  intros Hb Hh w r w'. unfold try_except.
  destruct (body w) as [[a|e] w1] eqn:H1.
  - intros [= <- <-]. eapply Hb; eassumption.
  - intros H2.
    eapply history_grows_trans; [eapply Hb | eapply Hh]; eassumption.
Qed.

Lemma appending_modify (f : World -> World) :
  (forall w, history_grows w (f w)) -> appending (modify f).
Proof. intros Hf w r w' [= _ <-]. apply Hf. Qed.

Lemma add_history_record_grows (record : dict) (w : World) :
  history_grows w (add_history_record record w).
Proof. exists [VDict record]. reflexivity. Qed.

Lemma with_request_grows (client : string) (w : World) :
  history_grows w (with_request client w).
Proof. exists []. cbn. now rewrite app_nil_r. Qed.

Lemma appending_update_pair (cfg : ParserConfig) (now : string)
    (clock : nat -> string) (pair_key : string) (rate : value) (l : Locals) :
  appending (update_pair cfg now clock pair_key rate l).
Proof.
  unfold update_pair.
  apply appending_bind; [apply appending_lift | intros valid].
  destruct (negb valid); [apply appending_ret |].
  destruct (split_underscore pair_key) as [[from_curr to_curr]|];
    [| apply appending_raise].
  apply appending_bind; [apply appending_lift | intros current_pair].
  apply appending_bind; [apply appending_lift | intros current_rate].
  apply appending_bind; [apply appending_lift | intros pairs'].
  apply appending_bind.
  - apply appending_try_except; [| intros e; apply appending_ret].
    apply appending_bind; [apply appending_lift | intros pct].
    apply appending_bind; [| intros u; apply appending_ret].
    apply appending_modify. apply add_history_record_grows.
  - intros created'.
    apply appending_bind; [apply appending_lift | intros known].
    destruct known; apply appending_ret.
Qed.

Lemma appending_update_pairs (cfg : ParserConfig) (now : string)
    (clock : nat -> string) (items : dict) (l : Locals) :
  appending (update_pairs cfg now clock items l).
Proof.
  revert l. induction items as [|[pair_key rate] items IH]; intros l.
  - apply appending_ret.
  - cbn [update_pairs].
    apply appending_bind; [apply appending_update_pair | exact IH].
Qed.

Lemma appending_load_rates : appending load_rates.
Proof.
  intros w r w' H. rewrite (load_rates_world _ _ _ H).
  apply history_grows_refl.
Qed.

Lemma appending_save_rates (rates_data : value) :
  appending (save_rates rates_data).
Proof.
  intros w r w'. unfold save_rates.
  destruct (logged_pairs_count rates_data); intros [= _ <-];
    exists []; cbn; now rewrite app_nil_r.
Qed.

Lemma appending_fetch_from (client scoped : string) (o : fetch_outcome)
    (source : string) (new_rates : dict) :
  appending (fetch_from client scoped o source new_rates).
Proof.
  unfold fetch_from.
  destruct (existsb _ _); [| apply appending_ret].
  apply appending_bind;
    [apply appending_modify; apply with_request_grows | intros _].
  destruct o as [rates|[reason| | | |]];
    try apply appending_raise.
  - destruct (truthy _); apply appending_ret.
  - destruct (String.eqb _ _); [apply appending_raise | apply appending_ret].
Qed.

Lemma most_recent_length (n : nat) (history : list value) :
  (List.length (most_recent n history) <= n)%nat.
Proof. unfold most_recent. rewrite length_skipn. lia. Qed.

(** [cleanup_old_history] keeps the most recent [max_records] records. *)
Lemma cleanup_old_history_spec (max_records : nat) (w : World) :
  max_records <> O ->
  load_history (cleanup_old_history max_records w)
  = most_recent max_records (load_history w).
Proof.
  intros Hpos. unfold cleanup_old_history, most_recent.
  destruct (Nat.ltb_spec max_records (List.length (load_history w)))
    as [Hlt|Hge].
  - unfold slice_last. destruct max_records; [contradiction | reflexivity].
  - replace (List.length (load_history w) - max_records)%nat with O by lia.
    reflexivity.
Qed.

(** Whatever its result, a run only appends records to the history and,
    when it reaches [cleanup_old_history], drops the oldest records beyond
    the cap. *)
Lemma outcome_bind {A B : Type} (m : M A) (k : A -> M B) :
  appending m ->
  (forall a w r w', k a w = (r, w') -> history_outcome w w') ->
  forall w r w', bind m k w = (r, w') -> history_outcome w w'.
Proof.
  intros Hm Hk w r w' H.
  destruct (bind_inv m k w w' r H) as [(a & w1 & H1 & H2)|(e & H1 & _)].
  - destruct (Hm _ _ _ H1) as [a1 Ha1].
    destruct (Hk _ _ _ _ H2) as [[a2 Ha2]|[a2 Ha2]].
    + left. exists (a1 ++ a2)%list. now rewrite Ha2, Ha1, app_assoc.
    + right. exists (a1 ++ a2)%list. now rewrite Ha2, Ha1, app_assoc.
  - right. eapply Hm; eassumption.
Qed.

Lemma run_update_try_history (cfg : ParserConfig) (env : Env)
    (source : string) (w w' : World) (r : result value) :
  run_update_try cfg env source w = (r, w') -> history_outcome w w'.
Proof.
  revert w r w'. unfold run_update_try.
  apply outcome_bind; [apply appending_load_rates | intros current_rates].
  apply outcome_bind; [apply appending_lift | intros pairs0].
  apply outcome_bind; [apply appending_fetch_from | intros rates1].
  apply outcome_bind; [apply appending_fetch_from | intros new_rates].
  destruct (negb (truthy (VDict new_rates))).
  { intros w r w' [= _ <-]. right. apply history_grows_refl. }
  apply outcome_bind; [apply appending_update_pairs | intros l].
  apply outcome_bind; [apply appending_lift | intros rates2].
  apply outcome_bind; [apply appending_lift | intros rates3].
  apply outcome_bind; [apply appending_save_rates | intros u].
  intros w r w'. unfold bind, modify, lift, ret.
  destruct (py_len (pairs l)); intros [= _ <-]; left; exists [];
    change (load_history (cleanup_old_history 1000 w)
            = most_recent 1000 (load_history w ++ [])%list);
    rewrite cleanup_old_history_spec by discriminate;
    now rewrite app_nil_r.
Qed.

Lemma run_update_history (cfg : ParserConfig) (env : Env) (source : string)
    (w w' : World) (r : result value) :
  run_update cfg env source w = (r, w') -> history_outcome w w'.
Proof.
  unfold run_update, try_except.
  destruct (run_update_try cfg env source w) as [[v|e] w0] eqn:Htry;
    apply run_update_try_history in Htry.
  - now intros [= _ <-].
  - unfold run_update_except, bind, modify, ret. now intros [= _ <-].
Qed.

(** At the cap, the run's record goes in and the oldest record goes out. *)
Example run_update_at_the_cap :
  exists record,
    load_history
      (snd (run_update config scenario_env "coingecko" full_history_world))
    = (List.repeat old_record 999 ++ [VDict record])%list
    /\ dict_get record "id" = Some (VStr "BTC_USD_2026-01-02T00:00:00Z").
Proof.
  eexists. split; [vm_compute; reflexivity | reflexivity].
Qed.

(** ** Aggregator: "updated" and "new" pairs *)

(** How one valid pair is counted: [pair_key in current_pair] looks for
    the pair key among the keys of the stored quote [current_pair], not
    among the keys of [pairs]. *)
Lemma update_pair_counts (cfg : ParserConfig) (now : string)
    (clock : nat -> string) (pair_key : string) (rate : value) (l : Locals)
    (w : World) (from_curr to_curr : string) (stored current_pair : dict) :
  validate_rate cfg rate = Ok true ->
  split_underscore pair_key = Some (from_curr, to_curr) ->
  pairs l = VDict stored ->
  dict_get_default stored pair_key (VDict []) = VDict current_pair ->
  exists l' w',
    update_pair cfg now clock pair_key rate l w = (Ok l', w')
    /\ updated_count l'
       = updated_count l + (if dict_contains current_pair pair_key
                            then 1 else 0)
    /\ new_count l'
       = new_count l + (if dict_contains current_pair pair_key
                        then 0 else 1).
Proof.
  intros Hvalid Hsplit Hpairs Hcurrent.
  unfold update_pair, bind at 1. unfold lift at 1.
  rewrite Hvalid, Hsplit, Hpairs. cbn [negb].
  unfold bind at 1. unfold lift at 1. cbn [py_get]. rewrite Hcurrent.
  unfold bind at 1. unfold lift at 1. cbn [py_get].
  unfold bind at 1. unfold lift at 1. cbn [py_setitem].
  unfold bind at 1.
  match goal with
  | |- context [try_except ?body ?handler w] =>
      destruct (try_except body handler w) as [[created'|e] w1] eqn:Htry
  end.
  - unfold bind, lift. cbn [py_contains].
    destruct (dict_contains current_pair pair_key);
      do 2 eexists; (split; [reflexivity |]); cbn; lia.
  - exfalso. unfold try_except in Htry.
    match type of Htry with
    | match ?body w with _ => _ end = _ =>
        destruct (body w) as [[a|e'] w2]; discriminate
    end.
Qed.

(** C1 fails on the code.  In the scenario the pair [BTC_USD] is in the
    loaded snapshot, yet the run reports no updated pair and one new
    pair; a second run with the same provider answer reports the same
    again. *)
Theorem run_update_counts_known_pair_as_new :
  dict_contains scenario_pairs "BTC_USD" = true
  /\ (exists r,
        fst scenario_first_run = Ok r
        /\ result_field r "success" = Some (VBool true)
        /\ result_field r "updated_pairs" = Some (VInt 0)
        /\ result_field r "new_pairs" = Some (VInt 1))
  /\ (exists r,
        fst scenario_second_run = Ok r
        /\ result_field r "success" = Some (VBool true)
        /\ result_field r "updated_pairs" = Some (VInt 0)
        /\ result_field r "new_pairs" = Some (VInt 1)).
Proof.
  split; [reflexivity |].
  split; eexists; (split; [vm_compute; reflexivity |]);
    repeat split; reflexivity.
Qed.

(** * Further properties *)

(** ** Dictionaries: lookup after insertion *)

Lemma dict_get_set_same (d : dict) (k : string) (v : value) :
  dict_get (dict_set d k v) k = Some v.
Proof.
  induction d as [|[k' v'] d IH]; cbn [dict_set dict_get].
  - now rewrite String.eqb_refl.
  - destruct (String.eqb_spec k k') as [->|Hne]; cbn [dict_get].
    + now rewrite String.eqb_refl.
    + destruct (String.eqb_spec k k'); [contradiction | exact IH].
Qed.

Lemma dict_get_set_other (d : dict) (k k' : string) (v : value) :
  k' <> k -> dict_get (dict_set d k v) k' = dict_get d k'.
Proof.
  intros Hne.
  induction d as [|[k0 v0] d IH]; cbn [dict_set dict_get].
  - destruct (String.eqb_spec k' k); [contradiction | reflexivity].
  - destruct (String.eqb_spec k k0) as [->|Hk]; cbn [dict_get].
    + destruct (String.eqb_spec k' k0); [contradiction | reflexivity].
    + destruct (String.eqb_spec k' k0); [reflexivity | exact IH].
Qed.

Lemma dict_keys_set (d : dict) (k : string) (v : value) :
  dict_keys (dict_set d k v)
  = if dict_contains d k then dict_keys d else (dict_keys d ++ [k])%list.
Proof.
  unfold dict_contains, dict_keys.
  induction d as [|[k' v'] d IH]; cbn [dict_set dict_get map fst].
  - reflexivity.
  - destruct (String.eqb_spec k k') as [->|Hne]; cbn [map fst].
    + reflexivity.
    + rewrite IH. now destruct (dict_get d k).
Qed.

Lemma dict_get_none_keys (d : dict) (k : string) :
  dict_get d k = None <-> ~ In k (dict_keys d).
Proof.
  unfold dict_keys.
  induction d as [|[k' v'] d IH]; cbn [dict_get map fst In].
  - tauto.
  - destruct (String.eqb_spec k k') as [->|Hne].
    + split; [discriminate | intros H; exfalso; apply H; now left].
    + rewrite IH. split.
      * intros H [Heq|Hin]; [now symmetry in Heq | contradiction].
      * intros H Hin. apply H. now right.
Qed.

Lemma dict_set_nodup (d : dict) (k : string) (v : value) :
  NoDup (dict_keys d) -> NoDup (dict_keys (dict_set d k v)).
Proof.
  intros Hd. rewrite dict_keys_set. unfold dict_contains.
  destruct (dict_get d k) eqn:Hk; [exact Hd |].
  apply dict_get_none_keys in Hk.
  apply NoDup_app; [exact Hd | repeat constructor; intros [] | ].
  intros x Hx [<-|[]]. contradiction.
Qed.

Lemma dict_update_nodup (d other : dict) :
  NoDup (dict_keys d) -> NoDup (dict_keys (dict_update d other)).
Proof.
  unfold dict_update. revert d.
  induction other as [|[k v] other IH]; intros d Hd; cbn [fold_left].
  - exact Hd.
  - apply IH. now apply dict_set_nodup.
Qed.

(** [d.update(other)] followed by a lookup: the value of [other] when it
    has the key, the value of [d] otherwise. *)
Lemma dict_get_update (d other : dict) (k : string) :
  NoDup (dict_keys other) ->
  dict_get (dict_update d other) k
  = match dict_get other k with
    | Some v => Some v
    | None => dict_get d k
    end.
Proof.
  unfold dict_update. revert d.
  induction other as [|[k' v'] other IH]; intros d Hnd;
    cbn [fold_left dict_get fst snd].
  - reflexivity.
  - inversion Hnd as [|? ? Hnotin Hnd']; subst.
    rewrite (IH _ Hnd').
    destruct (String.eqb_spec k k') as [->|Hne].
    + apply dict_get_none_keys in Hnotin. rewrite Hnotin.
      apply dict_get_set_same.
    + destruct (dict_get other k); [reflexivity |].
      now apply dict_get_set_other.
Qed.

(** ** Aggregator: what a run can change *)

Lemma untouched_refl (w : World) : untouched w w.
Proof. repeat split. Qed.

Lemma untouched_trans (w1 w2 w3 : World) :
  untouched w1 w2 -> untouched w2 w3 -> untouched w1 w3.
Proof.
  intros (H1 & H2 & H3) (H4 & H5 & H6).
  repeat split; congruence.
Qed.

Lemma quiet_ret {A : Type} (a : A) : quiet (ret a).
Proof. intros w r w' [= _ <-]. apply untouched_refl. Qed.

Lemma quiet_raise {A : Type} (e : exn) : quiet (@raise A e).
Proof. intros w r w' [= _ <-]. apply untouched_refl. Qed.

Lemma quiet_lift {A : Type} (r0 : result A) : quiet (lift r0).
Proof. intros w r w' [= _ <-]. apply untouched_refl. Qed.

Lemma quiet_bind {A B : Type} (m : M A) (k : A -> M B) :
  quiet m -> (forall a, quiet (k a)) -> quiet (bind m k).
Proof.
  intros Hm Hk w r w' H.
  destruct (bind_inv m k w w' r H) as [(a & w1 & H1 & H2)|(e & H1 & _)].
  - eapply untouched_trans; [eapply Hm | eapply Hk]; eassumption.
  - eapply Hm; eassumption.
Qed.

Lemma quiet_try_except {A : Type} (body : M A) (handler : exn -> M A) :
  quiet body -> (forall e, quiet (handler e)) ->
  quiet (try_except body handler).
Proof.
  intros Hb Hh w r w'. unfold try_except.
  destruct (body w) as [[a|e] w1] eqn:H1.
  - intros [= <- <-]. eapply Hb; eassumption.
  - intros H2.
    eapply untouched_trans; [eapply Hb | eapply Hh]; eassumption.
Qed.

Lemma quiet_update_pair (cfg : ParserConfig) (now : string)
    (clock : nat -> string) (pair_key : string) (rate : value) (l : Locals) :
  quiet (update_pair cfg now clock pair_key rate l).
Proof.
  unfold update_pair.
  apply quiet_bind; [apply quiet_lift | intros valid].
  destruct (negb valid); [apply quiet_ret |].
  destruct (split_underscore pair_key) as [[from_curr to_curr]|];
    [| apply quiet_raise].
  apply quiet_bind; [apply quiet_lift | intros current_pair].
  apply quiet_bind; [apply quiet_lift | intros current_rate].
  apply quiet_bind; [apply quiet_lift | intros pairs'].
  apply quiet_bind.
  - apply quiet_try_except; [| intros e; apply quiet_ret].
    apply quiet_bind; [apply quiet_lift | intros pct].
    apply quiet_bind; [| intros u; apply quiet_ret].
    intros w r w' [= _ <-]. repeat split.
  - intros created'.
    apply quiet_bind; [apply quiet_lift | intros known].
    destruct known; apply quiet_ret.
Qed.

Lemma quiet_update_pairs (cfg : ParserConfig) (now : string)
    (clock : nat -> string) (items : dict) (l : Locals) :
  quiet (update_pairs cfg now clock items l).
Proof.
  revert l. induction items as [|[pair_key rate] items IH]; intros l.
  - apply quiet_ret.
  - cbn [update_pairs].
    apply quiet_bind; [apply quiet_update_pair | exact IH].
Qed.

(** ** Aggregator: one pair, and the loop *)

(** What the loop body does when it ends normally: an invalid rate is
    skipped; a valid rate is stored in [pairs], which is a dictionary, and
    counted once. *)
Lemma update_pair_ok_inv (cfg : ParserConfig) (now : string)
    (clock : nat -> string) (pair_key : string) (rate : value)
    (l l' : Locals) (w w' : World) :
  update_pair cfg now clock pair_key rate l w = (Ok l', w') ->
  (is_valid cfg rate = false /\ l' = l /\ w' = w)
  \/ (is_valid cfg rate = true
      /\ exists d,
           pairs l = VDict d
           /\ pairs l'
              = VDict (dict_set d pair_key
                         (quote rate now (source_of cfg pair_key)))
           /\ updated_count l' + new_count l'
              = updated_count l + new_count l + 1).
Proof.
  unfold update_pair, is_valid, source_of.
  intros H.
  apply bind_ok_inv in H as (valid & w1 & H1 & H).
  apply lift_inv in H1 as [H1 ->]. rewrite <- H1.
  destruct valid; cbn [negb] in H.
  2:{ left. now injection H as <- <-. }
  right. split; [reflexivity |].
  destruct (split_underscore pair_key) as [[from_curr to_curr]|];
    [| discriminate H].
  apply bind_ok_inv in H as (current_pair & w2 & H2 & H).
  apply lift_inv in H2 as [H2 ->].
  destruct (pairs l) as [| | | | |d] eqn:Hpairs; try discriminate H2.
  exists d. split; [reflexivity |].
  apply bind_ok_inv in H as (current_rate & w3 & H3 & H).
  apply bind_ok_inv in H as (pairs' & w4 & H4 & H).
  apply lift_inv in H4 as [H4 ->]. cbn [py_setitem] in H4.
  injection H4 as Hpairs'.
  apply bind_ok_inv in H as (created' & w5 & H5 & H).
  apply bind_ok_inv in H as (known & w6 & H6 & H).
  destruct known; injection H as <- _;
    cbn [pairs updated_count new_count]; rewrite Hpairs';
    (split; [reflexivity | lia]).
Qed.

Lemma update_pairs_ok_inv (cfg : ParserConfig) (now : string)
    (clock : nat -> string) (items : dict) (d : dict) (l l' : Locals)
    (w w' : World) :
  update_pairs cfg now clock items l w = (Ok l', w') ->
  pairs l = VDict d ->
  pairs l' = VDict (stored_after cfg now items d)
  /\ updated_count l' + new_count l'
     = updated_count l + new_count l + count_valid cfg items.
Proof.
  revert d l w.
  induction items as [|[pair_key rate] items IH]; intros d l w H Hpairs.
  - injection H as <- _. cbn. split; [exact Hpairs | lia].
  - cbn [update_pairs] in H.
    apply bind_ok_inv in H as (l1 & w1 & H1 & H).
    unfold count_valid. cbn [stored_after filter snd].
    apply update_pair_ok_inv in H1
      as [(Hv & -> & ->)|(Hv & d0 & Hd0 & Hd1 & Hcount)]; rewrite Hv.
    + destruct (IH _ _ _ H Hpairs) as [Hp Hc].
      split; [exact Hp | exact Hc].
    + rewrite Hpairs in Hd0. injection Hd0 as <-.
      destruct (IH _ _ _ H Hd1) as [Hp Hc].
      split; [exact Hp |].
      unfold count_valid in Hc. cbn [List.length]. lia.
Qed.

(** A [pairs] that has a length keeps one through the loop. *)
Lemma update_pairs_sized (cfg : ParserConfig) (now : string)
    (clock : nat -> string) (items : dict) (l l' : Locals) (w w' : World) :
  update_pairs cfg now clock items l w = (Ok l', w') ->
  sized (pairs l) = true -> sized (pairs l') = true.
Proof.
  revert l w.
  induction items as [|[pair_key rate] items IH]; intros l w H Hs.
  - now injection H as <- _.
  - cbn [update_pairs] in H.
    apply bind_ok_inv in H as (l1 & w1 & H1 & H).
    apply (IH _ _ H).
    apply update_pair_ok_inv in H1
      as [(_ & -> & _)|(_ & d0 & _ & -> & _)]; [exact Hs | reflexivity].
Qed.

(** ** Aggregator: the paths of a run *)

Lemma get_rates_is_dict (w : World) : exists d, get_rates w = VDict d.
Proof.
  unfold get_rates, empty_rates.
  destruct (rates_json w) as [|[| | | | |d] rest]; eauto.
Qed.

Lemma load_rates_inv (w w' : World) (current_rates : value) :
  load_rates w = (Ok current_rates, w') ->
  current_rates = get_rates w /\ w' = w
  /\ exists n, logged_pairs_count (get_rates w) = Ok n.
Proof.
  unfold load_rates.
  destruct (logged_pairs_count (get_rates w)) as [n|e] eqn:Hn;
    [| discriminate].
  intros [= <- <-]. eauto.
Qed.

Lemma same_data_refl (w : World) : same_data w w.
Proof. repeat split. Qed.

Lemma same_data_trans (w1 w2 w3 : World) :
  same_data w1 w2 -> same_data w2 w3 -> same_data w1 w3.
Proof.
  intros (H1 & H2 & H3) (H4 & H5 & H6). repeat split; congruence.
Qed.

(** A fetch block changes only the list of sources asked; when the run
    goes on, [new_rates] has received the source's contribution. *)
Lemma fetch_from_inv (client scoped : string) (o : fetch_outcome)
    (source : string) (new_rates : dict) (w w' : World)
    (r : result dict) :
  fetch_from client scoped o source new_rates w = (r, w') ->
  same_data w w'
  /\ forall new_rates',
       r = Ok new_rates' ->
       new_rates' = dict_update new_rates (contribution source scoped o).
Proof.
  unfold fetch_from, contribution, asked.
  destruct (existsb (String.eqb source) ["all"; scoped]).
  2:{ intros [= <- <-]. split; [apply same_data_refl |].
      now intros ? [= <-]. }
  unfold bind, modify.
  destruct o as [rates|e].
  - destruct rates as [|kv rates]; cbn [truthy];
      intros [= <- <-]; (split; [repeat split |]); now intros ? [= <-].
  - destruct e as [reason| | | |];
      try (intros [= <- <-]; (split; [repeat split |]); discriminate).
    destruct (String.eqb source scoped);
      intros [= <- <-]; (split; [repeat split |]);
      [discriminate | now intros ? [= <-]].
Qed.

Lemma logged_pairs_count_saved (d : dict) (final_pairs : value)
    (now : string) :
  logged_pairs_count (saved_snapshot d final_pairs now) = py_len final_pairs.
Proof.
  unfold logged_pairs_count, saved_snapshot. cbn [py_get rbind].
  unfold dict_get_default.
  rewrite dict_get_set_other by discriminate.
  now rewrite dict_get_set_same.
Qed.

Lemma py_len_sized (v : value) :
  sized v = true -> exists n, py_len v = Ok n.
Proof. destruct v; try discriminate; cbn; eauto. Qed.

Lemma py_len_ok_sized (v : value) (n : Z) : py_len v = Ok n -> sized v = true.
Proof. destruct v; try discriminate; reflexivity. Qed.

Lemma cleanup_old_history_untouched (max_records : nat) (w : World) :
  untouched w (cleanup_old_history max_records w).
Proof.
  unfold cleanup_old_history.
  destruct (_ <? _)%nat; repeat split.
Qed.

(** The paths of the [try] block.  It ends early, with the files and the
    counters as they were, by raising or with the result for no rates; or
    it runs through: the loop ends normally, the snapshot is saved, the
    history trimmed, a success counted, and the result reports the
    counts. *)
Lemma run_update_try_cases (cfg : ParserConfig) (env : Env)
    (source : string) (w w' : World) (r : result value) :
  run_update_try cfg env source w = (r, w') ->
  (rates_json w' = rates_json w /\ stats w' = stats w
   /\ (r = Ok no_rates_result \/ exists e, r = Raise e))
  \/ (exists d l w0 w1 total_pairs,
        get_rates w = VDict d
        /\ same_data w w0
        /\ merged_rates env source <> []
        /\ update_pairs cfg (current_time env) (record_time env)
             (merged_rates env source)
             (initial_locals (dict_get_default d "pairs" (VDict []))) w0
           = (Ok l, w1)
        /\ py_len (pairs l) = Ok total_pairs
        /\ w' = with_stats
                  (record_success (current_time env) (stats w1))
                  (cleanup_old_history 1000
                     (with_rates_json
                        [saved_snapshot d (pairs l) (current_time env)]
                        w1))
        /\ r = Ok (success_result env source total_pairs
                     (updated_count l) (new_count l))).
Proof.
  unfold run_update_try. intros H.
  destruct (get_rates_is_dict w) as [d Hd].
  apply bind_inv in H as [(current_rates & w1 & H1 & H)|(e & H1 & ->)].
  2:{ left. apply load_rates_world in H1 as ->. eauto 6. }
  apply load_rates_inv in H1 as (-> & -> & n & Hn).
  rewrite Hd in H, Hn.
  apply bind_inv in H as [(pairs0 & w2 & H2 & H)|(e & H2 & ->)].
  2:{ left. apply lift_inv in H2 as [_ ->]. eauto 6. }
  apply lift_inv in H2 as [H2 ->]. cbn [py_get] in H2.
  injection H2 as ->.
  assert (Hsized : sized (dict_get_default d "pairs" (VDict [])) = true).
  { unfold logged_pairs_count in Hn. cbn [py_get rbind] in Hn.
    eapply py_len_ok_sized; eassumption. }
  apply bind_inv in H as [(rates1 & w3 & H3 & H)|(e & H3 & ->)].
  2:{ left. apply fetch_from_inv in H3 as [(Hr & _ & Hs) _]. eauto 6. }
  apply fetch_from_inv in H3 as [Hw3 Hrates1].
  specialize (Hrates1 _ eq_refl).
  apply bind_inv in H as [(new_rates & w4 & H4 & H)|(e & H4 & ->)].
  2:{ left. apply fetch_from_inv in H4 as [(Hr & _ & Hs) _].
      destruct Hw3 as (Hr3 & _ & Hs3).
      split; [congruence | split; [congruence | eauto]]. }
  apply fetch_from_inv in H4 as [Hw4 Hnew].
  specialize (Hnew _ eq_refl).
  assert (Hmerged : new_rates = merged_rates env source)
    by (unfold merged_rates; congruence).
  pose proof (same_data_trans _ _ _ Hw3 Hw4) as Hw.
  destruct new_rates as [|kv new_rates]; cbn [truthy negb] in H.
  { left. injection H as <- <-. destruct Hw as (Hr & _ & Hs). eauto 6. }
  apply bind_inv in H as [(l & w5 & H5 & H)|(e & H5 & ->)].
  2:{ left. apply quiet_update_pairs in H5 as (Hr5 & Hs5 & _).
      destruct Hw as (Hr & _ & Hs).
      split; [congruence | split; [congruence | eauto]]. }
  pose proof (update_pairs_sized _ _ _ _ _ _ _ _ H5 Hsized) as Hsized'.
  destruct (py_len_sized _ Hsized') as [total Htotal].
  unfold bind at 1 in H. unfold lift at 1 in H. cbn [py_setitem] in H.
  unfold bind at 1 in H. unfold lift at 1 in H. cbn [py_setitem] in H.
  unfold bind at 1 in H. unfold save_rates at 1 in H.
  change (VDict (dict_set (dict_set d "pairs" (pairs l)) "last_refresh"
                   (VStr (current_time env))))
    with (saved_snapshot d (pairs l) (current_time env)) in H.
  rewrite logged_pairs_count_saved, Htotal in H.
  unfold bind, modify, lift, ret in H.
  injection H as <- <-.
  right. exists d, l, w4, w5, total.
  rewrite <- Hmerged.
  repeat split; try reflexivity; try apply Hw; try assumption.
  - discriminate.
  - now rewrite (proj1 (proj2 (cleanup_old_history_untouched 1000 _))).
Qed.

(** ** Aggregator: results, snapshot and counters of a run *)

(** X1. [run_update] never raises: whatever the sources, the clock and
    the files do, its caller receives a dictionary with a Boolean
    [success] and a string [message]. *)
Theorem run_update_returns_result (cfg : ParserConfig) (env : Env)
    (source : string) (w : World) :
  exists r success message,
    fst (run_update cfg env source w) = Ok r
    /\ result_field r "success" = Some (VBool success)
    /\ result_field r "message" = Some (VStr message).
Proof.
  unfold run_update, try_except.
  destruct (run_update_try cfg env source w) as [r w'] eqn:Htry.
  apply run_update_try_cases in Htry
    as [(_ & _ & [->|[e ->]])
       |(d & l & w0 & w1 & total & _ & _ & _ & _ & _ & _ & ->)];
    do 3 eexists; cbn; repeat split; reflexivity.
Qed.

(** X2. A run that does not report success leaves [rates.json] as it
    was: the snapshot is written only by a run that returns
    [success == True]. *)
Theorem run_update_failure_keeps_snapshot (cfg : ParserConfig) (env : Env)
    (source : string) (w w' : World) (r : value) :
  run_update cfg env source w = (Ok r, w') ->
  result_field r "success" = Some (VBool false) ->
  rates_json w' = rates_json w.
Proof.
  unfold run_update, try_except. intros Hrun Hfalse.
  destruct (run_update_try cfg env source w) as [r0 w0] eqn:Htry.
  apply run_update_try_cases in Htry
    as [(Hrates & _ & [->|[e ->]])
       |(d & l & w1 & w2 & total & _ & _ & _ & _ & _ & _ & ->)].
  - now injection Hrun as _ <-.
  - unfold run_update_except, bind, modify, ret in Hrun.
    now injection Hrun as _ <-.
  - injection Hrun as <- _. discriminate Hfalse.
Qed.

Lemma run_update_failure_keeps_snapshot_witness :
  rates_json (snd (run_update config outage_env "coingecko" scenario_world))
  = rates_json scenario_world.
Proof.
  eapply (run_update_failure_keeps_snapshot config outage_env "coingecko"
            scenario_world).
  - reflexivity.
  - reflexivity.
Defined.

(** X3. A run keeps the counters consistent ([total_updates] is the sum
    of [successful_updates] and [failed_updates]) and counts at most one
    update. *)
Theorem run_update_keeps_stats_consistent (cfg : ParserConfig) (env : Env)
    (source : string) (w w' : World) (r : result value) :
  run_update cfg env source w = (r, w') ->
  stats_consistent (stats w) ->
  stats_consistent (stats w')
  /\ total_updates (stats w) <= total_updates (stats w')
     <= total_updates (stats w) + 1.
Proof.
  unfold run_update, try_except, stats_consistent. intros Hrun Hc.
  destruct (run_update_try cfg env source w) as [r0 w0] eqn:Htry.
  apply run_update_try_cases in Htry
    as [(_ & Hstats & [->|[e ->]])
       |(d & l & w1 & w2 & total & _ & (_ & _ & Hs1) & _ & Hloop & _
         & -> & ->)].
  - injection Hrun as _ <-. rewrite Hstats. lia.
  - unfold run_update_except, bind, modify, ret in Hrun.
    injection Hrun as _ <-. cbn. rewrite Hstats. lia.
  - injection Hrun as _ <-.
    apply quiet_update_pairs in Hloop as (_ & Hs2 & _).
    cbn. rewrite Hs2, Hs1. lia.
Qed.

Lemma run_update_keeps_stats_consistent_witness :
  stats_consistent
    (stats (snd (run_update config scenario_env "all" counted_world)))
  /\ total_updates (stats counted_world)
     <= total_updates
          (stats (snd (run_update config scenario_env "all" counted_world)))
     <= total_updates (stats counted_world) + 1.
Proof.
  eapply (run_update_keeps_stats_consistent config scenario_env "all"
            counted_world).
  - reflexivity.
  - reflexivity.
Defined.

Lemma update_pairs_counts (cfg : ParserConfig) (now : string)
    (clock : nat -> string) (items : dict) (l l' : Locals) (w w' : World) :
  update_pairs cfg now clock items l w = (Ok l', w') ->
  updated_count l' + new_count l'
  = updated_count l + new_count l + count_valid cfg items.
Proof.
  revert l w.
  induction items as [|[pair_key rate] items IH]; intros l w H.
  - injection H as <- _. cbn. lia.
  - cbn [update_pairs] in H.
    apply bind_ok_inv in H as (l1 & w1 & H1 & H).
    specialize (IH _ _ H).
    unfold count_valid in *. cbn [filter snd].
    apply update_pair_ok_inv in H1
      as [(Hv & -> & _)|(Hv & d0 & _ & _ & Hcount)]; rewrite Hv.
    + exact IH.
    + cbn [List.length]. lia.
Qed.

(** The loop, read as lookups: a key with a valid rate among the items has
    a fresh quote; every other key has what it had. *)
Lemma dict_get_stored_after (cfg : ParserConfig) (now : string)
    (items d : dict) (k : string) :
  NoDup (dict_keys items) ->
  dict_get (stored_after cfg now items d) k
  = match dict_get items k with
    | Some rate =>
        if is_valid cfg rate
        then Some (quote rate now (source_of cfg k))
        else dict_get d k
    | None => dict_get d k
    end.
Proof.
  revert d.
  induction items as [|[k0 r0] items IH]; intros d Hnd;
    cbn [stored_after dict_get].
  - reflexivity.
  - inversion Hnd as [|? ? Hnotin Hnd']; subst.
    rewrite (IH _ Hnd').
    destruct (String.eqb_spec k k0) as [->|Hne].
    + apply dict_get_none_keys in Hnotin. rewrite Hnotin.
      destruct (is_valid cfg r0); [apply dict_get_set_same | reflexivity].
    + destruct (dict_get items k) as [rate|].
      * destruct (is_valid cfg rate); [reflexivity |].
        destruct (is_valid cfg r0);
          [now apply dict_get_set_other | reflexivity].
      * destruct (is_valid cfg r0);
          [now apply dict_get_set_other | reflexivity].
Qed.

Lemma merged_rates_nodup (env : Env) (source : string) :
  NoDup (dict_keys (merged_rates env source)).
Proof.
  unfold merged_rates. do 2 apply dict_update_nodup. constructor.
Qed.

Lemma get_rates_saved (d : dict) (final_pairs : value) (now : string)
    (w : World) :
  get_rates (with_rates_json [saved_snapshot d final_pairs now] w)
  = saved_snapshot d final_pairs now.
Proof.
  unfold get_rates, saved_snapshot. cbn [rates_json with_rates_json].
  unfold dict_contains.
  rewrite dict_get_set_other by discriminate.
  rewrite dict_get_set_same.
  now rewrite dict_get_set_same.
Qed.

Lemma get_rates_rates_json (w w' : World) :
  rates_json w' = rates_json w -> get_rates w' = get_rates w.
Proof. unfold get_rates. now intros ->. Qed.

(** The snapshot that a successful run saves: the stored pairs after the
    loop over the merged rates. *)
Lemma run_update_saved_snapshot (cfg : ParserConfig) (env : Env)
    (source : string) (w w' : World) (r : value) (stored : dict) :
  run_update cfg env source w = (Ok r, w') ->
  result_field r "success" = Some (VBool true) ->
  snapshot_pairs w = Some stored ->
  snapshot_pairs w'
  = Some (stored_after cfg (current_time env) (merged_rates env source)
            stored)
  /\ result_field (get_rates w') "last_refresh"
     = Some (VStr (current_time env)).
Proof.
  unfold run_update, try_except. intros Hrun Htrue Hsnap.
  destruct (run_update_try cfg env source w) as [r0 w0] eqn:Htry.
  apply run_update_try_cases in Htry
    as [(_ & _ & [->|[e ->]])
       |(d & l & w1 & w2 & total & Hd & _ & _ & Hloop & _ & -> & ->)].
  - injection Hrun as <- _. discriminate Htrue.
  - unfold run_update_except, bind, modify, ret in Hrun.
    injection Hrun as <- _. discriminate Htrue.
  - injection Hrun as _ <-.
    destruct (get_rates_pairs w stored Hsnap) as [_ Hpairs].
    rewrite Hd in Hpairs. cbn [py_get] in Hpairs.
    injection Hpairs as Hpairs.
    destruct (update_pairs_ok_inv _ _ _ _ stored _ _ _ _ Hloop)
      as [Hfinal _]; [exact Hpairs |].
    assert (Hget : get_rates
                     (with_stats
                        (record_success (current_time env) (stats w2))
                        (cleanup_old_history 1000
                           (with_rates_json
                              [saved_snapshot d (pairs l)
                                 (current_time env)] w2)))
                   = saved_snapshot d (pairs l) (current_time env)).
    { etransitivity; [apply get_rates_rates_json | apply get_rates_saved].
      cbn [rates_json with_stats].
      apply (proj1 (cleanup_old_history_untouched 1000 _)). }
    split.
    + unfold snapshot_pairs. rewrite Hget. unfold saved_snapshot.
      rewrite dict_get_set_other by discriminate.
      now rewrite dict_get_set_same, Hfinal.
    + rewrite Hget. unfold saved_snapshot, result_field.
      apply dict_get_set_same.
Qed.

(** X4. After a run that reports success, the stored snapshot has
    [last_refresh] equal to the time of the run; every pair that the
    sources returned with a valid rate is stored with that rate, the time
    of the run and its source name; every other pair is stored as it was
    before the run. *)
Theorem run_update_stores_valid_rates (cfg : ParserConfig) (env : Env)
    (source : string) (w w' : World) (r : value) (stored : dict) :
  run_update cfg env source w = (Ok r, w') ->
  result_field r "success" = Some (VBool true) ->
  snapshot_pairs w = Some stored ->
  exists final,
    snapshot_pairs w' = Some final
    /\ result_field (get_rates w') "last_refresh"
       = Some (VStr (current_time env))
    /\ forall k,
         dict_get final k
         = match dict_get (merged_rates env source) k with
           | Some rate =>
               if is_valid cfg rate
               then Some (quote rate (current_time env) (source_of cfg k))
               else dict_get stored k
           | None => dict_get stored k
           end.
Proof.
  intros Hrun Htrue Hsnap.
  destruct (run_update_saved_snapshot cfg env source w w' r stored
              Hrun Htrue Hsnap) as [Hfinal Hrefresh].
  eexists. split; [exact Hfinal | split; [exact Hrefresh |]].
  intros k. apply dict_get_stored_after, merged_rates_nodup.
Qed.

Lemma run_update_stores_valid_rates_witness :
  exists final,
    snapshot_pairs (snd (run_update config overlap_env "all" scenario_world))
    = Some final
    /\ result_field
         (get_rates (snd (run_update config overlap_env "all"
                            scenario_world)))
         "last_refresh"
       = Some (VStr (current_time overlap_env))
    /\ forall k,
         dict_get final k
         = match dict_get (merged_rates overlap_env "all") k with
           | Some rate =>
               if is_valid config rate
               then Some (quote rate (current_time overlap_env)
                            (source_of config k))
               else dict_get scenario_pairs k
           | None => dict_get scenario_pairs k
           end.
Proof.
  eapply (run_update_stores_valid_rates config overlap_env "all"
            scenario_world).
  - reflexivity.
  - reflexivity.
  - reflexivity.
Defined.

(** X5. In the result of a run that reports success, [updated_pairs] and
    [new_pairs] add up to the number of pairs that the sources returned
    with a valid rate: each of them is counted once, and no other. *)
Theorem run_update_counts_add_up (cfg : ParserConfig) (env : Env)
    (source : string) (w w' : World) (r : value) :
  run_update cfg env source w = (Ok r, w') ->
  result_field r "success" = Some (VBool true) ->
  exists updated new,
    result_field r "updated_pairs" = Some (VInt updated)
    /\ result_field r "new_pairs" = Some (VInt new)
    /\ updated + new = count_valid cfg (merged_rates env source).
Proof.
  unfold run_update, try_except. intros Hrun Htrue.
  destruct (run_update_try cfg env source w) as [r0 w0] eqn:Htry.
  apply run_update_try_cases in Htry
    as [(_ & _ & [->|[e ->]])
       |(d & l & w1 & w2 & total & _ & _ & _ & Hloop & _ & _ & ->)].
  - injection Hrun as <- _. discriminate Htrue.
  - unfold run_update_except, bind, modify, ret in Hrun.
    injection Hrun as <- _. discriminate Htrue.
  - injection Hrun as <- _.
    exists (updated_count l), (new_count l).
    split; [reflexivity | split; [reflexivity |]].
    apply update_pairs_counts in Hloop. cbn in Hloop. lia.
Qed.

Lemma run_update_counts_add_up_witness :
  exists updated new,
    result_field (VDict [("success", VBool true);
                         ("message", VStr "Обновление успешно завершено");
                         ("execution_time", VFloat 0.25);
                         ("total_pairs", VInt 3);
                         ("updated_pairs", VInt 0);
                         ("new_pairs", VInt 3);
                         ("source", VStr "all")])
      "updated_pairs" = Some (VInt updated)
    /\ result_field (VDict [("success", VBool true);
                            ("message", VStr "Обновление успешно завершено");
                            ("execution_time", VFloat 0.25);
                            ("total_pairs", VInt 3);
                            ("updated_pairs", VInt 0);
                            ("new_pairs", VInt 3);
                            ("source", VStr "all")])
         "new_pairs" = Some (VInt new)
    /\ updated + new = count_valid config (merged_rates overlap_env "all").
Proof.
  eapply (run_update_counts_add_up config overlap_env "all" scenario_world).
  - vm_compute. reflexivity.
  - reflexivity.
Defined.

(** The merge of a run over all sources: the rate of ExchangeRate-API
    where it has the pair, the rate of CoinGecko elsewhere. *)
Lemma merged_rates_last_writer_wins (env : Env) (crypto fiat : dict)
    (k : string) :
  coingecko_client env = Returns crypto ->
  exchangerate_client env = Returns fiat ->
  NoDup (dict_keys crypto) ->
  NoDup (dict_keys fiat) ->
  dict_get (merged_rates env "all") k
  = match dict_get fiat k with
    | Some rate => Some rate
    | None => dict_get crypto k
    end.
Proof.
  intros Hcg Her Hndc Hndf.
  unfold merged_rates, contribution, asked. cbn [existsb].
  rewrite String.eqb_refl, Hcg, Her. cbn [orb].
  rewrite (dict_get_update _ _ _ Hndf), (dict_get_update _ _ _ Hndc).
  destruct (dict_get fiat k); [reflexivity |].
  now destruct (dict_get crypto k).
Qed.

(** X6. In a run over all sources that reports success, a pair that
    ExchangeRate-API returned with a valid rate is stored with that rate,
    whatever CoinGecko returned for it: on a key collision the later
    source wins. *)
Theorem run_update_last_writer_wins (cfg : ParserConfig) (env : Env)
    (w w' : World) (r : value) (stored fiat : dict) (k : string)
    (rate : value) :
  run_update cfg env "all" w = (Ok r, w') ->
  result_field r "success" = Some (VBool true) ->
  snapshot_pairs w = Some stored ->
  exchangerate_client env = Returns fiat ->
  NoDup (dict_keys fiat) ->
  dict_get fiat k = Some rate ->
  is_valid cfg rate = true ->
  exists final,
    snapshot_pairs w' = Some final
    /\ dict_get final k
       = Some (quote rate (current_time env) (source_of cfg k)).
Proof.
  intros Hrun Htrue Hsnap Her Hnd Hk Hvalid.
  destruct (run_update_saved_snapshot cfg env "all" w w' r stored
              Hrun Htrue Hsnap) as [Hfinal _].
  eexists. split; [exact Hfinal |].
  rewrite dict_get_stored_after by apply merged_rates_nodup.
  assert (Hmerged : dict_get (merged_rates env "all") k = Some rate).
  { unfold merged_rates, contribution, asked. cbn [existsb].
    rewrite String.eqb_refl, Her. cbn [orb].
    now rewrite (dict_get_update _ _ _ Hnd), Hk. }
  now rewrite Hmerged, Hvalid.
Qed.

Lemma run_update_last_writer_wins_witness :
  exists final,
    snapshot_pairs (snd (run_update config overlap_env "all" scenario_world))
    = Some final
    /\ dict_get final "USD_USD"
       = Some (quote (VFloat 1.0) (current_time overlap_env)
                 (source_of config "USD_USD")).
Proof.
  eapply (run_update_last_writer_wins config overlap_env scenario_world _ _
            scenario_pairs
            [("EUR_USD", VFloat 0.92); ("USD_USD", VFloat 1.0);
             ("JPY_USD", VStr "n/a")]).
  - reflexivity.
  - reflexivity.
  - reflexivity.
  - reflexivity.
  - repeat (constructor; [cbn; intuition discriminate |]). constructor.
  - reflexivity.
  - vm_compute. reflexivity.
Defined.

(** ** Aggregator: which sources are asked *)

Section Framed.

Variable R : World -> World -> Prop.
Hypothesis R_refl : forall w, R w w.
Hypothesis R_trans : forall w1 w2 w3, R w1 w2 -> R w2 w3 -> R w1 w3.

Lemma framed_ret {A : Type} (a : A) : framed R (ret a).
Proof. intros w r w' [= _ <-]. apply R_refl. Qed.

Lemma framed_raise {A : Type} (e : exn) : framed R (@raise A e).
Proof. intros w r w' [= _ <-]. apply R_refl. Qed.

Lemma framed_lift {A : Type} (r0 : result A) : framed R (lift r0).
Proof. intros w r w' [= _ <-]. apply R_refl. Qed.

Lemma framed_modify (f : World -> World) :
  (forall w, R w (f w)) -> framed R (modify f).
Proof. intros Hf w r w' [= _ <-]. apply Hf. Qed.

Lemma framed_bind {A B : Type} (m : M A) (k : A -> M B) :
  framed R m -> (forall a, framed R (k a)) -> framed R (bind m k).
Proof.
  intros Hm Hk w r w' H.
  destruct (bind_inv m k w w' r H) as [(a & w1 & H1 & H2)|(e & H1 & _)].
  - eapply R_trans; [eapply Hm | eapply Hk]; eassumption.
  - eapply Hm; eassumption.
Qed.

Lemma framed_try_except {A : Type} (body : M A) (handler : exn -> M A) :
  framed R body -> (forall e, framed R (handler e)) ->
  framed R (try_except body handler).
Proof.
  intros Hb Hh w r w'. unfold try_except.
  destruct (body w) as [[a|e] w1] eqn:H1.
  - intros [= <- <-]. eapply Hb; eassumption.
  - intros H2. eapply R_trans; [eapply Hb | eapply Hh]; eassumption.
Qed.

End Framed.

Lemma fetch_from_requests (client scoped : string) (o : fetch_outcome)
    (source : string) (new_rates : dict) (w w' : World) (r : result dict) :
  fetch_from client scoped o source new_rates w = (r, w') ->
  requests w'
  = (requests w ++ (if asked source scoped then [client] else []))%list.
Proof.
  unfold fetch_from, asked.
  destruct (existsb (String.eqb source) ["all"; scoped]).
  2:{ intros [= _ <-]. now rewrite app_nil_r. }
  unfold bind, modify.
  destruct o as [rates|[reason| | | |]];
    try (intros [= _ <-]; reflexivity).
  - destruct (truthy (VDict rates)); intros [= _ <-]; reflexivity.
  - destruct (String.eqb source scoped); intros [= _ <-]; reflexivity.
Qed.

(** X7. A run asks the sources that its filter names, in order, stopping
    at the first one whose error ends the run, and it asks no other
    source: the sources asked are a prefix of the requested ones.  A run
    that reports success has asked every requested source. *)
Theorem run_update_asks_requested_sources (cfg : ParserConfig) (env : Env)
    (source : string) (w w' : World) (r : result value) :
  run_update cfg env source w = (r, w') ->
  exists asked_now rest,
    requests w' = (requests w ++ asked_now)%list
    /\ requested source = (asked_now ++ rest)%list
    /\ (forall d, r = Ok (VDict d) ->
                  dict_get d "success" = Some (VBool true) -> rest = []).
Proof.
  unfold run_update, try_except. intros Hrun.
  destruct (run_update_try cfg env source w) as [r0 w0] eqn:Htry.
  assert (Hexcept : forall e w1 r1 w2,
             run_update_except env source e w1 = (r1, w2) ->
             requests w2 = requests w1
             /\ forall d, r1 = Ok (VDict d) ->
                          dict_get d "success" <> Some (VBool true)).
  { intros e w1 r1 w2 [= <- <-]. split; [reflexivity |].
    intros d [= <-]. discriminate. }
  unfold run_update_try in Htry.
  apply bind_inv in Htry as [(current_rates & w1 & H1 & H)|(e & H1 & ->)].
  2:{ apply load_rates_world in H1 as ->.
      apply Hexcept in Hrun as [-> Hno].
      exists [], (requested source). rewrite app_nil_r.
      repeat split. intros d Hd Hs. now apply Hno in Hs. }
  apply load_rates_world in H1 as ->.
  apply bind_inv in H as [(pairs0 & w2 & H2 & H)|(e & H2 & ->)].
  2:{ apply lift_inv in H2 as [_ ->].
      apply Hexcept in Hrun as [-> Hno].
      exists [], (requested source). rewrite app_nil_r.
      repeat split. intros d Hd Hs. now apply Hno in Hs. }
  apply lift_inv in H2 as [_ ->].
  apply bind_inv in H as [(rates1 & w3 & H3 & H)|(e & H3 & ->)].
  2:{ apply fetch_from_requests in H3.
      apply Hexcept in Hrun as [-> Hno].
      eexists _, _. split; [exact H3 |]. split; [reflexivity |].
      intros d Hd Hs. now apply Hno in Hs. }
  apply fetch_from_requests in H3.
  assert (Hall : forall w4 (r4 : result value) w5,
             requests w4 = (requests w ++ requested source)%list ->
             requests w5 = requests w4 ->
             (r0, w0) = (r4, w5) ->
             exists asked_now rest,
               requests w' = (requests w ++ asked_now)%list
               /\ requested source = (asked_now ++ rest)%list
               /\ (forall d, r = Ok (VDict d) ->
                     dict_get d "success" = Some (VBool true) -> rest = [])).
  { intros w4 r4 w5 H4 H5 [= -> ->].
    exists (requested source), []. rewrite app_nil_r.
    assert (requests w' = requests w5) as ->.
    { destruct r4 as [v|e].
      - now injection Hrun as _ <-.
      - now apply Hexcept in Hrun as [-> _]. }
    rewrite H5, H4. repeat split. }
  apply bind_inv in H as [(new_rates & w4 & H4 & H)|(e & H4 & ->)].
  2:{ apply fetch_from_requests in H4.
      eapply (Hall w0 _ w0); [| reflexivity | reflexivity].
      rewrite H4, H3. unfold requested. now rewrite app_assoc. }
  apply fetch_from_requests in H4.
  assert (Hw4 : requests w4 = (requests w ++ requested source)%list).
  { rewrite H4, H3. unfold requested. now rewrite app_assoc. }
  destruct (negb (truthy (VDict new_rates))).
  { injection H as <- <-. eapply (Hall w4 _ w4); eauto. }
  assert (Htail : framed same_requests
            (bind (update_pairs cfg (current_time env) (record_time env)
                     new_rates (initial_locals pairs0))
               (fun l =>
                  (saved <- lift (py_setitem current_rates "pairs"
                                    (pairs l)) ;;
                   saved <- lift (py_setitem saved "last_refresh"
                                    (VStr (current_time env))) ;;
                   save_rates saved ;;
                   modify (cleanup_old_history 1000) ;;
                   modify (fun w =>
                             with_stats
                               (record_success (current_time env) (stats w))
                               w) ;;
                   total_pairs <- lift (py_len (pairs l)) ;;
                   ret (VDict [("success", VBool true);
                               ("message",
                                VStr "Обновление успешно завершено");
                               ("execution_time",
                                VFloat (execution_time env));
                               ("total_pairs", VInt total_pairs);
                               ("updated_pairs", VInt (updated_count l));
                               ("new_pairs", VInt (new_count l));
                               ("source", VStr source)]))%world))).
  { assert (Hrefl : forall x, same_requests x x) by reflexivity.
    assert (Htrans : forall x y z,
               same_requests x y -> same_requests y z -> same_requests x z)
      by (unfold same_requests; congruence).
    apply framed_bind; try assumption.
    - intros x rx x' Hx. now apply quiet_update_pairs in Hx as (_ & _ & ?).
    - intros l.
      apply framed_bind; try assumption;
        [now apply framed_lift | intros c1].
      apply framed_bind; try assumption;
        [now apply framed_lift | intros c2].
      apply framed_bind; try assumption.
      { intros x rx x'. unfold save_rates.
        destruct (logged_pairs_count c2); now intros [= _ <-]. }
      intros u1.
      apply framed_bind; try assumption.
      { apply framed_modify. intros x.
        apply cleanup_old_history_untouched. }
      intros u2.
      apply framed_bind; try assumption;
        [now apply framed_modify | intros u3].
      apply framed_bind; try assumption;
        [now apply framed_lift | intros n].
      now apply framed_ret. }
  apply Htail in H. eapply (Hall w4 _ w0); eauto.
Qed.

Lemma run_update_asks_requested_sources_witness :
  exists asked_now rest,
    requests (snd (run_update config outage_env "all" scenario_world))
    = (requests scenario_world ++ asked_now)%list
    /\ requested "all" = (asked_now ++ rest)%list
    /\ (forall d,
          fst (run_update config outage_env "all" scenario_world)
          = Ok (VDict d) ->
          dict_get d "success" = Some (VBool true) -> rest = []).
Proof.
  apply (run_update_asks_requested_sources config outage_env "all"
           scenario_world). reflexivity.
Defined.

(** ** Rate Store: trimming the history *)

(** X8. [cleanup_old_history] only drops records from the front of the
    history; with a positive [max_records] it leaves the
    [min(len(history), max_records)] newest ones, with [max_records = 0]
    it leaves them all (the slice [history[-0:]] is the whole list), and
    cleaning twice is cleaning once. *)
Theorem cleanup_old_history_keeps_newest (max_records : nat) (w : World) :
  (exists dropped,
     load_history w
     = (dropped ++ load_history (cleanup_old_history max_records w))%list)
  /\ match max_records with
     | O => load_history (cleanup_old_history max_records w) = load_history w
     | S _ =>
         List.length (load_history (cleanup_old_history max_records w))
         = Nat.min (List.length (load_history w)) max_records
     end
  /\ cleanup_old_history max_records (cleanup_old_history max_records w)
     = cleanup_old_history max_records w.
Proof.
  unfold cleanup_old_history.
  destruct (Nat.ltb_spec max_records (List.length (load_history w)))
    as [Hlt|Hge].
  - destruct max_records as [|n].
    + cbn [slice_last]. repeat split.
      * exists []. reflexivity.
      * cbn [load_history save_history with_exchange_rates_json
               exchange_rates_json].
        change (exchange_rates_json w) with (load_history w).
        destruct (Nat.ltb_spec 0 (List.length (load_history w)));
          [reflexivity | lia].
    + cbn [slice_last load_history save_history with_exchange_rates_json
             exchange_rates_json].
      change (exchange_rates_json w) with (load_history w).
      repeat split.
      * exists (firstn (List.length (load_history w) - S n) (load_history w)).
        now rewrite firstn_skipn.
      * rewrite length_skipn. lia.
      * rewrite length_skipn.
        destruct (Nat.ltb_spec (S n)
                    (List.length (load_history w)
                     - (List.length (load_history w) - S n)));
          [lia | reflexivity].
  - repeat split.
    + exists []. reflexivity.
    + destruct max_records; [reflexivity | lia].
    + destruct (Nat.ltb_spec max_records (List.length (load_history w)));
        [lia | reflexivity].
Qed.

(** X9. A record that was just added survives the cleanup, whatever the
    positive cap is: the history then ends with that record. *)
Theorem cleanup_keeps_added_record (n : nat) (record : dict) (w : World) :
  exists older,
    load_history (cleanup_old_history (S n) (add_history_record record w))
    = (older ++ [VDict record])%list.
Proof.
  rewrite cleanup_old_history_spec by discriminate.
  unfold most_recent, add_history_record.
  cbn [load_history save_history with_exchange_rates_json
         exchange_rates_json].
  rewrite length_app. cbn [List.length].
  rewrite skipn_app.
  match goal with
  | |- context [skipn ?k [VDict record]] => replace k with O by lia
  end.
  eexists. reflexivity.
Qed.

(** ** Quote Source requests: every outcome *)

Lemma string_app_assoc (a b c : string) : (a ++ b) ++ c = a ++ (b ++ c).
Proof.
  induction a as [|x a IH]; cbn; [reflexivity | now rewrite IH].
Qed.

Lemma string_app_nil (a : string) : a ++ "" = a.
Proof.
  induction a as [|x a IH]; cbn; [reflexivity | now rewrite IH].
Qed.

Section MakeRequestAny.

Variable body : Type.
Variable cfg : ParserConfig.
Variable name : string.
Variable http : nat -> attempt_outcome body.

Lemma request_loop_any (count first : nat) :
  (first + count = RETRY_ATTEMPTS cfg)%nat ->
  (List.length (fst (request_loop body cfg name http (seq first count)))
   <= count - 1)%nat
  /\ Forall (allowed_delay cfg)
       (fst (request_loop body cfg name http (seq first count)))
  /\ ((exists data,
         snd (request_loop body cfg name http (seq first count)) = Ok data)
      \/ (exists reason,
            snd (request_loop body cfg name http (seq first count))
            = Raise (ApiRequestError (name ++ ": " ++ reason)))).
Proof.
  revert first.
  induction count as [|count IH]; intros first Hsum.
  - cbn. split; [lia | split; [constructor | right; eexists; reflexivity]].
  - destruct (IH (S first)) as (IHlen & IHall & IHres); [lia |].
    assert (Hretry : may_retry cfg first = true -> count <> O).
    { rewrite may_retry_spec. intros H%Nat.ltb_lt. lia. }
    assert (Hconst : may_retry cfg first = true ->
                     allowed_delay cfg (RETRY_DELAY cfg)).
    { intros H. exists 1. split; [| lia].
      rewrite may_retry_spec in H. apply Nat.ltb_lt in H. lia. }
    assert (Hlinear : may_retry cfg first = true ->
                      allowed_delay cfg
                        (RETRY_DELAY cfg * (Z.of_nat first + 1))).
    { intros H. exists (Z.of_nat first + 1). split; [| reflexivity].
      rewrite may_retry_spec in H. apply Nat.ltb_lt in H. lia. }
    cbn [seq request_loop].
    destruct (request_loop body cfg name http (seq (S first) count))
      as [sleeps r].
    cbn [fst snd] in IHlen, IHall, IHres.
    assert (Hdone : forall reason,
               (List.length (@nil Z) <= S count - 1)%nat
               /\ Forall (allowed_delay cfg) []
               /\ ((exists data,
                      @Raise body (ApiRequestError (name ++ ": " ++ reason))
                      = Ok data)
                   \/ (exists reason',
                         @Raise body
                           (ApiRequestError (name ++ ": " ++ reason))
                         = Raise (ApiRequestError (name ++ ": " ++ reason')))))
      by (intros; repeat split; [cbn; lia | constructor | right; eauto]).
    assert (Hgo : forall seconds,
               may_retry cfg first = true ->
               allowed_delay cfg seconds ->
               (List.length (seconds :: sleeps) <= S count - 1)%nat
               /\ Forall (allowed_delay cfg) (seconds :: sleeps)
               /\ ((exists data, r = Ok data)
                   \/ (exists reason,
                         r = Raise (ApiRequestError
                                      (name ++ ": " ++ reason))))).
    { intros seconds Hm Hs. apply Hretry in Hm.
      repeat split; [cbn [List.length]; lia | now constructor | exact IHres]. }
    destruct (http first) as [status_code text json| | |msg].
    + destruct (status_code =? 200)%nat.
      * destruct json as [data|msg|msg].
        -- cbn [fst snd List.length].
           repeat split; [lia | constructor | left; eauto].
        -- destruct (may_retry cfg first) eqn:Hm; cbn [fst snd];
             [now apply Hgo; auto | apply Hdone].
        -- apply Hdone.
      * destruct (status_code =? 429)%nat.
        -- destruct (may_retry cfg first) eqn:Hm; cbn [fst snd];
             [now apply Hgo; auto | apply Hdone].
        -- cbn [fst snd].
           destruct (negb (text =? "")%string);
             rewrite ?string_app_assoc; apply Hdone.
    + destruct (may_retry cfg first) eqn:Hm; cbn [fst snd];
        [now apply Hgo; auto | apply Hdone].
    + destruct (may_retry cfg first) eqn:Hm; cbn [fst snd];
        [now apply Hgo; auto | apply Hdone].
    + destruct (may_retry cfg first) eqn:Hm; cbn [fst snd];
        [now apply Hgo; auto | apply Hdone].
Qed.


(** X11. Whatever the provider does, [_make_request] sleeps at most
    [RETRY_ATTEMPTS - 1] times, and every sleep lasts [RETRY_DELAY] times
    a factor from 1 to [RETRY_ATTEMPTS - 1]. *)
Theorem make_request_sleeps_are_bounded :
  (List.length (fst (_make_request body cfg name http))
   <= RETRY_ATTEMPTS cfg - 1)%nat
  /\ Forall (fun seconds =>
               exists factor,
                 1 <= factor < Z.of_nat (RETRY_ATTEMPTS cfg)
                 /\ seconds = RETRY_DELAY cfg * factor)
            (fst (_make_request body cfg name http)).
Proof.
  unfold _make_request.
  destruct (request_loop_any (RETRY_ATTEMPTS cfg) 0 eq_refl)
    as (Hlen & Hall & _).
  split; [exact Hlen | exact Hall].
Qed.

End MakeRequestAny.

(** ** Quote Source requests: recovery and final errors *)

Section MakeRequestRetries.

Variable body : Type.
Variable cfg : ParserConfig.
Variable name : string.
Variable http : nat -> attempt_outcome body.

(** The number of failed attempts before the decisive one. *)
Variable failures : nat.

Hypothesis attempts_left : (failures < RETRY_ATTEMPTS cfg)%nat.
Hypothesis failures_retried :
  forall attempt, (attempt < failures)%nat -> retried (http attempt) = true.

Lemma request_loop_retried_step (attempt : nat) (rest : list nat) :
  retried (http attempt) = true ->
  may_retry cfg attempt = true ->
  request_loop body cfg name http (attempt :: rest)
  = (retry_delay cfg (http attempt) attempt
       :: fst (request_loop body cfg name http rest),
     snd (request_loop body cfg name http rest)).
Proof.
  intros Hretried Hmay. cbn [request_loop]. rewrite Hmay.
  destruct (request_loop body cfg name http rest) as [sleeps r].
  destruct (http attempt) as [status_code text json| | |msg];
    cbn [retried retry_delay] in *; try reflexivity.
  destruct (Nat.eqb_spec status_code 200) as [->|H200].
  - destruct json; try discriminate. reflexivity.
  - now rewrite Hretried.
Qed.

(** The retried attempts are slept through, up to the decisive one. *)
Lemma request_loop_skips_retried (done : nat) :
  (done <= failures)%nat ->
  request_loop body cfg name http
    (seq (failures - done) (RETRY_ATTEMPTS cfg - (failures - done)))
  = (map (fun attempt => retry_delay cfg (http attempt) attempt)
       (seq (failures - done) done)
       ++ fst (request_loop body cfg name http
                 (seq failures (RETRY_ATTEMPTS cfg - failures))),
     snd (request_loop body cfg name http
            (seq failures (RETRY_ATTEMPTS cfg - failures))))%list.
Proof.
  induction done as [|done IH]; intros Hle.
  - rewrite Nat.sub_0_r. cbn [seq map app].
    now destruct (request_loop _ _ _ _ _).
  - replace (RETRY_ATTEMPTS cfg - (failures - S done))%nat
      with (S (RETRY_ATTEMPTS cfg - (failures - done))) by lia.
    cbn [seq map app].
    replace (S (failures - S done)) with (failures - done)%nat by lia.
    rewrite request_loop_retried_step.
    + rewrite IH by lia. reflexivity.
    + apply failures_retried. lia.
    + rewrite may_retry_spec. apply Nat.ltb_lt. lia.
Qed.

Lemma make_request_decisive :
  _make_request body cfg name http
  = (map (fun attempt => retry_delay cfg (http attempt) attempt)
       (seq 0 failures)
       ++ fst (request_loop body cfg name http
                 (seq failures (RETRY_ATTEMPTS cfg - failures))),
     snd (request_loop body cfg name http
            (seq failures (RETRY_ATTEMPTS cfg - failures))))%list.
Proof.
  unfold _make_request.
  pose proof (request_loop_skips_retried failures (Nat.le_refl _)) as H.
  rewrite Nat.sub_diag, Nat.sub_0_r in H. exact H.
Qed.

(** X12. When the first [failures] attempts fail in a way that is
    retried and the next attempt, still within [RETRY_ATTEMPTS], gets
    HTTP 200 with a decodable body, [_make_request] returns that body,
    having slept once after each failed attempt: [RETRY_DELAY * (attempt
    + 1)] after an HTTP 429, [RETRY_DELAY] after any other failure. *)
Theorem make_request_recovers (text : string) (data : body) :
  http failures = Response 200 text (Decoded data) ->
  _make_request body cfg name http
  = (map (fun attempt => retry_delay cfg (http attempt) attempt)
       (seq 0 failures),
     Ok data).
Proof.
  intros Hok. rewrite make_request_decisive.
  replace (RETRY_ATTEMPTS cfg - failures)%nat
    with (S (RETRY_ATTEMPTS cfg - failures - 1)) by lia.
  cbn [seq request_loop]. rewrite Hok. cbn [Nat.eqb fst snd].
  now rewrite app_nil_r.
Qed.

(** X13. An HTTP status other than 200 and 429 is never retried: the
    attempt that receives it raises [ApiRequestError] at once, without a
    further sleep, also when attempts are left. *)
Theorem make_request_http_error_is_final (status_code : nat)
    (text : string) (json : json_outcome body) :
  http failures = Response status_code text json ->
  status_code <> 200%nat ->
  status_code <> 429%nat ->
  exists reason,
    _make_request body cfg name http
    = (map (fun attempt => retry_delay cfg (http attempt) attempt)
         (seq 0 failures),
       Raise (ApiRequestError
                (name ++ ": Ошибка " ++ str_of_nat status_code ++ reason))).
Proof.
  intros Hresp H200 H429. rewrite make_request_decisive.
  replace (RETRY_ATTEMPTS cfg - failures)%nat
    with (S (RETRY_ATTEMPTS cfg - failures - 1)) by lia.
  cbn [seq request_loop]. rewrite Hresp.
  destruct (Nat.eqb_spec status_code 200); [contradiction |].
  destruct (Nat.eqb_spec status_code 429); [contradiction |].
  cbn [fst snd]. rewrite app_nil_r.
  destruct (negb (text =? "")%string).
  - exists (" - " ++ substring 0 200 text).
    now rewrite !string_app_assoc.
  - exists "". now rewrite string_app_nil.
Qed.

End MakeRequestRetries.

Lemma make_request_recovers_witness :
  _make_request value config "CoinGecko" flaky_http
  = ([5; 10],
     Ok (VDict [("bitcoin", VDict [("usd", VInt 51000)])])).
Proof.
  apply (make_request_recovers value config "CoinGecko" flaky_http 2
           ltac:(cbn; lia)) with (text := "{}").
  - intros [|[|attempt]] H; try reflexivity. lia.
  - reflexivity.
Defined.

Lemma make_request_http_error_is_final_witness :
  exists reason,
    _make_request value config "ExchangeRate-API" broken_http
    = ([5],
       Raise (ApiRequestError
                ("ExchangeRate-API" ++ ": Ошибка " ++ str_of_nat 500
                   ++ reason))).
Proof.
  apply (make_request_http_error_is_final value config "ExchangeRate-API"
           broken_http 1 ltac:(cbn; lia))
    with (text := "Internal Server Error") (json := Decoded VNone).
  - intros [|attempt] H; [reflexivity | lia].
  - reflexivity.
  - discriminate.
  - discriminate.
Defined.

(** ** Aggregator: the history records of a run *)

(** The loop body appends at most one record, and only for a valid
    rate. *)
Lemma update_pair_history (cfg : ParserConfig) (now : string)
    (clock : nat -> string) (pair_key : string) (rate : value)
    (l l' : Locals) (w w' : World) :
  update_pair cfg now clock pair_key rate l w = (Ok l', w') ->
  exists appended,
    load_history w' = (load_history w ++ appended)%list
    /\ (List.length appended <= if is_valid cfg rate then 1 else 0)%nat
    /\ forall items,
         In (pair_key, rate) items ->
         Forall (records_rate cfg items) appended.
Proof.
  unfold update_pair. intros H.
  apply bind_ok_inv in H as (valid & w1 & H1 & H).
  apply lift_inv in H1 as [H1 ->].
  assert (Hvalid : is_valid cfg rate = valid).
  { unfold is_valid. rewrite <- H1. now destruct valid. }
  rewrite Hvalid.
  destruct valid; cbn [negb] in H.
  2:{ injection H as _ <-. exists []. rewrite app_nil_r.
      repeat split; [cbn; lia | constructor]. }
  destruct (split_underscore pair_key) as [[from_curr to_curr]|] eqn:Hsplit;
    [| discriminate H].
  apply bind_ok_inv in H as (current_pair & w2 & H2 & H).
  apply lift_inv in H2 as [H2 ->].
  apply bind_ok_inv in H as (current_rate & w3 & H3 & H).
  apply lift_inv in H3 as [H3 ->].
  apply bind_ok_inv in H as (pairs' & w4 & H4 & H).
  apply lift_inv in H4 as [H4 ->].
  apply bind_ok_inv in H as (created' & w5 & H5 & H).
  apply bind_ok_inv in H as (known & w6 & H6 & H).
  apply lift_inv in H6 as [H6 ->].
  assert (Hw : w' = w5) by (destruct known; now injection H as _ <-).
  subst w'. clear H.
  unfold try_except, bind, lift, modify, ret in H5.
  destruct (change_pct rate current_rate) as [pct|e].
  - injection H5 as _ <-.
    eexists [_]. split; [reflexivity |].
    split; [cbn; lia |].
    intros items Hin. constructor; [| constructor].
    exists pair_key, rate, from_curr, to_curr.
    unfold source_of. rewrite Hsplit.
    repeat split; try reflexivity; assumption.
  - injection H5 as _ <-. exists []. rewrite app_nil_r.
    repeat split; [cbn; lia | constructor].
Qed.

Lemma records_rate_tail (cfg : ParserConfig) (item : string * value)
    (items : dict) (record : value) :
  records_rate cfg items record -> records_rate cfg (item :: items) record.
Proof.
  intros (pair_key & rate & from_curr & to_curr & Hin & H).
  exists pair_key, rate, from_curr, to_curr.
  split; [now right | exact H].
Qed.

(** The loop appends at most one record for each valid rate. *)
Lemma update_pairs_history (cfg : ParserConfig) (now : string)
    (clock : nat -> string) (items : dict) (l l' : Locals) (w w' : World) :
  update_pairs cfg now clock items l w = (Ok l', w') ->
  exists appended,
    load_history w' = (load_history w ++ appended)%list
    /\ Z.of_nat (List.length appended) <= count_valid cfg items
    /\ Forall (records_rate cfg items) appended.
Proof.
  revert l w.
  induction items as [|[pair_key rate] items IH]; intros l w H.
  - injection H as _ <-. exists []. rewrite app_nil_r.
    repeat split; [cbn; lia | constructor].
  - cbn [update_pairs] in H.
    apply bind_ok_inv in H as (l1 & w1 & H1 & H).
    apply update_pair_history in H1 as (first & Hfirst & Hlen & Hrec).
    apply IH in H as (rest & Hrest & Hlen' & Hrec').
    exists (first ++ rest)%list.
    split; [now rewrite Hrest, Hfirst, app_assoc |].
    split.
    + rewrite length_app. unfold count_valid in *.
      cbn [filter snd]. destruct (is_valid cfg rate); cbn [List.length]; lia.
    + apply Forall_app. split.
      * apply Hrec. now left.
      * eapply Forall_impl; [| exact Hrec'].
        intros record. apply records_rate_tail.
Qed.

(** ** Rate Resolver: the stored entry, and what cannot be resolved *)

(** The direct entry of the snapshot decides, whatever else is stored. *)
Lemma resolve_direct (w : World) (stored : dict)
    (from_currency to_currency : string) (rate_info : value) :
  snapshot_pairs w = Some stored ->
  dict_get stored (from_currency ++ "_" ++ to_currency) = Some rate_info ->
  resolve from_currency to_currency (get_rates w)
  = if is_dict rate_info then Ok rate_info
    else Raise (RateUnavailableError from_currency to_currency).
Proof.
  intros Hsnap Hdirect. unfold resolve.
  destruct (get_rates_pairs w stored Hsnap) as [-> ->].
  cbn [negb rbind].
  rewrite py_contains_dict, (dict_contains_get _ _ _ Hdirect).
  cbn [rbind].
  rewrite (py_getitem_dict _ _ _ Hdirect). cbn [rbind].
  now destruct (is_dict rate_info).
Qed.

(** ** The log of [log_action] *)

(** [amount] and [rate] are copied from a result that is a mapping. *)
Lemma copied_fields_get (d : dict) (key : string) :
  key = "amount" \/ key = "rate" ->
  dict_get (copied_fields (VDict d)) key = dict_get d key.
Proof.
  unfold copied_fields. cbn [truthy].
  destruct d as [|kv d'] eqn:Hd; [intros [->| ->]; reflexivity |].
  rewrite <- Hd. clear Hd. cbn [negb fold_left].
  intros [->| ->];
    destruct (dict_get d "currency"), (dict_get d "currency_code"),
      (dict_get d "amount"), (dict_get d "rate"), (dict_get d "cost_usd"),
      (dict_get d "revenue_usd"); reflexivity.
Qed.

Lemma format_number_too_large (info : dict) (key : string) :
  format_number info key
  = if match dict_get info key with
       | Some v => too_large v
       | None => false
       end
    then Raise (Builtin OverflowError "int too large to convert to float")
    else Ok tt.
Proof.
  unfold format_number, format_fixed, too_large.
  destruct (dict_get info key) as [[|b|n|f|s|q]|]; cbn [as_num];
    try reflexivity.
  - destruct b; vm_compute; reflexivity.
  - cbn [to_float]. unfold float_of_int.
    destruct (binary_normalize prec emax n 0 false); reflexivity.
Qed.

(** What [log_action] does with a mapping that the function returned. *)
Lemma log_action_dict (d : dict) :
  log_action (Ok (VDict d))
  = if unloggable d
    then Raise (Builtin OverflowError "int too large to convert to float")
    else Ok (VDict d).
Proof.
  unfold log_action, _write_log, unloggable. cbn [String.eqb existsb].
  change (log_format =? "json")%string with false. cbv iota.
  rewrite !format_number_too_large.
  rewrite !copied_fields_get by auto.
  destruct (dict_get d "amount") as [amount|];
    [destruct (too_large amount) |];
    (destruct (dict_get d "rate") as [rate|];
       [destruct (too_large rate) |]); reflexivity.
Qed.

Lemma log_action_raise (e : exn) : log_action (Raise e) = Raise e.
Proof. reflexivity. Qed.

(** A rate that the validator accepts can be logged. *)
Lemma is_valid_not_too_large (cfg : ParserConfig) (rate : value) :
  is_valid cfg rate = true -> too_large rate = false.
Proof.
  unfold is_valid, validate_rate, too_large.
  destruct rate as [|b|n|f|s|q]; try reflexivity.
  cbn [as_num].
  destruct (num_lt (NInt n) (MIN_RATE_VALUE cfg)); [discriminate |].
  destruct (num_lt (MAX_RATE_VALUE cfg) (NInt n)); [discriminate |].
  unfold math_isnan. cbn [to_float].
  destruct (float_of_int n); [reflexivity | discriminate].
Qed.

Lemma log_action_quote (cfg : ParserConfig) (rate : value)
    (updated_at source : string) :
  is_valid cfg rate = true ->
  log_action (Ok (quote rate updated_at source))
  = Ok (quote rate updated_at source).
Proof.
  intros Hvalid. unfold quote. rewrite log_action_dict.
  unfold unloggable. cbn [existsb dict_get String.eqb Ascii.eqb Bool.eqb].
  now rewrite (is_valid_not_too_large cfg rate Hvalid).
Qed.

Section ResolverEntries.

Variable registry : list string.
Variables (now A B : string).
Variable w : World.
Variable stored : dict.

Hypothesis A_valid : validate_currency_code registry A = true.
Hypothesis B_valid : validate_currency_code registry B = true.
Hypothesis A_registered : currency_exists registry A = true.
Hypothesis B_registered : currency_exists registry B = true.
Hypothesis distinct : upper A <> upper B.
Hypothesis snapshot : snapshot_pairs w = Some stored.

(** X15. For distinct registered codes [A] and [B], an entry stored
    under [A_B] decides the lookup, whatever is stored under [B_A] or
    the USD keys; neither the inverse nor the USD bridge is tried.  A
    value that is no mapping raises [RateUnavailableError].  A mapping
    is returned as it is stored, with all its fields, unless its
    [amount] or [rate] is an [int] that [float] cannot hold: then the
    log message of [log_action] cannot be formatted, and [get_rate]
    raises [OverflowError]. *)
Theorem get_rate_direct_entry (rate_info : value) :
  dict_get stored (upper A ++ "_" ++ upper B) = Some rate_info ->
  run_lookup w (get_rate registry now A B)
  = match rate_info with
    | VDict d =>
        if unloggable d
        then Raise (Builtin OverflowError
                      "int too large to convert to float")
        else Ok rate_info
    | _ => Raise (RateUnavailableError (upper A) (upper B))
    end.
Proof.
  intros Hdirect.
  rewrite (get_rate_loads registry now A B w A_valid B_valid A_registered
             B_registered distinct).
  rewrite (resolve_direct w stored _ _ rate_info snapshot Hdirect).
  destruct rate_info as [|b|n|f|s|d]; cbn [is_dict];
    try apply log_action_raise.
  apply log_action_dict.
Qed.

(** X16. For distinct registered codes [A] and [B], when the snapshot
    has no entry under [A_B] and none under [B_A], and [A] or [B] is
    USD or one of the entries [A_USD] and [USD_B] is missing, [get_rate]
    raises [RateUnavailableError] with the two codes in upper case. *)
Theorem get_rate_unavailable :
  dict_get stored (upper A ++ "_" ++ upper B) = None ->
  dict_get stored (upper B ++ "_" ++ upper A) = None ->
  upper A = "USD" \/ upper B = "USD"
  \/ dict_get stored (upper A ++ "_USD") = None
  \/ dict_get stored ("USD_" ++ upper B) = None ->
  run_lookup w (get_rate registry now A B)
  = Raise (RateUnavailableError (upper A) (upper B)).
Proof.
  intros Hdirect Hreverse Hbridge.
  rewrite (get_rate_loads registry now A B w A_valid B_valid A_registered
             B_registered distinct).
  unfold resolve.
  destruct (get_rates_pairs w stored snapshot) as [-> ->].
  cbn [negb rbind].
  rewrite !py_contains_dict.
  rewrite (dict_contains_none _ _ Hdirect).
  rewrite (dict_contains_none _ _ Hreverse).
  cbn [rbind].
  destruct Hbridge as [->|[->|[Hfrom|Hto]]].
  - reflexivity.
  - cbn [String.eqb Ascii.eqb Bool.eqb negb andb].
    rewrite Bool.andb_false_r. reflexivity.
  - destruct (negb (upper A =? "USD")%string && negb (upper B =? "USD")%string);
      [| reflexivity].
    rewrite (dict_contains_none _ _ Hfrom). reflexivity.
  - destruct (negb (upper A =? "USD")%string && negb (upper B =? "USD")%string);
      [| reflexivity].
    rewrite (dict_contains_none _ _ Hto).
    destruct (dict_contains stored (upper A ++ "_USD")); reflexivity.
Qed.

End ResolverEntries.

Lemma get_rate_direct_entry_witness :
  run_lookup (world_of_pairs scenario_pairs)
    (get_rate registered_codes "2026-01-02T00:00:00" "btc" "usd")
  = Ok (quote (VInt 50000) "2026-01-01T00:00:00+00:00" "CoinGecko").
Proof.
  apply (get_rate_direct_entry registered_codes "2026-01-02T00:00:00"
           "btc" "usd" (world_of_pairs scenario_pairs) scenario_pairs
           eq_refl eq_refl eq_refl eq_refl
           ltac:(discriminate) eq_refl
           (quote (VInt 50000) "2026-01-01T00:00:00+00:00" "CoinGecko")
           eq_refl).
Defined.

(** A stored rate of 401 digits: the mapping is found, and the log
    message cannot be formatted. *)
Example get_rate_direct_entry_overflow :
  run_lookup (world_of_pairs huge_rate_pairs)
    (get_rate registered_codes "2026-01-02T00:00:00" "btc" "usd")
  = Raise (Builtin OverflowError "int too large to convert to float").
Proof. vm_compute. reflexivity. Qed.

Lemma get_rate_unavailable_witness :
  run_lookup (world_of_pairs scenario_pairs)
    (get_rate registered_codes "2026-01-02T00:00:00" "eur" "gbp")
  = Raise (RateUnavailableError "EUR" "GBP").
Proof.
  apply (get_rate_unavailable registered_codes "2026-01-02T00:00:00"
           "eur" "gbp" (world_of_pairs scenario_pairs) scenario_pairs);
    try reflexivity.
  - discriminate.
  - right. right. left. reflexivity.
Defined.

(** X17. [get_rate] reads its two codes through [upper] only: codes that
    differ in letter case give the same lookup. *)
Theorem get_rate_case_insensitive (registry : list string)
    (now A A' B B' : string) :
  upper A = upper A' ->
  upper B = upper B' ->
  get_rate registry now A B = get_rate registry now A' B'.
Proof.
  intros HA HB. unfold get_rate, get_rate_wrapped. now rewrite HA, HB.
Qed.

Lemma get_rate_case_insensitive_witness :
  get_rate registered_codes "2026-01-02T00:00:00" "btc" "Usd"
  = get_rate registered_codes "2026-01-02T00:00:00" "BTC" "usd".
Proof.
  apply (get_rate_case_insensitive registered_codes "2026-01-02T00:00:00"
           "btc" "BTC" "Usd" "usd"); reflexivity.
Defined.

Lemma validate_currency_code_exists (registry : list string)
    (code : string) :
  validate_currency_code registry code = true ->
  currency_exists registry (strip code) = true.
Proof.
  unfold validate_currency_code.
  destruct (negb _); [discriminate |].
  destruct (negb _); [discriminate |].
  now rewrite currency_exists_upper.
Qed.

(** X18. [get_rate] raises [CurrencyNotFoundError] only for a code with
    white space around it: validation strips the code before it looks
    it up in the registry, the check that follows does not.  A code
    that [strip] leaves as it is never gives this error. *)
Theorem get_rate_not_found_only_padded (registry : list string)
    (now A B code : string) :
  get_rate registry now A B = Done (Raise (CurrencyNotFoundError code)) ->
  (code = upper A /\ strip A <> A) \/ (code = upper B /\ strip B <> B).
Proof.
  unfold get_rate, get_rate_wrapped.
  destruct (validate_currency_code registry (upper A)) eqn:HvA;
    cbn [negb]; [| discriminate].
  destruct (validate_currency_code registry (upper B)) eqn:HvB;
    cbn [negb]; [| discriminate].
  apply validate_currency_code_exists in HvA, HvB.
  rewrite strip_upper, currency_exists_upper in HvA, HvB.
  rewrite !currency_exists_upper.
  destruct (currency_exists registry A) eqn:HeA; cbn [negb].
  - destruct (currency_exists registry B) eqn:HeB; cbn [negb].
    + destruct (upper A =? upper B)%string; discriminate.
    + intros [= <-]. right. split; [reflexivity |].
      intros Heq. rewrite Heq in HvB. congruence.
  - intros [= <-]. left. split; [reflexivity |].
    intros Heq. rewrite Heq in HvA. congruence.
Qed.

Lemma get_rate_not_found_only_padded_witness :
  ("USD " = upper "usd" /\ strip "usd" <> "usd")
  \/ ("USD " = upper "usd " /\ strip "usd " <> "usd ").
Proof.
  apply (get_rate_not_found_only_padded registered_codes
           "2026-01-02T00:00:00" "usd" "usd " "USD ").
  reflexivity.
Defined.

(** ** Aggregator and Rate Resolver together *)

(** X19. What a run stores, a lookup returns: after a run that reports
    success, for distinct registered codes [A] and [B], when the sources
    returned the pair [A_B] with a valid rate, [get_rate A B] on the
    files the run left returns the quote of that rate, with the time of
    the run and the source name of the pair, whatever was stored
    before. *)
Theorem run_update_then_get_rate (cfg : ParserConfig) (env : Env)
    (source : string) (w w' : World) (r : value) (stored : dict)
    (registry : list string) (now A B : string) (rate : value) :
  run_update cfg env source w = (Ok r, w') ->
  result_field r "success" = Some (VBool true) ->
  snapshot_pairs w = Some stored ->
  validate_currency_code registry A = true ->
  validate_currency_code registry B = true ->
  currency_exists registry A = true ->
  currency_exists registry B = true ->
  upper A <> upper B ->
  dict_get (merged_rates env source) (upper A ++ "_" ++ upper B)
  = Some rate ->
  is_valid cfg rate = true ->
  run_lookup w' (get_rate registry now A B)
  = Ok (quote rate (current_time env)
          (source_of cfg (upper A ++ "_" ++ upper B))).
Proof.
  intros Hrun Htrue Hsnap HvA HvB HeA HeB Hne Hrate Hvalid.
  destruct (run_update_saved_snapshot cfg env source w w' r stored
              Hrun Htrue Hsnap) as [Hsnap' _].
  rewrite (get_rate_loads registry now A B w' HvA HvB HeA HeB Hne).
  rewrite (resolve_direct w' _ (upper A) (upper B)
             (quote rate (current_time env)
                (source_of cfg (upper A ++ "_" ++ upper B))) Hsnap').
  - cbn [is_dict quote]. exact (log_action_quote cfg rate _ _ Hvalid).
  - rewrite (dict_get_stored_after cfg (current_time env)
               (merged_rates env source) stored _
               (merged_rates_nodup env source)).
    now rewrite Hrate, Hvalid.
Qed.

Lemma run_update_then_get_rate_witness :
  run_lookup (snd (run_update config overlap_env "all" scenario_world))
    (get_rate registered_codes "2026-01-03T00:00:00" "btc" "usd")
  = Ok (quote (VInt 51000) (current_time overlap_env)
          (source_of config (upper "btc" ++ "_" ++ upper "usd"))).
Proof.
  eapply (run_update_then_get_rate config overlap_env "all" scenario_world
            _ _ scenario_pairs registered_codes "2026-01-03T00:00:00"
            "btc" "usd" (VInt 51000)); try reflexivity.
  discriminate.
Defined.

(** ** Rate Store: reading and writing the snapshot *)

(** X20. [DatabaseManager.get_rates] always returns a mapping that has
    the keys [pairs] and [last_refresh]; when the file holds a mapping,
    every entry of the file is returned as it is stored, and a mapping
    that has both keys already is returned unchanged. *)
Theorem get_rates_normalised (w : World) :
  exists d,
    get_rates w = VDict d
    /\ dict_contains d "pairs" = true
    /\ dict_contains d "last_refresh" = true
    /\ forall d0 rest,
         rates_json w = VDict d0 :: rest ->
         (forall k v, dict_get d0 k = Some v -> dict_get d k = Some v)
         /\ (dict_contains d0 "pairs" = true ->
             dict_contains d0 "last_refresh" = true -> d = d0).
Proof.
  unfold get_rates, empty_rates.
  destruct (rates_json w) as [|[| | | | |d0] rest];
    try (eexists; repeat split; try reflexivity; intros; discriminate).
  cbv zeta.
  set (d1 := if dict_contains d0 "pairs" then d0
             else dict_set d0 "pairs" (VDict [])).
  eexists. split; [reflexivity |].
  assert (Hset : forall (d : dict) (k : string) (v : value),
             dict_contains (dict_set d k v) k = true).
  { intros d k v. unfold dict_contains. now rewrite dict_get_set_same. }
  assert (Hget : forall (d : dict) (k k' : string) (v v' : value),
             dict_get d k' = Some v' ->
             dict_get (if dict_contains d k then d else dict_set d k v) k'
             = Some v').
  { intros d k k' v v' H. destruct (dict_contains d k) eqn:Hk; [exact H |].
    rewrite dict_get_set_other; [exact H |].
    intros ->. unfold dict_contains in Hk. now rewrite H in Hk. }
  assert (Hp1 : dict_contains d1 "pairs" = true).
  { subst d1. destruct (dict_contains d0 "pairs") eqn:Hp;
      [exact Hp | apply Hset]. }
  split; [| split].
  - unfold dict_contains in Hp1.
    destruct (dict_get d1 "pairs") as [v|] eqn:Hv; [| discriminate].
    apply (dict_contains_get _ _ v). now apply Hget.
  - destruct (dict_contains d1 "last_refresh") eqn:Hl;
      [exact Hl | apply Hset].
  - intros d2 rest2 [= <- _]. split.
    + intros k v Hk. apply Hget. subst d1. now apply Hget.
    + intros Hp Hl. subst d1. now rewrite Hp, Hl.
Qed.

(** X21. What [save_rates] wrote, [load_rates] reads: after a
    [save_rates] that ended normally on a mapping that has the keys
    [pairs] and [last_refresh], [load_rates] returns that mapping and
    leaves the files as they are. *)
Theorem save_rates_load_rates (d : dict) (w w1 : World) :
  save_rates (VDict d) w = (Ok tt, w1) ->
  dict_contains d "pairs" = true ->
  dict_contains d "last_refresh" = true ->
  load_rates w1 = (Ok (VDict d), w1).
Proof.
  unfold save_rates, load_rates. intros Hsave Hp Hl.
  destruct (logged_pairs_count (VDict d)) as [n|e] eqn:Hn;
    [| discriminate Hsave].
  injection Hsave as <-.
  assert (Hget : get_rates (with_rates_json [VDict d] w) = VDict d).
  { unfold get_rates. cbn [rates_json with_rates_json].
    now rewrite Hp, Hl. }
  now rewrite Hget, Hn.
Qed.

Lemma save_rates_load_rates_witness :
  load_rates
    (with_rates_json [VDict [("pairs", VDict scenario_pairs);
                             ("last_refresh", VNone)]] scenario_world)
  = (Ok (VDict [("pairs", VDict scenario_pairs); ("last_refresh", VNone)]),
     with_rates_json [VDict [("pairs", VDict scenario_pairs);
                             ("last_refresh", VNone)]] scenario_world).
Proof.
  apply (save_rates_load_rates
           [("pairs", VDict scenario_pairs); ("last_refresh", VNone)]
           scenario_world); reflexivity.
Defined.

(** ** Aggregator: the loop over well-formed rates *)

Lemma quotes_only_get (d : dict) (k : string) :
  quotes_only d = true ->
  exists current_pair, dict_get_default d k (VDict []) = VDict current_pair.
Proof.
  unfold dict_get_default.
  induction d as [|[k0 v0] d IH]; cbn [quotes_only forallb dict_get snd].
  - eauto.
  - intros [Hv Hd]%andb_true_iff.
    destruct (String.eqb k k0); [| exact (IH Hd)].
    destruct v0; try discriminate. eauto.
Qed.

Lemma quotes_only_set (d q : dict) (k : string) :
  quotes_only d = true -> quotes_only (dict_set d k (VDict q)) = true.
Proof.
  induction d as [|[k0 v0] d IH]; cbn [quotes_only forallb dict_set snd].
  - reflexivity.
  - intros [Hv Hd]%andb_true_iff.
    destruct (String.eqb k k0); cbn [forallb snd is_dict].
    + exact Hd.
    + rewrite Hv. exact (IH Hd).
Qed.

(** The loop body returns on a well-formed pair when the stored pairs
    are mappings. *)
Lemma update_pair_returns (cfg : ParserConfig) (now : string)
    (clock : nat -> string) (pair_key : string) (rate : value) (l : Locals)
    (w : World) (d : dict) :
  pairs l = VDict d ->
  quotes_only d = true ->
  well_formed_rate cfg (pair_key, rate) = true ->
  exists l' w', update_pair cfg now clock pair_key rate l w = (Ok l', w').
Proof.
  intros Hpairs Hquotes Hwf. unfold well_formed_rate in Hwf.
  cbn [fst snd] in Hwf.
  destruct (validate_rate cfg rate) as [[|]|e] eqn:Hvalid;
    [| | discriminate].
  - destruct (split_underscore pair_key) as [[from_curr to_curr]|]
      eqn:Hsplit; [| discriminate].
    destruct (quotes_only_get d pair_key Hquotes) as [current_pair Hcur].
    destruct (update_pair_counts cfg now clock pair_key rate l w
                from_curr to_curr d current_pair Hvalid Hsplit Hpairs Hcur)
      as (l' & w' & H & _).
    eauto.
  - exists l, w. unfold update_pair, bind, lift. now rewrite Hvalid.
Qed.

Lemma update_pairs_returns (cfg : ParserConfig) (now : string)
    (clock : nat -> string) (items : dict) (l : Locals) (w : World)
    (d : dict) :
  pairs l = VDict d ->
  quotes_only d = true ->
  well_formed_rates cfg items = true ->
  exists l' w', update_pairs cfg now clock items l w = (Ok l', w').
Proof.
  revert l w d.
  induction items as [|[pair_key rate] items IH]; intros l w d Hpairs Hq Hwf.
  - exists l, w. reflexivity.
  - cbn [well_formed_rates forallb] in Hwf.
    apply andb_true_iff in Hwf as [Hkv Hrest].
    destruct (update_pair_returns cfg now clock pair_key rate l w d
                Hpairs Hq Hkv) as (l1 & w1 & H1).
    cbn [update_pairs]. unfold bind. rewrite H1.
    pose proof H1 as Hinv.
    apply update_pair_ok_inv in Hinv
      as [(_ & -> & _)|(_ & d0 & Hd0 & Hd1 & _)].
    + exact (IH l w1 d Hpairs Hq Hrest).
    + rewrite Hpairs in Hd0. injection Hd0 as <-.
      apply (IH l1 w1 _ Hd1); [| exact Hrest].
      now apply quotes_only_set.
Qed.

(** ** Aggregator: the records that the loop appends *)

(** The record that the loop body appends, read off the pairs it starts
    with. *)
Lemma update_pair_history_exact (cfg : ParserConfig) (now : string)
    (clock : nat -> string) (pair_key : string) (rate : value)
    (l l' : Locals) (w w' : World) (d : dict) :
  update_pair cfg now clock pair_key rate l w = (Ok l', w') ->
  pairs l = VDict d ->
  match history_record cfg d (clock (created l)) pair_key rate with
  | Some record =>
      load_history w' = (load_history w ++ [VDict record])%list
      /\ created l' = S (created l)
  | None => load_history w' = load_history w /\ created l' = created l
  end.
Proof.
  unfold update_pair, history_record. intros H Hpairs.
  apply bind_ok_inv in H as (valid & w1 & H1 & H).
  apply lift_inv in H1 as [H1 ->].
  assert (Hvalid : is_valid cfg rate = valid).
  { unfold is_valid. rewrite <- H1. now destruct valid. }
  rewrite Hvalid.
  destruct valid; cbn [negb] in H.
  2:{ injection H as <- <-. split; reflexivity. }
  destruct (split_underscore pair_key) as [[from_curr to_curr]|] eqn:Hsplit;
    [| discriminate H].
  apply bind_ok_inv in H as (current_pair & w2 & H2 & H).
  apply lift_inv in H2 as [H2 ->].
  rewrite Hpairs in H2. cbn [py_get] in H2. injection H2 as Hcurrent.
  apply bind_ok_inv in H as (current_rate & w3 & H3 & H).
  apply lift_inv in H3 as [H3 ->].
  assert (Hprevious : current_rate = previous_rate d pair_key).
  { unfold previous_rate. unfold dict_get_default in Hcurrent.
    destruct (dict_get d pair_key) as [v|]; subst current_pair.
    - destruct v; try discriminate H3. cbn [py_get] in H3.
      now injection H3 as <-.
    - cbn in H3. now injection H3 as <-. }
  apply bind_ok_inv in H as (pairs' & w4 & H4 & H).
  apply lift_inv in H4 as [_ ->].
  apply bind_ok_inv in H as (created' & w5 & H5 & H).
  apply bind_ok_inv in H as (known & w6 & H6 & H).
  apply lift_inv in H6 as [_ ->].
  assert (Hfinal : w' = w5 /\ created l' = created')
    by (destruct known; injection H as <- <-; split; reflexivity).
  destruct Hfinal as [-> ->]. clear H.
  unfold try_except, bind, lift, modify, ret in H5.
  rewrite <- Hprevious. unfold source_of. rewrite Hsplit.
  destruct (change_pct rate current_rate) as [pct|e];
    injection H5 as <- <-; split; reflexivity.
Qed.

(** The records depend on the stored pairs only at the keys of the
    items. *)
Lemma history_records_ext (cfg : ParserConfig) (clock : nat -> string)
    (d d' : dict) (items : dict) (created : nat) :
  (forall k, In k (dict_keys items) -> dict_get d' k = dict_get d k) ->
  history_records cfg clock d' items created
  = history_records cfg clock d items created.
Proof.
  revert created.
  induction items as [|[pair_key rate] items IH]; intros created Hsame.
  - reflexivity.
  - cbn [history_records].
    assert (Hrecord : forall t,
               history_record cfg d' t pair_key rate
               = history_record cfg d t pair_key rate).
    { intros t. unfold history_record, previous_rate.
      rewrite (Hsame pair_key) by (now left). reflexivity. }
    rewrite Hrecord.
    destruct (history_record cfg d (clock created) pair_key rate);
      rewrite IH; try reflexivity;
      intros k Hk; apply Hsame; now right.
Qed.

(** The loop appends the records of the fetched pairs, computed from the
    pairs it starts with: a pair is read before it is overwritten, and
    no key comes twice. *)
Lemma update_pairs_history_exact (cfg : ParserConfig) (now : string)
    (clock : nat -> string) (items : dict) (l l' : Locals) (w w' : World)
    (d : dict) :
  update_pairs cfg now clock items l w = (Ok l', w') ->
  pairs l = VDict d ->
  NoDup (dict_keys items) ->
  load_history w'
  = (load_history w ++ history_records cfg clock d items (created l))%list.
Proof.
  revert l w d.
  induction items as [|[pair_key rate] items IH]; intros l w d H Hpairs Hnd.
  - injection H as _ <-. cbn [history_records]. now rewrite app_nil_r.
  - cbn [update_pairs] in H.
    apply bind_ok_inv in H as (l1 & w1 & H1 & H).
    inversion Hnd as [|? ? Hnotin Hnd']; subst.
    pose proof (update_pair_history_exact _ _ _ _ _ _ _ _ _ d H1 Hpairs)
      as Hstep.
    assert (Hd1 : exists d1,
               pairs l1 = VDict d1
               /\ forall k, In k (dict_keys items) ->
                            dict_get d1 k = dict_get d k).
    { apply update_pair_ok_inv in H1
        as [(_ & -> & _)|(_ & d0 & Hd0 & Hd1 & _)].
      - exists d. split; [exact Hpairs | reflexivity].
      - rewrite Hpairs in Hd0. injection Hd0 as <-.
        eexists. split; [exact Hd1 |].
        intros k Hk. apply dict_get_set_other.
        intros ->. contradiction. }
    destruct Hd1 as (d1 & Hpairs1 & Hsame).
    rewrite (IH _ _ d1 H Hpairs1 Hnd').
    rewrite (history_records_ext cfg clock d d1 items _ Hsame).
    cbn [history_records].
    destruct (history_record cfg d (clock (created l)) pair_key rate)
      as [record|]; destruct Hstep as [-> ->].
    + now rewrite <- app_assoc.
    + reflexivity.
Qed.

(** ** Aggregator: a run, stage by stage *)

(** The [try] block over a snapshot whose [pairs] is a mapping: the two
    fetch blocks, then the loop over the merged rates, then the save.
    An exception ends the block at the stage that raises it. *)
Lemma run_update_try_paths (cfg : ParserConfig) (env : Env)
    (source : string) (w w' : World) (stored : dict) (r : result value) :
  snapshot_pairs w = Some stored ->
  run_update_try cfg env source w = (r, w') ->
  exists r1 w1,
    fetch_from "CoinGecko" "coingecko" (coingecko_client env) source [] w
    = (r1, w1)
    /\ match r1 with
       | Raise e => r = Raise e /\ w' = w1
       | Ok rates1 =>
           exists r2 w2,
             fetch_from "ExchangeRate-API" "exchangerate"
               (exchangerate_client env) source rates1 w1
             = (r2, w2)
             /\ match r2 with
                | Raise e => r = Raise e /\ w' = w2
                | Ok [] =>
                    merged_rates env source = []
                    /\ r = Ok no_rates_result /\ w' = w2
                | Ok new_rates =>
                    new_rates = merged_rates env source
                    /\ exists rl w3,
                         update_pairs cfg (current_time env)
                           (record_time env) new_rates
                           (initial_locals (VDict stored)) w2
                         = (rl, w3)
                         /\ match rl with
                            | Raise e => r = Raise e /\ w' = w3
                            | Ok l =>
                                exists d total_pairs,
                                  get_rates w = VDict d
                                  /\ py_len (pairs l) = Ok total_pairs
                                  /\ w' = with_stats
                                            (record_success
                                               (current_time env)
                                               (stats w3))
                                            (cleanup_old_history 1000
                                               (with_rates_json
                                                  [saved_snapshot d
                                                     (pairs l)
                                                     (current_time env)]
                                                  w3))
                                  /\ r = Ok (success_result env source
                                               total_pairs
                                               (updated_count l)
                                               (new_count l))
                            end
                end
       end.
Proof.
  intros Hsnap H.
  destruct (get_rates_pairs w stored Hsnap) as [_ Hpairs].
  destruct (get_rates_is_dict w) as [d Hd].
  unfold run_update_try in H.
  unfold bind at 1 in H. rewrite (load_rates_ok w stored Hsnap) in H.
  unfold bind at 1 in H. unfold lift at 1 in H. rewrite Hpairs in H.
  unfold bind at 1 in H.
  destruct (fetch_from "CoinGecko" "coingecko" (coingecko_client env)
              source [] w) as [[rates1|e] w1] eqn:H1.
  2:{ injection H as <- <-. exists (Raise e), w1. now split. }
  exists (Ok rates1), w1. split; [reflexivity |].
  unfold bind at 1 in H.
  destruct (fetch_from "ExchangeRate-API" "exchangerate"
              (exchangerate_client env) source rates1 w1)
    as [[new_rates|e] w2] eqn:H2.
  2:{ injection H as <- <-. exists (Raise e), w2. now split. }
  exists (Ok new_rates), w2. split; [reflexivity |].
  assert (Hmerged : new_rates = merged_rates env source).
  { apply fetch_from_inv in H1 as [_ Hr1]. apply fetch_from_inv in H2
      as [_ Hr2].
    unfold merged_rates. rewrite (Hr2 _ eq_refl), (Hr1 _ eq_refl).
    reflexivity. }
  destruct new_rates as [|kv new_rates]; cbn [truthy negb] in H.
  { injection H as <- <-. now repeat split. }
  split; [exact Hmerged |].
  change (update_pairs cfg (current_time env) (record_time env)
            (kv :: new_rates)
            {| pairs := VDict stored; updated_count := 0; new_count := 0;
               created := 0 |})
    with (update_pairs cfg (current_time env) (record_time env)
            (kv :: new_rates) (initial_locals (VDict stored))) in H.
  unfold bind at 1 in H.
  destruct (update_pairs cfg (current_time env) (record_time env)
              (kv :: new_rates) (initial_locals (VDict stored)) w2)
    as [[l|e] w3] eqn:H3.
  2:{ injection H as <- <-. exists (Raise e), w3. now split. }
  exists (Ok l), w3. split; [reflexivity |].
  assert (Hsized : sized (pairs l) = true).
  { eapply update_pairs_sized; [exact H3 | reflexivity]. }
  destruct (py_len_sized _ Hsized) as [total Htotal].
  rewrite Hd in H.
  unfold bind at 1 in H. unfold lift at 1 in H. cbn [py_setitem] in H.
  unfold bind at 1 in H. unfold lift at 1 in H. cbn [py_setitem] in H.
  unfold bind at 1 in H. unfold save_rates at 1 in H.
  change (VDict (dict_set (dict_set d "pairs" (pairs l)) "last_refresh"
                   (VStr (current_time env))))
    with (saved_snapshot d (pairs l) (current_time env)) in H.
  rewrite logged_pairs_count_saved, Htotal in H.
  unfold bind, modify, lift, ret in H.
  injection H as <- <-.
  exists d, total. repeat split; try assumption.
  cbn [stats with_stats].
  now rewrite (proj1 (proj2 (cleanup_old_history_untouched 1000 _))).
Qed.

(** ** Aggregator: history retention *)





(** The hypothesis on the snapshot is needed: when a stored entry is no
    mapping, the loop raises at that pair after it has appended the
    record of an earlier pair; the run reports a failure, the history is
    not trimmed, and a history at the cap is left with 1001 records. *)
Example run_update_failed_run_untrimmed :
  exists r,
    fst (run_update config two_pairs_env "coingecko" malformed_world) = Ok r
    /\ reports_success r = false
    /\ List.length (load_history malformed_world) = 1000%nat
    /\ List.length
         (load_history
            (snd (run_update config two_pairs_env "coingecko"
                    malformed_world)))
       = 1001%nat.
Proof.
  eexists. split; [vm_compute; reflexivity |].
  split; [reflexivity |]. split; vm_compute; reflexivity.
Qed.

(** ** Aggregator: the history records of a run *)

(** X14. A run that reports success appends to the history exactly the
    records of the fetched pairs, in the order of the merged rates: one
    record for each pair with a valid rate, none for a pair whose change
    against the stored rate cannot be computed, and nothing else; each
    record names the codes of its pair, the rate and the source name of
    the pair.  The history is then cut down to its 1000 most recent
    records. *)
Theorem run_update_history_records (cfg : ParserConfig) (env : Env)
    (source : string) (w w' : World) (r : value) (stored : dict) :
  run_update cfg env source w = (Ok r, w') ->
  result_field r "success" = Some (VBool true) ->
  snapshot_pairs w = Some stored ->
  load_history w'
  = most_recent 1000
      (load_history w
         ++ history_records cfg (record_time env) stored
              (merged_rates env source) 0)%list
  /\ Z.of_nat
       (List.length
          (history_records cfg (record_time env) stored
             (merged_rates env source) 0))
     <= count_valid cfg (merged_rates env source)
  /\ Forall (records_rate cfg (merged_rates env source))
       (history_records cfg (record_time env) stored
          (merged_rates env source) 0).
Proof.
  unfold run_update, try_except. intros Hrun Htrue Hsnap.
  destruct (run_update_try cfg env source w) as [r0 w0] eqn:Htry.
  apply run_update_try_cases in Htry
    as [(_ & _ & [->|[e ->]])
       |(d & l & w1 & w2 & total & Hd & Hsame & _ & Hloop & _ & -> & ->)].
  - injection Hrun as <- _. discriminate Htrue.
  - unfold run_update_except, bind, modify, ret in Hrun.
    injection Hrun as <- _. discriminate Htrue.
  - injection Hrun as _ <-.
    destruct (get_rates_pairs w stored Hsnap) as [_ Hpairs].
    rewrite Hd in Hpairs. cbn [py_get] in Hpairs. injection Hpairs as Hpairs.
    rewrite Hpairs in Hloop.
    pose proof (update_pairs_history_exact _ _ _ _ _ _ _ _ stored Hloop
                  eq_refl (merged_rates_nodup env source)) as Hexact.
    cbn [created initial_locals] in Hexact.
    destruct Hsame as (_ & Hhistory & _).
    split.
    + change (load_history
                (cleanup_old_history 1000
                   (with_rates_json
                      [saved_snapshot d (pairs l) (current_time env)] w2))
              = most_recent 1000
                  (load_history w
                     ++ history_records cfg (record_time env) stored
                          (merged_rates env source) 0)%list).
      rewrite cleanup_old_history_spec by discriminate.
      change (load_history (with_rates_json _ w2)) with (load_history w2).
      rewrite Hexact. unfold load_history. now rewrite Hhistory.
    + apply update_pairs_history in Hloop
        as (appended & Happ & Hlen & Hrec).
      rewrite Hexact in Happ. apply app_inv_head in Happ.
      rewrite Happ. split; assumption.
Qed.

Lemma run_update_history_records_witness :
  load_history (snd (run_update config overlap_env "all" scenario_world))
  = most_recent 1000
      (load_history scenario_world
         ++ history_records config (record_time overlap_env) scenario_pairs
              (merged_rates overlap_env "all") 0)%list
  /\ Z.of_nat
       (List.length
          (history_records config (record_time overlap_env) scenario_pairs
             (merged_rates overlap_env "all") 0))
     <= count_valid config (merged_rates overlap_env "all")
  /\ Forall (records_rate config (merged_rates overlap_env "all"))
       (history_records config (record_time overlap_env) scenario_pairs
          (merged_rates overlap_env "all") 0).
Proof.
  eapply (run_update_history_records config overlap_env "all"
            scenario_world).
  - reflexivity.
  - reflexivity.
  - reflexivity.
Defined.

(** ** Aggregator: a failing source, and the source after it *)

Lemma fetch_from_all_returns (client scoped : string) (rates : dict)
    (new_rates : dict) (w : World) :
  fetch_from client scoped (Returns rates) "all" new_rates w
  = (Ok (if truthy (VDict rates) then dict_update new_rates rates
         else new_rates),
     with_request client w).
Proof.
  unfold fetch_from. cbn [existsb String.eqb Ascii.eqb Bool.eqb orb].
  unfold bind, modify. now destruct (truthy (VDict rates)).
Qed.

Lemma dict_set_nonempty (d : dict) (k : string) (v : value) :
  dict_set d k v <> [].
Proof.
  destruct d as [|[k0 v0] d]; cbn [dict_set]; [discriminate |].
  destruct (String.eqb k k0); discriminate.
Qed.

Lemma dict_update_nonempty (d other : dict) :
  other <> [] -> dict_update d other <> [].
Proof.
  unfold dict_update.
  assert (Hkeep : forall items acc,
             acc <> [] ->
             fold_left (fun acc kv => dict_set acc (fst kv) (snd kv))
               items acc <> []).
  { induction items as [|kv items IH]; intros acc Hacc; cbn [fold_left].
    - exact Hacc.
    - apply IH, dict_set_nonempty. }
  destruct other as [|kv other]; [contradiction |].
  intros _. cbn [fold_left]. apply Hkeep, dict_set_nonempty.
Qed.

Lemma run_update_returns (cfg : ParserConfig) (env : Env) (source : string)
    (w : World) :
  exists r w', run_update cfg env source w = (Ok r, w').
Proof.
  unfold run_update, try_except.
  destruct (run_update_try cfg env source w) as [[v|e] w0]; [eauto |].
  unfold run_update_except, bind, modify, ret. eauto.
Qed.

(** A run whose first fetch block ends normally has the second source
    asked when the filter names it, and no source after that. *)
Lemma run_update_requests_after_first (cfg : ParserConfig) (env : Env)
    (source : string) (w w1 w' : World) (stored rates1 : dict)
    (r : result value) :
  snapshot_pairs w = Some stored ->
  fetch_from "CoinGecko" "coingecko" (coingecko_client env) source [] w
  = (Ok rates1, w1) ->
  run_update cfg env source w = (r, w') ->
  requests w'
  = (requests w1
       ++ (if asked source "exchangerate" then ["ExchangeRate-API"]
           else []))%list.
Proof.
  intros Hsnap Hfirst Hrun.
  unfold run_update, try_except in Hrun.
  destruct (run_update_try cfg env source w) as [r0 w0] eqn:Htry.
  assert (Hraised : forall e, r0 = Raise e -> requests w' = requests w0).
  { intros e ->. unfold run_update_except, bind, modify, ret in Hrun.
    now injection Hrun as _ <-. }
  assert (Hreturned : forall v, r0 = Ok v -> requests w' = requests w0).
  { intros v ->. now injection Hrun as _ <-. }
  apply (run_update_try_paths cfg env source w w0 stored r0 Hsnap) in Htry
    as (r1 & w1' & H1 & Hcase).
  rewrite Hfirst in H1. injection H1 as <- <-.
  destruct Hcase as (r2 & w2 & H2 & Hcase).
  apply fetch_from_requests in H2. rewrite <- H2.
  destruct r2 as [new_rates|e].
  2:{ destruct Hcase as [Hr ->]. eapply Hraised; eassumption. }
  destruct new_rates as [|kv new_rates].
  { destruct Hcase as (_ & Hr & ->). eapply Hreturned; eassumption. }
  destruct Hcase as (_ & rl & w3 & Hloop & Hcase).
  apply quiet_update_pairs in Hloop as (_ & _ & Hrequests).
  rewrite <- Hrequests.
  destruct rl as [l|e].
  2:{ destruct Hcase as [Hr ->]. eapply Hraised; eassumption. }
  destruct Hcase as (d & total & _ & _ & Hw0 & Hr).
  rewrite (Hreturned _ Hr), Hw0. cbn [requests with_stats].
  exact (proj2 (proj2 (cleanup_old_history_untouched 1000
                         (with_rates_json
                            [saved_snapshot d (pairs l) (current_time env)]
                            w3)))).
Qed.

(** A run in which both fetch blocks end normally, with rates as the
    Quote Sources give them and over stored pairs that are mappings,
    reports success. *)
Lemma run_update_succeeds (cfg : ParserConfig) (env : Env)
    (source : string) (w w1 w2 w' : World) (stored rates1 new_rates : dict)
    (r : value) :
  snapshot_pairs w = Some stored ->
  quotes_only stored = true ->
  fetch_from "CoinGecko" "coingecko" (coingecko_client env) source [] w
  = (Ok rates1, w1) ->
  fetch_from "ExchangeRate-API" "exchangerate" (exchangerate_client env)
    source rates1 w1
  = (Ok new_rates, w2) ->
  new_rates <> [] ->
  well_formed_rates cfg new_rates = true ->
  run_update cfg env source w = (Ok r, w') ->
  result_field r "success" = Some (VBool true)
  /\ new_rates = merged_rates env source.
Proof.
  intros Hsnap Hquotes Hfirst Hsecond Hrates Hwf Hrun.
  unfold run_update, try_except in Hrun.
  destruct (run_update_try cfg env source w) as [r0 w0] eqn:Htry.
  apply (run_update_try_paths cfg env source w w0 stored r0 Hsnap) in Htry
    as (r1 & w1' & H1 & Hcase).
  rewrite Hfirst in H1. injection H1 as <- <-.
  destruct Hcase as (r2 & w2' & H2 & Hcase).
  rewrite Hsecond in H2. injection H2 as <- <-.
  destruct new_rates as [|kv new_rates]; [contradiction |].
  destruct Hcase as (Hmerged & rl & w3 & Hloop & Hcase).
  destruct (update_pairs_returns cfg (current_time env) (record_time env)
              (kv :: new_rates) (initial_locals (VDict stored)) w2 stored
              eq_refl Hquotes Hwf) as (l' & w3' & Hreturns).
  rewrite Hreturns in Hloop. injection Hloop as <- <-.
  destruct Hcase as (d & total & _ & _ & _ & ->).
  injection Hrun as <- _. split; [reflexivity | exact Hmerged].
Qed.

Section SourceFailure.

Variable cfg : ParserConfig.
Variable env : Env.
Variable w : World.
Variable stored : dict.

Hypothesis snapshot : snapshot_pairs w = Some stored.

(** C2, amended.  In a run scoped to one source, that source's
    [ApiRequestError] ends the run: the top-level handler of
    [run_update] counts a failed update, keeps the error text in
    [last_error] and returns a result with [success == False] whose
    message carries the error text; no exception leaves [run_update],
    and the files are unchanged.  In a run over all sources the error
    is absorbed.  When CoinGecko fails, ExchangeRate-API is asked next;
    the run is the one in which CoinGecko returned no pairs; and when
    ExchangeRate-API then returns rates, the run reports success and
    stores them.  When ExchangeRate-API fails after CoinGecko has
    returned, the run is the one in which ExchangeRate-API returned no
    pairs, and the rates of CoinGecko are stored by a run that reports
    success. *)
Theorem run_update_source_failure (reason : string) :
  (coingecko_client env = Raises (ApiRequestError reason) ->
   exists r,
     run_update cfg env "coingecko" w
     = (Ok r, failed_run "CoinGecko" (ApiRequestError reason) w)
     /\ result_field r "success" = Some (VBool false)
     /\ result_field r "message"
        = Some (VStr ("Ошибка при обновлении: "
                        ++ exn_str (ApiRequestError reason))))
  /\
  (exchangerate_client env = Raises (ApiRequestError reason) ->
   exists r,
     run_update cfg env "exchangerate" w
     = (Ok r, failed_run "ExchangeRate-API" (ApiRequestError reason) w)
     /\ result_field r "success" = Some (VBool false)
     /\ result_field r "message"
        = Some (VStr ("Ошибка при обновлении: "
                        ++ exn_str (ApiRequestError reason))))
  /\
  (coingecko_client env = Raises (ApiRequestError reason) ->
   exists r w',
     run_update cfg env "all" w = (Ok r, w')
     /\ run_update cfg (with_coingecko_client (Returns []) env) "all" w
        = (Ok r, w')
     /\ requests w'
        = (requests w ++ ["CoinGecko"; "ExchangeRate-API"])%list
     /\ forall fiat,
          exchangerate_client env = Returns fiat ->
          fiat <> [] ->
          quotes_only stored = true ->
          well_formed_rates cfg (dict_update [] fiat) = true ->
          result_field r "success" = Some (VBool true)
          /\ snapshot_pairs w'
             = Some (stored_after cfg (current_time env)
                       (dict_update [] fiat) stored))
  /\
  (exchangerate_client env = Raises (ApiRequestError reason) ->
   exists r w',
     run_update cfg env "all" w = (Ok r, w')
     /\ run_update cfg (with_exchangerate_client (Returns []) env) "all" w
        = (Ok r, w')
     /\ forall crypto,
          coingecko_client env = Returns crypto ->
          requests w'
          = (requests w ++ ["CoinGecko"; "ExchangeRate-API"])%list
          /\ (crypto <> [] ->
              quotes_only stored = true ->
              well_formed_rates cfg (dict_update [] crypto) = true ->
              result_field r "success" = Some (VBool true)
              /\ snapshot_pairs w'
                 = Some (stored_after cfg (current_time env)
                           (dict_update [] crypto) stored))).
Proof.
  destruct (get_rates_pairs w stored snapshot) as [_ Hpairs].
  repeat apply conj.
  - intros Hcg. eexists. split.
    + unfold run_update, try_except, run_update_try, bind.
      rewrite (load_rates_ok w stored snapshot).
      unfold lift. rewrite Hpairs, Hcg.
      rewrite fetch_from_scoped_failure. reflexivity.
    + split; reflexivity.
  - intros Her. eexists. split.
    + unfold run_update, try_except, run_update_try, bind.
      rewrite (load_rates_ok w stored snapshot).
      unfold lift. rewrite Hpairs, Her.
      rewrite fetch_from_skipped by discriminate.
      rewrite fetch_from_scoped_failure. reflexivity.
    + split; reflexivity.
  - intros Hcg.
    destruct (run_update_returns cfg env "all" w) as (r & w' & Hrun).
    exists r, w'. split; [exact Hrun |].
    assert (Hfirst :
              fetch_from "CoinGecko" "coingecko" (coingecko_client env)
                "all" [] w
              = (Ok [], with_request "CoinGecko" w)).
    { rewrite Hcg. now apply fetch_from_all_no_pairs. }
    split; [| split].
    + rewrite <- Hrun.
      unfold run_update, try_except, run_update_try, bind.
      cbn [with_coingecko_client coingecko_client exchangerate_client
             current_time record_time execution_time].
      rewrite Hcg.
      destruct (load_rates w) as [[current_rates|e] w1]; [| reflexivity].
      destruct (lift _ w1) as [[pairs0|e] w2]; [| reflexivity].
      rewrite fetch_from_all_absorbs by discriminate. reflexivity.
    + rewrite (run_update_requests_after_first cfg env "all" w _ w' stored
                 [] (Ok r) snapshot Hfirst Hrun).
      cbn [requests with_request asked existsb String.eqb Ascii.eqb
             Bool.eqb orb].
      now rewrite <- app_assoc.
    + intros fiat Her Hfiat Hquotes Hwf.
      assert (Hsecond :
                fetch_from "ExchangeRate-API" "exchangerate"
                  (exchangerate_client env) "all" []
                  (with_request "CoinGecko" w)
                = (Ok (dict_update [] fiat),
                   with_request "ExchangeRate-API"
                     (with_request "CoinGecko" w))).
      { rewrite Her, fetch_from_all_returns.
        destruct fiat; [contradiction | reflexivity]. }
      destruct (run_update_succeeds cfg env "all" w _ _ w' stored _ _ r
                  snapshot Hquotes Hfirst Hsecond
                  (dict_update_nonempty [] fiat Hfiat) Hwf Hrun)
        as [Hsuccess Hmerged].
      split; [exact Hsuccess |].
      rewrite Hmerged.
      exact (proj1 (run_update_saved_snapshot cfg env "all" w w' r stored
                      Hrun Hsuccess snapshot)).
  - intros Her.
    destruct (run_update_returns cfg env "all" w) as (r & w' & Hrun).
    exists r, w'. split; [exact Hrun |].
    split.
    + rewrite <- Hrun.
      unfold run_update, try_except, run_update_try, bind.
      cbn [with_exchangerate_client coingecko_client exchangerate_client
             current_time record_time execution_time].
      rewrite Her.
      destruct (load_rates w) as [[current_rates|e] w1]; [| reflexivity].
      destruct (lift _ w1) as [[pairs0|e] w2]; [| reflexivity].
      destruct (fetch_from "CoinGecko" _ _ _ _ w2) as [[new_rates|e] w3];
        [| reflexivity].
      rewrite fetch_from_all_absorbs by discriminate. reflexivity.
    + intros crypto Hcg.
      assert (Hfirst :
                fetch_from "CoinGecko" "coingecko" (coingecko_client env)
                  "all" [] w
                = (Ok (if truthy (VDict crypto) then dict_update [] crypto
                       else []),
                   with_request "CoinGecko" w)).
      { rewrite Hcg. apply fetch_from_all_returns. }
      split.
      * rewrite (run_update_requests_after_first cfg env "all" w _ w'
                   stored _ (Ok r) snapshot Hfirst Hrun).
        cbn [requests with_request asked existsb String.eqb Ascii.eqb
               Bool.eqb orb].
        now rewrite <- app_assoc.
      * intros Hcrypto Hquotes Hwf.
        assert (Htruthy : truthy (VDict crypto) = true)
          by (destruct crypto; [contradiction | reflexivity]).
        rewrite Htruthy in Hfirst.
        assert (Hsecond :
                  fetch_from "ExchangeRate-API" "exchangerate"
                    (exchangerate_client env) "all" (dict_update [] crypto)
                    (with_request "CoinGecko" w)
                  = (Ok (dict_update [] crypto),
                     with_request "ExchangeRate-API"
                       (with_request "CoinGecko" w))).
        { rewrite Her. now apply fetch_from_all_no_pairs. }
        destruct (run_update_succeeds cfg env "all" w _ _ w' stored _ _ r
                    snapshot Hquotes Hfirst Hsecond
                    (dict_update_nonempty [] crypto Hcrypto) Hwf Hrun)
          as [Hsuccess Hmerged].
        split; [exact Hsuccess |].
        rewrite Hmerged.
        exact (proj1 (run_update_saved_snapshot cfg env "all" w w' r
                        stored Hrun Hsuccess snapshot)).
Qed.

End SourceFailure.

Lemma run_update_source_failure_witness :
  exists r,
    run_update config outage_env "coingecko" scenario_world
    = (Ok r,
       failed_run "CoinGecko"
         (ApiRequestError "CoinGecko: Ошибка 500") scenario_world)
    /\ result_field r "success" = Some (VBool false)
    /\ result_field r "message"
       = Some (VStr ("Ошибка при обновлении: "
                       ++ exn_str (ApiRequestError "CoinGecko: Ошибка 500"))).
Proof.
  apply (proj1 (run_update_source_failure config outage_env scenario_world
                  scenario_pairs eq_refl "CoinGecko: Ошибка 500")).
  reflexivity.
Defined.

(** The run over all sources in which CoinGecko fails and
    ExchangeRate-API answers: both sources are asked, the run reports
    success, and the rate of ExchangeRate-API is stored. *)
Example run_update_all_continues :
  exists r,
    fst (run_update config fiat_only_env "all" scenario_world) = Ok r
    /\ result_field r "success" = Some (VBool true)
    /\ requests (snd (run_update config fiat_only_env "all" scenario_world))
       = ["CoinGecko"; "ExchangeRate-API"]
    /\ exists final,
         snapshot_pairs
           (snd (run_update config fiat_only_env "all" scenario_world))
         = Some final
         /\ dict_get final "EUR_USD"
            = Some (quote (VFloat 0.92) "2026-01-02T00:00:00+00:00"
                      "ExchangeRate-API").
Proof.
  eexists. split; [vm_compute; reflexivity |].
  split; [reflexivity |]. split; [vm_compute; reflexivity |].
  eexists. split; vm_compute; reflexivity.
Qed.
